(** * dPIN-cli: the validator hub, the latency probe and the validator session

    A shallow embedding of three JavaScript modules of the repository:
    - the hub server (the [validators] registry and its message and close
      handlers),
    - [utils/network.js] (the latency probe: [getNetworkLatency],
      [getDnsResolutionTime], [getTcpConnectionTime], [performHeadRequest],
      [measureLatency]),
    - the validator's connection module ([measureAccurateLatency],
      [getTcpLatency], [getStatusCode] and the [validate] message handler of
      [connectWebsocket]).

    The runtime (clock, network, child processes, URL parser, random
    numbers) is an explicit record of oracles; the JavaScript control flow
    (promises, [try]/[catch], event callbacks) is written out as an outcome
    type and a small state-and-exception monad. *)

From Stdlib Require Import ZArith QArith Qround Qpower String Ascii List Bool Lia Lqa.
From stdpp Require Import base strings pretty list.

Local Open Scope string_scope.
Local Open Scope Z_scope.

(** ** JavaScript values *)

Module Js.

(** The values that flow through the modelled code. Numbers are the finite
    ones (millisecond counts, status codes, the decimal a ping prints) and
    NaN; an object is known only by its reference. *)
Inductive jsval : Type :=
| JUndefined
| JNull
| JBool (b : bool)
| JNum (q : Q)
| JNaN
| JStr (s : string)
| JObj (ref : nat).

Definition num (z : Z) : jsval := JNum (inject_Z z).

(** ToBoolean. *)
Definition truthy (v : jsval) : bool :=
  match v with
  | JUndefined | JNull | JNaN => false
  | JBool b => b
  | JNum q => negb (Qnum q =? 0)
  | JStr s => negb (String.eqb s "")
  | JObj _ => true
  end.

(** [a || b]. *)
Definition js_or (a b : jsval) : jsval := if truthy a then a else b.

(** [a === b]. *)
Definition strict_eq (a b : jsval) : bool :=
  match a, b with
  | JUndefined, JUndefined => true
  | JNull, JNull => true
  | JBool x, JBool y => Bool.eqb x y
  | JNum x, JNum y => Qeq_bool x y
  | JStr x, JStr y => String.eqb x y
  | JObj x, JObj y => Nat.eqb x y
  | _, _ => false
  end.

Definition is_string (v : jsval) : bool :=
  match v with JStr _ => true | _ => false end.

End Js.
Export Js.

(** ** Double-precision arithmetic

    A JavaScript number is an IEEE-754 binary64 value and every arithmetic
    operation rounds its exact result to the nearest such value, ties to
    the even significand. A finite double is written here as the rational
    it denotes. Overflow to Infinity is left out: the operands of the
    modelled code stay below 2^14. *)

Module Double.

Definition pow2 (e : Z) : Q := (2 ^ e)%Q.

(** A double: [m * 2^e] with a significand of at most 53 bits and an
    exponent in the range of the format. *)
Definition is_double (q : Q) : Prop :=
  exists m e : Z, Z.abs m < 2 ^ 53 /\ -1074 <= e <= 971
                  /\ (q == inject_Z m * pow2 e)%Q.

(** The binary exponent of a positive rational: [floor (log2 q)]. *)
Definition mag (q : Q) : Z :=
  let c := Z.log2 (Qnum q) - Z.log2 (Zpos (Qden q)) in
  if Qle_bool (pow2 c) q then c else c - 1.

(** The exponent of the last place of the doubles around [q]: 52 below
    the binary exponent, and never below that of the subnormal numbers. *)
Definition ulp_exp (q : Q) : Z := Z.max (mag q - 52) (-1074).

(** The nearest integer, a tie going to the even one. *)
Definition rne (x : Q) : Z :=
  let k := Qfloor x in
  match Qcompare (x - inject_Z k) (1 # 2) with
  | Lt => k
  | Gt => k + 1
  | Eq => if Z.even k then k else k + 1
  end.

Definition round_pos (q : Q) : Q :=
  let e := ulp_exp q in (inject_Z (rne (q / pow2 e)) * pow2 e)%Q.

(** The double nearest to [q]: the value of an arithmetic operation whose
    exact result is [q], and of a decimal literal that reads [q]. *)
Definition round_double (q : Q) : Q :=
  match Qcompare q 0 with
  | Eq => 0%Q
  | Gt => round_pos q
  | Lt => (- round_pos (- q))%Q
  end.

End Double.

(** ** The hub server *)

Module Hub.

(** The object stored per validator by the signup handler. *)
Record ValidatorInfo : Type := {
  publicKey : jsval;
  location : jsval;
  connectionTime : Z;
  lastActive : Z;
  ip : jsval;
  clientIp : jsval
}.

(** [validators = new Map()]: a JavaScript Map keeps its entries in
    insertion order, and the close handler iterates in that order, so the
    registry is the list of entries. *)
Definition Registry : Type := list (string * ValidatorInfo).

(** [validators.get(key)] for a string key. *)
Fixpoint map_get (k : string) (m : Registry) : option ValidatorInfo :=
  match m with
  | [] => None
  | (k', v) :: rest => if String.eqb k' k then Some v else map_get k rest
  end.

(** [validators.set(key, value)]: an existing key keeps its position, a
    new key goes last. *)
Fixpoint map_set (k : string) (v : ValidatorInfo) (m : Registry) : Registry :=
  match m with
  | [] => [(k, v)]
  | (k', v') :: rest =>
      if String.eqb k' k then (k, v) :: rest else (k', v') :: map_set k v rest
  end.

(** [validators.delete(key)]. *)
Fixpoint map_delete (k : string) (m : Registry) : Registry :=
  match m with
  | [] => []
  | (k', v') :: rest =>
      if String.eqb k' k then rest else (k', v') :: map_delete k rest
  end.

Definition keys (m : Registry) : list string := map fst m.

(** [data.data] of a signup frame, as far as the handler reads it. *)
Record SignupData : Type := {
  s_publicKey : jsval;
  s_location : jsval;
  s_ip : jsval
}.

(** [data.data] of a validate frame, as far as the handler reads it. *)
Record ReportData : Type := {
  r_validatorId : jsval;
  r_ipAddress : jsval
}.

(** What [JSON.parse(message)] gives the handler. [MsgInvalid] stands for
    every message on which the handler throws before it touches the
    registry: unparsable JSON, a parsed value that is [null], or a signup
    or validate frame whose [data.data] is [null] or missing. A
    [data.data] that is a number, a string or a boolean is read like an
    object without the fields: a [MsgSignup] or [MsgValidate] whose fields
    are [undefined]. *)
Inductive Message : Type :=
| MsgInvalid
| MsgSignup (d : SignupData)
| MsgValidate (d : ReportData)
| MsgOther.

(** A connection accepted by [wss.on("connection")]: the socket and the
    [clientIp] captured in the handler's closure. *)
Record Conn : Type := {
  handle : nat;
  remoteAddress : jsval
}.

(** The acknowledgement [{type: "signup", data: {validatorId}}] written to
    a socket. *)
Record Ack : Type := {
  ack_conn : nat;
  ack_validatorId : string
}.

Record State : Type := {
  validators : Registry;
  outbox : list Ack
}.

Definition initial : State := {| validators := []; outbox := [] |}.

(** [Math.floor(Math.random() * 10000)] for the value [r] returned by
    [Math.random()]: the product is a double-precision one, so the floor
    is taken of the double nearest to [r * 10000]. *)
Definition suffix (r : Q) : Z :=
  Qfloor (Double.round_double (r * inject_Z 10000)).

(** [`validator-${Math.floor(Math.random() * 10000)}`]. *)
Definition fresh_id (r : Q) : string := "validator-" +:+ pretty (suffix r).

(** The object the signup handler stores. *)
Definition newRecord (c : Conn) (now : Z) (d : SignupData) : ValidatorInfo :=
  {| publicKey := s_publicKey d;
     location := js_or (s_location d) (JStr "Unknown");
     connectionTime := now;
     lastActive := now;
     ip := js_or (s_ip d) (remoteAddress c);
     clientIp := remoteAddress c |}.

(** The [signup] branch of the message handler. The record is stored
    first; [publicKey.substring] then throws when the key is not a string,
    so that the acknowledgement is not sent. *)
Definition on_signup (c : Conn) (now : Z) (r : Q) (d : SignupData) (st : State) : State :=
  let validatorId := fresh_id r in
  let vs := map_set validatorId (newRecord c now d) (validators st) in
  if is_string (s_publicKey d)
  then {| validators := vs;
          outbox := outbox st ++ [{| ack_conn := handle c; ack_validatorId := validatorId |}] |}
  else {| validators := vs; outbox := outbox st |}.

(** The [validate] branch of the message handler. The keys stored are
    strings, so [validators.get] finds nothing for any other value. *)
Definition on_report (now : Z) (d : ReportData) (st : State) : State :=
  match r_validatorId d with
  | JStr id =>
      match map_get id (validators st) with
      | Some validatorInfo =>
          {| validators :=
               map_set id
                 {| publicKey := publicKey validatorInfo;
                    location := location validatorInfo;
                    connectionTime := connectionTime validatorInfo;
                    lastActive := now;
                    ip := js_or (r_ipAddress d) (ip validatorInfo);
                    clientIp := clientIp validatorInfo |}
                 (validators st);
             outbox := outbox st |}
      | None => st
      end
  | _ => st
  end.

(** [ws.on("message")]. *)
Definition on_message (c : Conn) (now : Z) (r : Q) (msg : Message) (st : State) : State :=
  match msg with
  | MsgInvalid => st
  | MsgSignup d => on_signup c now r d st
  | MsgValidate d => on_report now d st
  | MsgOther => st
  end.

(** The loop of the close handler: the first entry, in insertion order,
    whose [ip] is the closing connection's [clientIp]. *)
Fixpoint first_with_ip (clientIp0 : jsval) (m : Registry) : option string :=
  match m with
  | [] => None
  | (id, info) :: rest =>
      if strict_eq (ip info) clientIp0 then Some id else first_with_ip clientIp0 rest
  end.

(** [ws.on("close")]. *)
Definition on_close (c : Conn) (st : State) : State :=
  match first_with_ip (remoteAddress c) (validators st) with
  | Some id => {| validators := map_delete id (validators st); outbox := outbox st |}
  | None => st
  end.

(** The events of the hub's event loop, each handled to completion. *)
Inductive Event : Type :=
| EvMessage (c : Conn) (now : Z) (r : Q) (msg : Message)
| EvClose (c : Conn).

Definition step (st : State) (e : Event) : State :=
  match e with
  | EvMessage c now r msg => on_message c now r msg st
  | EvClose c => on_close c st
  end.

Definition run (es : list Event) (st : State) : State := fold_left step es st.

(** The identifiers acknowledged to a connection. *)
Definition acked_to (c : Conn) (st : State) : list string :=
  map ack_validatorId (filter (fun a => Nat.eqb (ack_conn a) (handle c)) (outbox st)).

(** The record the registry holds for the reported [validatorId]. *)
Definition reported (d : ReportData) (st : State) : option ValidatorInfo :=
  match r_validatorId d with
  | JStr id => map_get id (validators st)
  | _ => None
  end.

End Hub.

(** ** The runtime: promises, exceptions, the clock and the outside world *)

Module Runtime.

(** How an [async] function or a promise ends.
    - [Resolved a]: fulfilled with [a] (a function returned [a]).
    - [Rejected e]: rejected with an error of message [e] (a function
      threw); [await] rethrows it and [try]/[catch] catches it.
    - [Uncaught e]: an exception left an event callback (a [response]
      listener). No promise is settled by it and no [catch] of the
      modelled code sees it: the awaiting function never continues and
      the exception reaches the process as an uncaught one.
    - [OutOfFuel]: the computation is still following redirects after
      the number of hops it was allowed to run. *)
Inductive outcome (A : Type) : Type :=
| Resolved (a : A)
| Rejected (e : string)
| Uncaught (e : string)
| OutOfFuel.
Arguments Resolved {A} a.
Arguments Rejected {A} e.
Arguments Uncaught {A} e.
Arguments OutOfFuel {A}.

(** Computations over a state [S] (the clock, the calls made, the frames
    sent). *)
Definition M (S A : Type) : Type := S -> S * outcome A.

Definition ret {S A} (a : A) : M S A := fun s => (s, Resolved a).

Definition bind {S A B} (m : M S A) (k : A -> M S B) : M S B :=
  fun s =>
    match m s with
    | (s', Resolved a) => k a s'
    | (s', Rejected e) => (s', Rejected e)
    | (s', Uncaught e) => (s', Uncaught e)
    | (s', OutOfFuel) => (s', OutOfFuel)
    end.

(** [throw new Error(e)], [reject(new Error(e))]. *)
Definition throw {S A} (e : string) : M S A := fun s => (s, Rejected e).

(** An exception thrown inside an event callback. *)
Definition escape {S A} (e : string) : M S A := fun s => (s, Uncaught e).

Definition out_of_fuel {S A} : M S A := fun s => (s, OutOfFuel).

(** [try { m } catch (error) { h error.message }]. *)
Definition try_catch {S A} (m : M S A) (h : string -> M S A) : M S A :=
  fun s =>
    match m s with
    | (s', Rejected e) => h e s'
    | r => r
    end.

Definition get {S} : M S S := fun s => (s, Resolved s).
Definition modify {S} (f : S -> S) : M S unit := fun s => (f s, Resolved tt).

Declare Scope js_scope.
Delimit Scope js_scope with js.
Notation "x <- m ;; k" := (bind m (fun x => k))
  (at level 100, m at next level, right associativity) : js_scope.
Notation "m ;;; k" := (bind m (fun _ => k))
  (at level 100, right associativity) : js_scope.

(** A text with the character U+0000 in it. *)
Fixpoint has_nul (s : string) : bool :=
  match s with
  | EmptyString => false
  | String c r => Ascii.eqb c Ascii.zero || has_nul r
  end.

(** What the code reads of [new URL(s)]. U+0000 is a forbidden host
    code point: no URL that parses has it in its host name. *)
Record URL : Type := {
  protocol : string;
  hostname : string;
  pathname : string;
  search : string;
  hostname_ok : has_nul hostname = false
}.

(** The options object given to [http.request] / [https.request]. *)
Record RequestOptions : Type := {
  o_https : bool;          (* issued through the [https] module *)
  o_method : string;
  o_hostname : string;
  o_path : string;
  o_port : option Z;
  o_timeout : Z
}.

(** The first event of a request. *)
Inductive RequestEvent : Type :=
| OnResponse (statusCode : Z) (location_header : option string)
| OnError (message : string)
| OnTimeout.

(** The first event of a socket after [connect]. *)
Inductive SocketEvent : Type :=
| OnConnect
| OnSocketTimeout
| OnSocketError.

(** The configuration given to [axios.get] by the latency probe. *)
Record GetConfig : Type := {
  g_timeout : Z;
  g_maxRedirects : Z
}.

(** [response.status] and [response.request.res.responseUrl]. *)
Record GetResponse : Type := {
  g_status : Z;
  g_responseUrl : jsval
}.

(** What [wsConnection.send(data)] does, by the socket the variable
    [wsConnection] holds when it is called (a reconnect replaces the
    socket, also while a handler is waiting): on an open socket the
    frame is written; on a socket that is still connecting [send]
    throws; on a socket that is closing or closed the frame is
    discarded without an error, or [send] throws, by the version of
    [ws]. *)
Inductive SendOutcome : Type :=
| Sent
| Discarded
| SendThrows.

(** The outside world. Every operation reports the time it took, in
    milliseconds, next to its result. *)
Record World : Type := {
  (* [process.platform === 'win32'] *)
  isWindows : bool;
  (* [new URL(s)]; [None] when it throws *)
  parse_url : string -> option URL;
  (* [new URL(location, base).toString()]; [None] when it throws *)
  resolve_url : string -> string -> option string;
  (* [execSync(cmd, {timeout: 3000}).toString()]; [None] when it throws
     (non-zero exit status, time-out) *)
  exec_sync : string -> Z * option string;
  (* [dns.lookup(hostname, cb)] for a host name it accepts: [true] when
     [cb] gets an error *)
  dns_lookup : string -> Z * bool;
  (* the first event of a socket connected to a port of a host, for a
     port and a host name that [socket.connect] accepts *)
  socket_event : Z -> string -> Z * SocketEvent;
  (* the first event of an HTTP(S) request *)
  request_event : RequestOptions -> Z * RequestEvent;
  (* [axios.get(url, config)]; [None] when it rejects *)
  axios_get : string -> GetConfig -> Z * option GetResponse;
  (* [fetch(url, {method: 'GET', ...})]: the status; [None] when it rejects *)
  fetch_status : string -> Z * option Z;
  (* [axios.get("https://ipinfo.io/json")]: city and region; [None] when
     it rejects *)
  ipinfo : Z * option (string * string);
  (* [wsConnection.send(data)] called at a time (in milliseconds) *)
  ws_send : Z -> SendOutcome
}.

(** The calls a computation makes to the outside world, in order. *)
Inductive Call : Type :=
| CallExec (cmd : string)
| CallDns (host : string)
| CallSocket (port : Z) (host : string)
| CallRequest (o : RequestOptions)
| CallAxiosGet (url : string) (cfg : GetConfig)
| CallFetch (url : string)
| CallIpinfo.

(** [[301, 302, 303, 307, 308].includes(statusCode)]. *)
Definition is_redirect (statusCode : Z) : bool :=
  (statusCode =? 301) || (statusCode =? 302) || (statusCode =? 303)
  || (statusCode =? 307) || (statusCode =? 308).

(** [socket.connect(port, hostname)] validates the port before anything
    asynchronous happens and throws ERR_SOCKET_BAD_PORT unless it is an
    integer from 0 to 65535. *)
Definition valid_port (port : Z) : bool := (0 <=? port) && (port <=? 65535).

End Runtime.
Export Runtime.

(** ** Text scanning: the regular expressions and number parsers of the probe *)

Module Scan.

Definition is_digit (c : ascii) : bool :=
  let n := nat_of_ascii c in (48 <=? n)%nat && (n <=? 57)%nat.

(** The ASCII part of [\s]: tab, line feed, vertical tab, form feed,
    carriage return and space. *)
Definition is_space (c : ascii) : bool :=
  let n := nat_of_ascii c in ((9 <=? n)%nat && (n <=? 13)%nat) || (n =? 32)%nat.

(** The longest prefix of characters satisfying [p], and the rest. *)
Fixpoint span (p : ascii -> bool) (s : string) : string * string :=
  match s with
  | EmptyString => (EmptyString, EmptyString)
  | String c r =>
      if p c then let (a, b) := span p r in (String c a, b) else (EmptyString, s)
  end.

(** A literal at the start of [s]: the rest of [s] after it. *)
Fixpoint literal (p s : string) : option string :=
  match p with
  | EmptyString => Some s
  | String c p' =>
      match s with
      | String d s' => if Ascii.eqb c d then literal p' s' else None
      | EmptyString => None
      end
  end.

(** One character of a class at the start of [s]. *)
Definition one_of (p : ascii -> bool) (s : string) : option string :=
  match s with
  | String c r => if p c then Some r else None
  | EmptyString => None
  end.

(** [\s*] *)
Definition spaces (s : string) : string := snd (span is_space s).

(** [(\d+)]: the digits and the rest. *)
Definition digits1 (s : string) : option (string * string) :=
  let (d, r) := span is_digit s in
  if String.eqb d "" then None else Some (d, r).

(** [(\d+(\.\d+)?)]: the captured text and the rest. *)
Definition decimal (s : string) : option (string * string) :=
  match digits1 s with
  | None => None
  | Some (d, r) =>
      match literal "." r with
      | Some r' =>
          match digits1 r' with
          | Some (f, r'') => Some (d +:+ "." +:+ f, r'')
          | None => Some (d, r)
          end
      | None => Some (d, r)
      end
  end.

(** [String.prototype.match] without the [g] flag: the match that starts
    leftmost. None of the four expressions below can match at a position
    where the greedy scan fails, since what follows a maximal run of
    digits or spaces is never a digit or a space. *)
Fixpoint leftmost {A} (here : string -> option A) (s : string) : option A :=
  match here s with
  | Some a => Some a
  | None =>
      match s with
      | EmptyString => None
      | String _ r => leftmost here r
      end
  end.

Definition is_eq_or_lt (c : ascii) : bool :=
  Ascii.eqb c "="%char || Ascii.eqb c "<"%char.

(** Group 1 of [/Average\s*=\s*(\d+)ms/]. *)
Definition re_average : string -> option string :=
  leftmost (fun s =>
    r ← literal "Average" s;
    r ← literal "=" (spaces r);
    '(d, r) ← digits1 (spaces r);
    _ ← literal "ms" r;
    Some d).

(** Group 1 of [/time[=<](\d+)ms/]. *)
Definition re_time_windows : string -> option string :=
  leftmost (fun s =>
    r ← literal "time" s;
    r ← one_of is_eq_or_lt r;
    '(d, r) ← digits1 r;
    _ ← literal "ms" r;
    Some d).

(** Group 1 of [/time=(\d+(\.\d+)?)\s*ms/]. *)
Definition re_time_unix : string -> option string :=
  leftmost (fun s =>
    r ← literal "time=" s;
    '(d, r) ← decimal r;
    _ ← literal "ms" (spaces r);
    Some d).

(** Group 1 of [/[=<](\d+(\.\d+)?)\s*ms/]. *)
Definition re_generic : string -> option string :=
  leftmost (fun s =>
    r ← one_of is_eq_or_lt s;
    '(d, r) ← decimal r;
    _ ← literal "ms" (spaces r);
    Some d).

(** The value of a string of decimal digits. *)
Fixpoint digits_value (acc : Z) (s : string) : Z :=
  match s with
  | EmptyString => acc
  | String c r => digits_value (10 * acc + (Z.of_nat (nat_of_ascii c) - 48)) r
  end.

(** [parseInt(s, 10)] on a string that starts with a digit or is not a
    number at all (the captures are strings of digits). *)
Definition parseInt (s : string) : jsval :=
  match digits1 s with
  | Some (d, _) => num (digits_value 0 d)
  | None => JNaN
  end.

(** [parseFloat(s)] on a string that starts with a digit or is not a
    number at all (the captures are digits, then possibly a point and
    digits). *)
Definition parseFloat (s : string) : jsval :=
  match digits1 s with
  | Some (d, r) =>
      match literal "." r with
      | Some r' =>
          let f := fst (span is_digit r') in
          JNum (Qmake (digits_value 0 (d +:+ f))
                      (Z.to_pos (10 ^ Z.of_nat (String.length f))))
      | None => num (digits_value 0 d)
      end
  | None => JNaN
  end.

(** [m && m[1]] for a match result [m]: the captured group, when there
    is a match and the group is not empty. *)
Definition group1 (m : option string) : option string :=
  match m with
  | Some c => if truthy (JStr c) then Some c else None
  | None => None
  end.

(** The captures of the four expressions start with a digit. *)
Definition starts_with_digit (s : string) : bool :=
  match s with
  | String c _ => is_digit c
  | EmptyString => false
  end.

End Scan.

(** ** utils/network.js: the latency probe *)

Module Network.
Import Scan.
Local Open Scope js_scope.

(** The clock ([Date.now()]) and the calls made so far. *)
Record NetState : Type := {
  now : Z;
  calls : list Call
}.

Definition date_now : M NetState Z := fun s => (s, Resolved (now s)).

(** A call to the outside world that takes [dt] milliseconds. *)
Definition call (c : Call) (dt : Z) : M NetState unit :=
  modify (fun s => {| now := now s + dt; calls := calls s ++ [c] |}).

Definition execSync (W : World) (cmd : string) : M NetState string :=
  let (dt, r) := exec_sync W cmd in
  call (CallExec cmd) dt ;;;
  match r with
  | Some output => ret output
  | None => throw "Command failed"
  end.

(** [dns.lookup(hostname, cb)]. A host name with U+0000 in it is
    refused before anything asynchronous happens: the call throws. *)
Definition dnsLookup (W : World) (hostname : string) : M NetState bool :=
  if has_nul hostname then throw "ERR_INVALID_ARG_VALUE"
  else
    let (dt, err) := dns_lookup W hostname in
    call (CallDns hostname) dt ;;; ret err.

(** [socket.connect(port, hostname)] and the first event that follows.
    The port is validated first; the look-up of the host name, started
    inside [connect], throws on a host name with U+0000 in it. *)
Definition socketConnect (W : World) (port : Z) (hostname : string) : M NetState SocketEvent :=
  if valid_port port then
    if has_nul hostname then throw "ERR_INVALID_ARG_VALUE"
    else
      let (dt, ev) := socket_event W port hostname in
      call (CallSocket port hostname) dt ;;; ret ev
  else throw "ERR_SOCKET_BAD_PORT".

Definition request (W : World) (options : RequestOptions) : M NetState RequestEvent :=
  let (dt, ev) := request_event W options in
  call (CallRequest options) dt ;;; ret ev.

Definition axiosGet (W : World) (url : string) (cfg : GetConfig) : M NetState GetResponse :=
  let (dt, r) := axios_get W url cfg in
  call (CallAxiosGet url cfg) dt ;;;
  match r with
  | Some response => ret response
  | None => throw "Request failed"
  end.

(** [getNetworkLatency(hostname)]. The function has no [await]: it runs
    to its end, [execSync] included, before its caller goes on. *)
Definition getNetworkLatency (W : World) (hostname : string) : M NetState jsval :=
  try_catch
    (let pingCmd :=
       if isWindows W then "ping -n 1 " +:+ hostname else "ping -c 1 " +:+ hostname in
     pingOutput <- execSync W pingCmd ;;
     let early :=
       if isWindows W then
         match group1 (re_average pingOutput) with
         | Some avg => Some (parseInt avg)
         | None =>
             match group1 (re_time_windows pingOutput) with
             | Some t => Some (parseInt t)
             | None => None
             end
         end
       else
         match group1 (re_time_unix pingOutput) with
         | Some t => Some (parseFloat t)
         | None => None
         end in
     match early with
     | Some v => ret v
     | None =>
         match group1 (re_generic pingOutput) with
         | Some g => ret (parseFloat g)
         | None => ret JNull
         end
     end)
    (fun _ => ret JNull).

(** [getDnsResolutionTime(hostname)]. *)
Definition getDnsResolutionTime (W : World) (hostname : string) : M NetState jsval :=
  startTime <- date_now ;;
  err <- dnsLookup W hostname ;;
  t <- date_now ;;
  let resolveTime := t - startTime in
  ret (if err : bool then JNull else num resolveTime).

(** [getTcpConnectionTime(hostname, port)]. An exception thrown by
    [socket.connect] inside the promise executor rejects the promise. *)
Definition getTcpConnectionTime (W : World) (hostname : string) (port : Z) : M NetState jsval :=
  startTime <- date_now ;;
  ev <- socketConnect W port hostname ;;
  match ev with
  | OnConnect =>
      t <- date_now ;;
      let connectTime := t - startTime in
      ret (num connectTime)
  | OnSocketTimeout => ret JNull
  | OnSocketError => ret JNull
  end.

(** What [performHeadRequest] resolves with. *)
Record HeadResponse : Type := {
  h_time : Z;
  h_status : Z;
  h_finalUrl : jsval;
  h_error : jsval
}.

(** The [options] object [makeRequest] builds for a parsed URL;
    [search || ''] is [search] itself. *)
Definition headOptions (timeout port : Z) (u : URL) : RequestOptions :=
  {| o_https := String.eqb (protocol u) "https:";
     o_method := "HEAD";
     o_hostname := hostname u;
     o_path := pathname u +:+ (if String.eqb (search u) "" then "" else search u);
     o_port := Some port;
     o_timeout := timeout |}.

(** [protocol === 'https:' ? 443 : 80], computed once by
    [performHeadRequest] from the URL it is given. *)
Definition headPort (u : URL) : Z :=
  if String.eqb (protocol u) "https:" then 443 else 80.

Section MakeRequest.
Variable W : World.
(* the variables of [performHeadRequest] that [makeRequest] closes over *)
Variables (timeout maxRedirects port startTime : Z).

(** [makeRequest(currentUrl, redirectCount)]. The first call is made
    inside the promise executor, where an exception rejects the promise;
    every later call is made from a [response] callback, where an
    exception is caught by nobody. [fuel] bounds the number of requests
    (see [performHeadRequest]). *)
Fixpoint makeRequest (fuel : nat) (currentUrl : string) (redirectCount : Z)
  : M NetState HeadResponse :=
  match fuel with
  | O => out_of_fuel
  | S fuel' =>
      match parse_url W currentUrl with
      | None =>
          if redirectCount =? 0 then throw "Invalid URL" else escape "Invalid URL"
      | Some u =>
          let options := headOptions timeout port u in
          ev <- request W options ;;
          match ev with
          | OnResponse statusCode location =>
              if is_redirect statusCode then
                if redirectCount >=? maxRedirects then throw "Too many redirects"
                else
                  match location with
                  | None => throw "Redirect location missing"
                  | Some loc =>
                      if String.eqb loc "" then throw "Redirect location missing"
                      else
                        match resolve_url W loc currentUrl with
                        | None => escape "Invalid URL"
                        | Some redirectUrl =>
                            makeRequest fuel' redirectUrl (redirectCount + 1)
                        end
                  end
              else
                t <- date_now ;;
                ret {| h_time := t - startTime;
                       h_status := statusCode;
                       h_finalUrl := JStr currentUrl;
                       h_error := JUndefined |}
          | OnError e => throw e
          | OnTimeout => throw "Request timed out"
          end
      end
  end.
End MakeRequest.

(** [performHeadRequest(url, timeout, maxRedirects)]. The [catch] of the
    function only sees [new URL(url)] fail: the promise it returns is not
    awaited inside the [try]. A chain of requests has at most
    [maxRedirects + 1] of them, which is the fuel given. *)
Definition performHeadRequest (W : World) (url : string) (timeout maxRedirects : Z)
  : M NetState HeadResponse :=
  startTime <- date_now ;;
  match parse_url W url with
  | None =>
      t <- date_now ;;
      ret {| h_time := t - startTime;
             h_status := 0;
             h_finalUrl := JUndefined;
             h_error := JStr "Invalid URL" |}
  | Some u =>
      let port := headPort u in
      makeRequest W timeout maxRedirects port startTime
        (S (Z.to_nat maxRedirects)) url 0
  end.

(** The [options] argument of [measureLatency]: each key may be absent. *)
Record Options : Type := {
  opt_timeout : option Z;
  opt_preferNetworkPing : option bool;
  opt_measureDns : option bool;
  opt_useHeadRequest : option bool;
  opt_maxRedirects : option Z
}.

Definition no_options : Options :=
  {| opt_timeout := None; opt_preferNetworkPing := None; opt_measureDns := None;
     opt_useHeadRequest := None; opt_maxRedirects := None |}.

Record Config : Type := {
  c_timeout : Z;
  preferNetworkPing : bool;
  measureDns : bool;
  useHeadRequest : bool;
  c_maxRedirects : Z
}.

Definition defaults : Config :=
  {| c_timeout := 3000;
     preferNetworkPing := true;
     measureDns := true;
     useHeadRequest := true;
     c_maxRedirects := 5 |}.

(** [{ ...defaults, ...options }] *)
Definition spread (d : Config) (o : Options) : Config :=
  {| c_timeout := default (c_timeout d) (opt_timeout o);
     preferNetworkPing := default (preferNetworkPing d) (opt_preferNetworkPing o);
     measureDns := default (measureDns d) (opt_measureDns o);
     useHeadRequest := default (useHeadRequest d) (opt_useHeadRequest o);
     c_maxRedirects := default (c_maxRedirects d) (opt_maxRedirects o) |}.

(** The object [measureLatency] returns; a key that is not set reads
    [undefined]. *)
Record Results : Type := {
  url : string;
  error : jsval;
  networkPing : jsval;
  httpLatency : jsval;
  dnsTime : jsval;
  status : jsval;
  finalUrl : jsval;
  bestLatency : jsval
}.

Definition set_ping_dns (networkPing0 dnsTime0 : jsval) (r : Results) : Results :=
  {| url := url r; error := error r; networkPing := networkPing0;
     httpLatency := httpLatency r; dnsTime := dnsTime0; status := status r;
     finalUrl := finalUrl r; bestLatency := bestLatency r |}.

Definition set_http (httpLatency0 status0 finalUrl0 : jsval) (r : Results) : Results :=
  {| url := url r; error := error r; networkPing := networkPing r;
     httpLatency := httpLatency0; dnsTime := dnsTime r; status := status0;
     finalUrl := finalUrl0; bestLatency := bestLatency r |}.

Definition set_status (status0 : jsval) (r : Results) : Results :=
  {| url := url r; error := error r; networkPing := networkPing r;
     httpLatency := httpLatency r; dnsTime := dnsTime r; status := status0;
     finalUrl := finalUrl r; bestLatency := bestLatency r |}.

Definition set_bestLatency (bestLatency0 : jsval) (r : Results) : Results :=
  {| url := url r; error := error r; networkPing := networkPing r;
     httpLatency := httpLatency r; dnsTime := dnsTime r; status := status r;
     finalUrl := finalUrl r; bestLatency := bestLatency0 |}.

(** The configuration [measureLatency] gives to [axios.get]. *)
Definition getConfig (config : Config) : GetConfig :=
  {| g_timeout := c_timeout config; g_maxRedirects := c_maxRedirects config |}.

(** The GET written twice in [measureLatency]: as the fall-back of a
    failed HEAD, and as the only request when [useHeadRequest] is off.
    [try { ...axios.get... } catch { results.status = 0 }]. *)
Definition getRequest (W : World) (config : Config) (url0 : string) (results : Results)
  : M NetState Results :=
  try_catch
    (startTime <- date_now ;;
     response <- axiosGet W url0 (getConfig config) ;;
     t <- date_now ;;
     ret (set_http (num (t - startTime)) (num (g_status response)) (g_responseUrl response)
            results))
    (fun _ => ret (set_status (num 0) results)).

(** The [if (config.useHeadRequest) { try {...} catch (headError) {...} }
    else {...}] of [measureLatency]. *)
Definition httpProbe (W : World) (config : Config) (url0 : string) (results : Results)
  : M NetState Results :=
  if useHeadRequest config then
    try_catch
      (headResponse <- performHeadRequest W url0 (c_timeout config) (c_maxRedirects config) ;;
       ret (set_http (num (h_time headResponse)) (num (h_status headResponse))
              (h_finalUrl headResponse) results))
      (fun _ => getRequest W config url0 results)
  else getRequest W config url0 results.

(** [config.preferNetworkPing && results.networkPing ? results.networkPing
    : results.httpLatency] *)
Definition chooseBest (config : Config) (results : Results) : jsval :=
  if preferNetworkPing config && truthy (networkPing results)
  then networkPing results
  else httpLatency results.

(** [measureLatency(url, options)]. [getNetworkLatency] has returned
    before [getDnsResolutionTime] is called, so the two run in this
    order. *)
Definition measureLatency (W : World) (url0 : string) (options : Options) : M NetState Results :=
  let config := spread defaults options in
  try_catch
    (match parse_url W url0 with
     | None => throw "Invalid URL"
     | Some urlObj =>
         let hostname0 := hostname urlObj in
         let results :=
           {| url := url0; error := JUndefined; networkPing := JNull;
              httpLatency := JNull; dnsTime := JNull; status := JNull;
              finalUrl := JStr url0; bestLatency := JUndefined |} in
         networkPing0 <- getNetworkLatency W hostname0 ;;
         dnsTime0 <- (if measureDns config then getDnsResolutionTime W hostname0
                      else ret JNull) ;;
         let results := set_ping_dns networkPing0 dnsTime0 results in
         results <- httpProbe W config url0 results ;;
         ret (set_bestLatency (chooseBest config results) results)
     end)
    (fun e =>
       ret {| url := url0; error := JStr e; networkPing := JNull;
              httpLatency := JNull; dnsTime := JUndefined; status := num 0;
              finalUrl := JUndefined; bestLatency := JUndefined |}).

(** *** Vocabulary of the properties *)

(** A number of milliseconds, or [null]. *)
Definition number_or_null (v : jsval) : Prop := v = JNull \/ exists q, v = JNum q.

(** [hops W timeout port u n uf ev t]: the requests [makeRequest] issues
    from [u] meet [n] redirects, each with a [Location] that resolves
    against the URL that was requested; the last of these URLs is [uf],
    the first event of the request for [uf] is [ev], and the requests
    took [t] milliseconds together. *)
Inductive hops (W : World) (timeout port : Z)
  : string -> nat -> string -> RequestEvent -> Z -> Prop :=
| hops_last u U dt ev :
    parse_url W u = Some U ->
    request_event W (headOptions timeout port U) = (dt, ev) ->
    hops W timeout port u 0 u ev dt
| hops_next u U dt code loc u' n uf ev t :
    parse_url W u = Some U ->
    request_event W (headOptions timeout port U) = (dt, OnResponse code (Some loc)) ->
    is_redirect code = true ->
    loc <> "" ->
    resolve_url W loc u = Some u' ->
    hops W timeout port u' n uf ev t ->
    hops W timeout port u (S n) uf ev (dt + t).

(** The HEAD path fails: [performHeadRequest] rejects, whatever the
    clock shows when it is called. *)
Definition head_fails (W : World) (url0 : string) (config : Config) : Prop :=
  forall s0, exists s1 e,
    performHeadRequest W url0 (c_timeout config) (c_maxRedirects config) s0 = (s1, Rejected e).

End Network.

(** ** The validator's connection module *)

Module Connection.
Local Open Scope js_scope.

(** A frame [{type: "validate", data: {...}}] written to the hub socket. *)
Record Frame : Type := {
  f_callbackId : string;
  f_status : string;
  f_latency : jsval;
  f_validatorId : jsval;
  f_signedMessage : string;
  f_location : string;
  f_ipAddress : string
}.

(** The module-level variables ("connection state"), the clock and calls
    of the runtime, and what has been written to [wsConnection]. *)
Record Session : Type := {
  net : Network.NetState;
  validatorId : jsval;
  pendingPayouts : Z;
  location : string;
  ipAddress : string;
  lastPingTime : jsval;
  sent : list Frame
}.

Definition COST_PER_VALIDATION : Z := 100.

(** A computation of the runtime, run inside a session. *)
Definition lift {A} (m : M Network.NetState A) : M Session A :=
  fun s =>
    let (n, r) := m (net s) in
    ({| net := n; validatorId := validatorId s; pendingPayouts := pendingPayouts s;
        location := location s; ipAddress := ipAddress s;
        lastPingTime := lastPingTime s; sent := sent s |}, r).

Definition set_lastPingTime (t : jsval) : M Session unit :=
  modify (fun s =>
    {| net := net s; validatorId := validatorId s; pendingPayouts := pendingPayouts s;
       location := location s; ipAddress := ipAddress s;
       lastPingTime := t; sent := sent s |}).

Definition set_validatorId (v : jsval) : M Session unit :=
  modify (fun s =>
    {| net := net s; validatorId := v; pendingPayouts := pendingPayouts s;
       location := location s; ipAddress := ipAddress s;
       lastPingTime := lastPingTime s; sent := sent s |}).

Definition set_pendingPayouts (p : Z) : M Session unit :=
  modify (fun s =>
    {| net := net s; validatorId := validatorId s; pendingPayouts := p;
       location := location s; ipAddress := ipAddress s;
       lastPingTime := lastPingTime s; sent := sent s |}).

(** [wsConnection.send(JSON.stringify(frame))], at the time of the
    clock: the frame goes out, is discarded, or [send] throws. *)
Definition send (W : World) (f : Frame) : M Session unit :=
  s <- get ;;
  match ws_send W (Network.now (net s)) with
  | Sent =>
      modify (fun s =>
        {| net := net s; validatorId := validatorId s; pendingPayouts := pendingPayouts s;
           location := location s; ipAddress := ipAddress s;
           lastPingTime := lastPingTime s; sent := sent s ++ [f] |})
  | Discarded => ret tt
  | SendThrows => throw "WebSocket is not open"
  end.

Definition fetchStatus (W : World) (url : string) : M Network.NetState Z :=
  let (dt, r) := fetch_status W url in
  Network.call (CallFetch url) dt ;;;
  match r with
  | Some status => ret status
  | None => throw "fetch failed"
  end.

Definition ipinfoGet (W : World) : M Network.NetState (string * string) :=
  let (dt, r) := ipinfo W in
  Network.call CallIpinfo dt ;;;
  match r with
  | Some data => ret data
  | None => throw "Request failed"
  end.

(** [getTcpLatency(hostname, port)]. *)
Definition getTcpLatency (W : World) (hostname : string) (port : Z) : M Network.NetState jsval :=
  startTime <- Network.date_now ;;
  ev <- Network.socketConnect W port hostname ;;
  match ev with
  | OnConnect =>
      t <- Network.date_now ;;
      let latency := t - startTime in
      ret (num latency)
  | OnSocketTimeout => ret JNull
  | OnSocketError => ret JNull
  end.

(** What [getStatusCode] resolves with. *)
Record StatusCheck : Type := {
  sc_time : Z;
  sc_status : Z
}.

(** [getStatusCode(url)]. On a redirect the promise is resolved with the
    promise of the next call, and no count of redirects is kept
    ([http.request] ignores the [followRedirects] and [maxRedirects]
    keys of its options): [fuel] is the number of requests the model
    may run. A [location] header that is absent reads [undefined], which
    [new URL] takes as the text "undefined". *)
Fixpoint getStatusCode (W : World) (fuel : nat) (url : string) : M Network.NetState StatusCheck :=
  match fuel with
  | O => out_of_fuel
  | S fuel' =>
      match parse_url W url with
      | None => throw "Invalid URL"
      | Some urlObj =>
          startTime <- Network.date_now ;;
          let options :=
            {| o_https := String.eqb (protocol urlObj) "https:";
               o_method := "HEAD";
               o_hostname := hostname urlObj;
               o_path := pathname urlObj +:+ search urlObj;
               o_port := None;
               o_timeout := 3000 |} in
          ev <- Network.request W options ;;
          match ev with
          | OnResponse statusCode location_header =>
              t <- Network.date_now ;;
              let time := t - startTime in
              if is_redirect statusCode then
                match resolve_url W (default "undefined" location_header) url with
                | None => escape "Invalid URL"
                | Some redirectUrl => getStatusCode W fuel' redirectUrl
                end
              else ret {| sc_time := time; sc_status := statusCode |}
          | OnError _ =>
              t <- Network.date_now ;;
              ret {| sc_time := t - startTime; sc_status := 0 |}
          | OnTimeout => ret {| sc_time := 3000; sc_status := 0 |}
          end
      end
  end.

(** What [measureAccurateLatency] resolves with. *)
Record PingResult : Type := {
  p_time : jsval;
  p_status : Z
}.

(** [measureAccurateLatency(url)]. *)
Definition measureAccurateLatency (W : World) (fuel : nat) (url : string)
  : M Network.NetState PingResult :=
  try_catch
    (match parse_url W url with
     | None => throw "Invalid URL"
     | Some urlObj =>
         let hostname0 := hostname urlObj in
         let port := if String.eqb (protocol urlObj) "https:" then 443 else 80 in
         tcpLatency <- getTcpLatency W hostname0 port ;;
         statusCheck <- getStatusCode W fuel url ;;
         ret {| p_time := js_or tcpLatency (num (sc_time statusCheck));
                p_status := sc_status statusCheck |}
     end)
    (fun _ => ret {| p_time := num 0; p_status := 0 |}).

(** [responseStatus == "unknown"] for a number: the text converts to NaN,
    which is equal to no number. *)
Definition eq_unknown (responseStatus : Z) : bool := false.

(** The test that selects the "Bad" reply. *)
Definition bad_status (responseStatus : Z) : bool :=
  ((400 <=? responseStatus) && (responseStatus <? 600))
  || (responseStatus =? 0) || eq_unknown responseStatus.

(** The location looked up again before a "Bad" reply; a failed lookup
    keeps the stored one. *)
Definition freshLocation (W : World) : M Session string :=
  s <- get ;;
  try_catch
    (data <- lift (ipinfoGet W) ;;
     ret (fst data +:+ ", " +:+ snd data))
    (fun _ => ret (location s)).

Definition reply (W : World) (callbackId status : string) (latency : jsval)
    (signature locationInfo : string) : M Session unit :=
  s <- get ;;
  send W
       {| f_callbackId := callbackId;
          f_status := status;
          f_latency := latency;
          f_validatorId := validatorId s;
          f_signedMessage := signature;
          f_location := locationInfo;
          f_ipAddress := ipAddress s |}.

(** [pendingPayouts += COST_PER_VALIDATION] *)
Definition credit : M Session unit :=
  s <- get ;;
  set_pendingPayouts (pendingPayouts s + COST_PER_VALIDATION).

(** The status after the probe: a probe status of 0 is looked up once
    more with [fetch], whose failure keeps the 0. *)
Definition statusAfterFetch (W : World) (url : string) (pingResult : PingResult) : M Session Z :=
  if p_status pingResult =? 0 then
    try_catch (lift (fetchStatus W url)) (fun _ => ret (p_status pingResult))
  else ret (p_status pingResult).

(** The [validate] branch of the message handler of [connectWebsocket],
    for a request [{url, callbackId}]; [sign] is [signMessage] with the
    session's key pair. What the [try] block throws reaches the
    [catch] block after it: a [send] that throws does, after the credit
    of the [try] block. *)
Definition on_validate (W : World) (sign : string -> string) (fuel : nat)
    (url callbackId : string) : M Session unit :=
  let signature := sign ("Replying to " +:+ callbackId) in
  try_catch
    (pingResult <- lift (measureAccurateLatency W fuel url) ;;
     responseStatus <- statusAfterFetch W url pingResult ;;
     t <- lift Network.date_now ;;
     set_lastPingTime (num t) ;;;
     let latency := p_time pingResult in
     credit ;;;
     if bad_status responseStatus then
       locationInfo <- freshLocation W ;;
       reply W callbackId "Bad" (num 0) signature locationInfo
     else
       s <- get ;;
       reply W callbackId "Good" latency signature (location s))
    (fun _ =>
       credit ;;;
       locationInfo <- freshLocation W ;;
       reply W callbackId "Bad" (num 0) signature locationInfo).

(** The frames the hub sends to a validator, as far as the handler reads
    them. [MsgInvalid] stands for a message on which the handler throws
    at once (unparsable JSON, no [data] object). *)
Inductive Message : Type :=
| MsgInvalid
| MsgSignup (validatorId0 : jsval) (pendingPayouts0 : option Z)
| MsgValidate (url callbackId : string)
| MsgOther.

(** [wsConnection.on("message")]: whatever the branches throw is logged. *)
Definition on_message (W : World) (sign : string -> string) (fuel : nat) (msg : Message)
  : M Session unit :=
  try_catch
    (match msg with
     | MsgInvalid => throw "Unexpected token"
     | MsgSignup validatorId0 pendingPayouts0 =>
         set_validatorId validatorId0 ;;;
         if is_string validatorId0 then
           match pendingPayouts0 with
           | Some p => set_pendingPayouts p
           | None => ret tt
           end
         else throw "validatorId.padEnd is not a function"
     | MsgValidate url callbackId => on_validate W sign fuel url callbackId
     | MsgOther => ret tt
     end)
    (fun _ => ret tt).

(** The probe and the status look-up that follows it: what the handler
    has in [pingResult] and [responseStatus] when it classifies. *)
Definition obtainStatus (W : World) (fuel : nat) (url : string) : M Session (PingResult * Z) :=
  pingResult <- lift (measureAccurateLatency W fuel url) ;;
  responseStatus <- statusAfterFetch W url pingResult ;;
  ret (pingResult, responseStatus).

(** The time at which the [try] block writes its reply, for the session
    [s1] in which the status [responseStatus] was obtained: at once for
    a good status, after the look-up of the location for a bad one. *)
Definition replyTime (W : World) (s1 : Session) (responseStatus : Z) : Z :=
  if bad_status responseStatus
  then Network.now (net s1) + fst (ipinfo W)
  else Network.now (net s1).

(** The time at which the [catch] block writes its reply when the
    [send] of the [try] block has thrown: one more look-up of the
    location later. *)
Definition retryTime (W : World) (s1 : Session) (responseStatus : Z) : Z :=
  replyTime W s1 responseStatus + fst (ipinfo W).

(** The text [freshLocation] gives in the session [s]. *)
Definition locationText (W : World) (s : Session) : string :=
  match snd (ipinfo W) with
  | Some data => fst data +:+ ", " +:+ snd data
  | None => location s
  end.

(** The frame the [try] block writes for the probe result [p] and the
    status [responseStatus]. *)
Definition tryFrame (W : World) (sign : string -> string) (callbackId : string)
    (s : Session) (p : PingResult) (responseStatus : Z) : Frame :=
  {| f_callbackId := callbackId;
     f_status := if bad_status responseStatus then "Bad" else "Good";
     f_latency := if bad_status responseStatus then num 0 else p_time p;
     f_validatorId := validatorId s;
     f_signedMessage := sign ("Replying to " +:+ callbackId);
     f_location := if bad_status responseStatus then locationText W s else location s;
     f_ipAddress := ipAddress s |}.

(** The runtime after one more look-up of the location. *)
Definition located (W : World) (n : Network.NetState) : Network.NetState :=
  {| Network.now := Network.now n + fst (ipinfo W);
     Network.calls := Network.calls n ++ [CallIpinfo] |}.

(** The runtime when the [try] block writes its reply. *)
Definition replyNet (W : World) (s1 : Session) (responseStatus : Z) : Network.NetState :=
  if bad_status responseStatus then located W (net s1) else net s1.

(** The session [s] after the handler, when the status was obtained in
    the session [s1]: the runtime, the credit added and the frames
    written. *)
Definition replied (s s1 : Session) (n : Network.NetState) (credited : Z)
    (frames : list Frame) : Session :=
  {| net := n;
     validatorId := validatorId s;
     pendingPayouts := pendingPayouts s + credited;
     location := location s;
     ipAddress := ipAddress s;
     lastPingTime := num (Network.now (net s1));
     sent := sent s ++ frames |}.

(** The frame the [catch] block writes. *)
Definition catchFrame (W : World) (sign : string -> string) (callbackId : string)
    (s : Session) : Frame :=
  {| f_callbackId := callbackId;
     f_status := "Bad";
     f_latency := num 0;
     f_validatorId := validatorId s;
     f_signedMessage := sign ("Replying to " +:+ callbackId);
     f_location := locationText W s;
     f_ipAddress := ipAddress s |}.

End Connection.

(** ** Scenarios: concrete hubs, servers and sessions *)

Module Scenario.
Import Network Connection.

(** Two validators behind one address, as the hub sees them. *)
Definition conn1 : Hub.Conn := {| Hub.handle := 1; Hub.remoteAddress := JStr "203.0.113.7" |}.
Definition conn2 : Hub.Conn := {| Hub.handle := 2; Hub.remoteAddress := JStr "203.0.113.7" |}.

Definition signup1 : Hub.SignupData :=
  {| Hub.s_publicKey := JStr "cHVibGljLWtleS0x"; Hub.s_location := JStr "Pune, Maharashtra, IN";
     Hub.s_ip := JStr "203.0.113.7" |}.
Definition signup2 : Hub.SignupData :=
  {| Hub.s_publicKey := JStr "cHVibGljLWtleS0y"; Hub.s_location := JStr "Pune, Maharashtra, IN";
     Hub.s_ip := JStr "203.0.113.7" |}.

(** The doubles that the literals 0.0001 and 0.0002, 0.7 and 0.70001
    denote. *)
Definition draw1 : Q := Double.round_double (1 # 10000).
Definition draw2 : Q := Double.round_double (2 # 10000).
Definition draw_07 : Q := Double.round_double (7 # 10).
Definition draw_070001 : Q := Double.round_double (70001 # 100000).

(** Both sign up, with the draws 0.0001 and 0.0002 of [Math.random()];
    then the second connection closes. *)
Definition shared_address_run : list Hub.Event :=
  [ Hub.EvMessage conn1 1000 draw1 (Hub.MsgSignup signup1);
    Hub.EvMessage conn2 2000 draw2 (Hub.MsgSignup signup2);
    Hub.EvClose conn2 ].

Definition start : NetState := {| now := 1000; calls := [] |}.

(** A host name with the character U+0000 in front. *)
Definition nul_host : string := String Ascii.zero "a.test".

Definition a_test (path : string) : URL :=
  {| protocol := "http:"; hostname := "a.test"; pathname := path; search := "";
     hostname_ok := eq_refl |}.

(** What [new URL] reads of the URLs of the scenarios. *)
Definition parse_a_test (s : string) : option URL :=
  if String.eqb s "http://a.test/" then Some (a_test "/")
  else if String.eqb s "http://a.test/b" then Some (a_test "/b")
  else if String.eqb s "http://a.test/c" then Some (a_test "/c")
  else None.

(** [new URL(location, base).toString()] on the locations of the
    scenarios; the text "http://" names no host and is no URL. *)
Definition resolve_a_test (loc base : string) : option string :=
  if String.eqb loc "/b" then Some "http://a.test/b"
  else if String.eqb loc "http://a.test/c" then Some "http://a.test/c"
  else None.

(** A host that answers nothing and a machine without network. *)
Definition offline : World :=
  {| isWindows := false;
     parse_url := parse_a_test;
     resolve_url := resolve_a_test;
     exec_sync := fun _ => (3000, None);
     dns_lookup := fun _ => (12, true);
     socket_event := fun _ _ => (2000, OnSocketTimeout);
     request_event := fun _ => (7, OnError "ECONNREFUSED");
     axios_get := fun _ _ => (9, None);
     fetch_status := fun _ => (9, None);
     ipinfo := (9, None);
     ws_send := fun _ => Sent |}.

Definition unix_ping_output : string :=
  "64 bytes from 192.0.2.10: icmp_seq=1 ttl=57 time=10.123 ms".

(** A server that answers [/] with a redirect whose [Location] is the
    text "http://". *)
Definition bad_location : World :=
  {| isWindows := false;
     parse_url := parse_a_test;
     resolve_url := resolve_a_test;
     exec_sync := fun _ => (11, Some unix_ping_output);
     dns_lookup := fun _ => (12, false);
     socket_event := fun _ _ => (10, OnConnect);
     request_event := fun _ => (20, OnResponse 301 (Some "http://"));
     axios_get := fun _ _ => (90, Some {| g_status := 200; g_responseUrl := JStr "http://a.test/" |});
     fetch_status := fun _ => (90, Some 200);
     ipinfo := (9, None);
     ws_send := fun _ => Sent |}.

(** A server that redirects [/] to [/b] (301, relative location), [/b] to
    [/c] (302, absolute location), and answers [/c] with 200. *)
Definition two_redirects : World :=
  {| isWindows := false;
     parse_url := parse_a_test;
     resolve_url := resolve_a_test;
     exec_sync := fun _ => (11, Some unix_ping_output);
     dns_lookup := fun _ => (12, false);
     socket_event := fun _ _ => (10, OnConnect);
     request_event := fun o =>
       if String.eqb (o_path o) "/" then (20, OnResponse 301 (Some "/b"))
       else if String.eqb (o_path o) "/b" then (30, OnResponse 302 (Some "http://a.test/c"))
       else (40, OnResponse 200 None);
     axios_get := fun _ _ => (90, Some {| g_status := 200; g_responseUrl := JStr "http://a.test/c" |});
     fetch_status := fun _ => (90, Some 200);
     ipinfo := (9, None);
     ws_send := fun _ => Sent |}.

(** A server that answers the HEAD request with 304 Not Modified, which
    carries no [Location]. *)
Definition not_modified : World :=
  {| isWindows := false;
     parse_url := parse_a_test;
     resolve_url := resolve_a_test;
     exec_sync := fun _ => (11, Some unix_ping_output);
     dns_lookup := fun _ => (12, false);
     socket_event := fun _ _ => (10, OnConnect);
     request_event := fun _ => (20, OnResponse 304 None);
     axios_get := fun _ _ => (90, Some {| g_status := 200; g_responseUrl := JStr "http://a.test/" |});
     fetch_status := fun _ => (90, Some 200);
     ipinfo := (9, None);
     ws_send := fun _ => Sent |}.

(** A server that answers the HEAD request with 301 and no [Location]. *)
Definition missing_location : World :=
  {| isWindows := false;
     parse_url := parse_a_test;
     resolve_url := resolve_a_test;
     exec_sync := fun _ => (11, Some unix_ping_output);
     dns_lookup := fun _ => (12, false);
     socket_event := fun _ _ => (10, OnConnect);
     request_event := fun _ => (20, OnResponse 301 None);
     axios_get := fun _ _ => (90, Some {| g_status := 204; g_responseUrl := JStr "http://a.test/" |});
     fetch_status := fun _ => (90, Some 204);
     ipinfo := (9, None);
     ws_send := fun _ => Sent |}.

(** [{ maxRedirects: 1 }] *)
Definition one_redirect_allowed : Options :=
  {| opt_timeout := None; opt_preferNetworkPing := None; opt_measureDns := None;
     opt_useHeadRequest := None; opt_maxRedirects := Some 1 |}.

Definition windows_ping_output : string :=
  "Reply from 192.168.1.20: bytes=32 time<1ms TTL=128 Ping statistics for 192.168.1.20: Packets: Sent = 1, Received = 1, Lost = 0 (0% loss), Approximate round trip times in milli-seconds: Minimum = 0ms, Maximum = 0ms, Average = 0ms".

(** A Windows machine and a host on its own network: the ping reports an
    average of 0 ms, the HEAD request is answered with 200 after 37 ms. *)
Definition windows_lan : World :=
  {| isWindows := true;
     parse_url := parse_a_test;
     resolve_url := resolve_a_test;
     exec_sync := fun _ => (15, Some windows_ping_output);
     dns_lookup := fun _ => (2, false);
     socket_event := fun _ _ => (1, OnConnect);
     request_event := fun _ => (37, OnResponse 200 None);
     axios_get := fun _ _ => (45, Some {| g_status := 200; g_responseUrl := JStr "http://a.test/" |});
     fetch_status := fun _ => (45, Some 200);
     ipinfo := (9, None);
     ws_send := fun _ => Sent |}.

(** A server that resets the connection of a HEAD request and answers a
    GET with 200 after 120 ms. *)
Definition head_refused : World :=
  {| isWindows := false;
     parse_url := parse_a_test;
     resolve_url := resolve_a_test;
     exec_sync := fun _ => (11, Some unix_ping_output);
     dns_lookup := fun _ => (12, false);
     socket_event := fun _ _ => (10, OnConnect);
     request_event := fun _ => (7, OnError "ECONNRESET");
     axios_get := fun _ _ => (120, Some {| g_status := 200; g_responseUrl := JStr "http://a.test/" |});
     fetch_status := fun _ => (120, Some 200);
     ipinfo := (9, None);
     ws_send := fun _ => Sent |}.

Definition session0 : Session :=
  {| net := start;
     validatorId := JStr "validator-1";
     pendingPayouts := 0;
     location := "Pune, Maharashtra, IN";
     ipAddress := "203.0.113.7";
     lastPingTime := JNull;
     sent := [] |}.

(** [signMessage]: any function of the message will do. *)
Definition sign0 (message : string) : string := "[signature of " +:+ message +:+ "]".


(** [head_refused], with a reconnect during the probe: the socket in
    [wsConnection] is still connecting 140 ms after the start of the
    scenarios and open from then on. *)
Definition socket_replaced : World :=
  {| isWindows := false;
     parse_url := parse_a_test;
     resolve_url := resolve_a_test;
     exec_sync := fun _ => (11, Some unix_ping_output);
     dns_lookup := fun _ => (12, false);
     socket_event := fun _ _ => (10, OnConnect);
     request_event := fun _ => (7, OnError "ECONNRESET");
     axios_get := fun _ _ => (120, Some {| g_status := 200; g_responseUrl := JStr "http://a.test/" |});
     fetch_status := fun _ => (120, Some 200);
     ipinfo := (9, None);
     ws_send := fun t => if t <? 1140 then SendThrows else Sent |}.

(** A server that redirects [/] to [/]. *)
Definition redirect_loop : World :=
  {| isWindows := false;
     parse_url := parse_a_test;
     resolve_url := fun loc base =>
       if String.eqb loc "/" && String.eqb base "http://a.test/"
       then Some "http://a.test/" else None;
     exec_sync := fun _ => (11, Some unix_ping_output);
     dns_lookup := fun _ => (12, false);
     socket_event := fun _ _ => (10, OnConnect);
     request_event := fun _ => (5, OnResponse 302 (Some "/"));
     axios_get := fun _ _ => (90, None);
     fetch_status := fun _ => (90, None);
     ipinfo := (9, Some ("Pune", "Maharashtra"));
     ws_send := fun _ => Sent |}.

End Scenario.

(** ** Vocabulary for the properties of the hub *)

Module HubSpec.
Import Hub.

(** The identifier with the suffix [n]. *)
Definition idOf (n : Z) : string := "validator-" +:+ pretty n.

(** An identifier the signup handler can produce. *)
Definition valid_id (k : string) : Prop := exists n, 0 <= n <= 9999 /\ k = idOf n.

(** The draw an event carries is a value of [Math.random()]: a double
    in [0, 1). *)
Definition valid_draw (e : Event) : Prop :=
  match e with
  | EvMessage _ _ r _ => Double.is_double r /\ (0 <= r)%Q /\ (r < 1)%Q
  | EvClose _ => True
  end.

(** The test of the close handler's loop on one entry. *)
Definition same_ip (addr : jsval) (e : string * ValidatorInfo) : bool :=
  strict_eq (ip (snd e)) addr.



(** The registry a handler leaves: its keys are pairwise different
    identifiers of the form "validator-n" with n from 0 to 9999. *)
Definition well_keyed (m : Registry) : Prop :=
  NoDup (keys m) /\ Forall valid_id (keys m).

(** One line of the statistics the hub prints every 30 seconds. *)
Record StatLine : Type := {
  st_id : string;
  st_location : jsval;
  st_ip : jsval;
  st_lastActiveTime : Z
}.

(** [Math.round(ms / 1000)]: the nearest integer, a half going up. *)
Definition round_seconds (ms : Z) : Z := (ms + 500) / 1000.

(** The callback of [setInterval] at the time [now]: nothing for an
    empty registry, else the number of validators and one line for each,
    in the order of the registry. *)
Definition stats (now : Z) (st : State) : option (nat * list StatLine) :=
  match validators st with
  | [] => None
  | m =>
      Some (length m,
            map (fun e => {| st_id := fst e;
                             st_location := location (snd e);
                             st_ip := ip (snd e);
                             st_lastActiveTime := round_seconds (now - lastActive (snd e)) |})
                m)
  end.

(** The times of the messages of a run do not go back, from [t] on. *)
Fixpoint chronological (t : Z) (es : list Event) : Prop :=
  match es with
  | [] => True
  | EvMessage _ now _ _ :: rest => t <= now /\ chronological now rest
  | EvClose _ :: rest => chronological t rest
  end.

(** The time of the last message of a run that starts at [t]. *)
Fixpoint last_time (t : Z) (es : list Event) : Z :=
  match es with
  | [] => t
  | EvMessage _ now _ _ :: rest => last_time now rest
  | EvClose _ :: rest => last_time t rest
  end.

(** Every record was last active after it connected and by the time [t]. *)
Definition timely (t : Z) (m : Registry) : Prop :=
  Forall (fun e => connectionTime (snd e) <= lastActive (snd e) <= t) m.

(** A validator that connects, signs up and loses its connection, time
    after time: the events the hub sees for the signup frame [d] on the
    connection [c], one pair per time and draw. *)
Definition reconnects (c : Conn) (d : SignupData) (trs : list (Z * Q)) : list Event :=
  flat_map (fun tr => [EvMessage c (fst tr) (snd tr) (MsgSignup d); EvClose c]) trs.

(** The signup frame of a validator that could not learn its address. *)
Definition unlocated_signup : SignupData :=
  {| s_publicKey := JStr "cHVibGljLWtleS0x"; s_location := JStr "Unknown";
     s_ip := JStr "Unknown" |}.

End HubSpec.

(** ** Vocabulary for the properties of the probe *)

Module NetworkSpec.
Import Network.

(** The command line [getNetworkLatency] runs for a host. *)
Definition pingCommand (W : World) (hostname0 : string) : string :=
  if isWindows W then "ping -n 1 " +:+ hostname0 else "ping -c 1 " +:+ hostname0.

(** A HEAD request as [makeRequest] builds it, for some URL. *)
Definition is_head_request (timeout port : Z) (c : Call) : Prop :=
  exists U, c = CallRequest (headOptions timeout port U).

(** The object [measureLatency] returns from its outer [catch]. *)
Definition errorResult (url0 message : string) : Results :=
  {| url := url0; error := JStr message; networkPing := JNull;
     httpLatency := JNull; dnsTime := JUndefined; status := num 0;
     finalUrl := JUndefined; bestLatency := JUndefined |}.

(** The options [{ useHeadRequest: false }]. *)
Definition get_only : Options :=
  {| opt_timeout := None; opt_preferNetworkPing := None; opt_measureDns := None;
     opt_useHeadRequest := Some false; opt_maxRedirects := None |}.

(** The state in which the HTTP phase of [measureLatency] starts. *)
Definition afterPing (W : World) (config : Config) (u : URL) (s : NetState) : NetState :=
  let s1 := fst (getNetworkLatency W (hostname u) s) in
  if measureDns config then fst (getDnsResolutionTime W (hostname u) s1) else s1.

(** A number that is at least 0. *)
Definition nonnegative (v : jsval) : Prop := exists q, v = JNum q /\ (0 <= q)%Q.

End NetworkSpec.

(** ** Vocabulary for the properties of the session *)

Module ConnectionSpec.
Import Network Connection.

(** The [options] object [getStatusCode] builds for a parsed URL: no
    port is given, whatever the URL says. *)
Definition statusOptions (u : URL) : RequestOptions :=
  {| o_https := String.eqb (protocol u) "https:";
     o_method := "HEAD";
     o_hostname := hostname u;
     o_path := pathname u +:+ search u;
     o_port := None;
     o_timeout := 3000 |}.

(** A HEAD request as [getStatusCode] builds it, for some URL. *)
Definition is_status_request (c : Call) : Prop :=
  exists u, c = CallRequest (statusOptions u).

(** What [getStatusCode] resolves with after the event [ev] that ended a
    request of [dt] milliseconds. *)
Definition statusOfEvent (dt : Z) (ev : RequestEvent) : StatusCheck :=
  match ev with
  | OnResponse statusCode _ => {| sc_time := dt; sc_status := statusCode |}
  | OnError _ => {| sc_time := dt; sc_status := 0 |}
  | OnTimeout => {| sc_time := 3000; sc_status := 0 |}
  end.

(** The port [measureAccurateLatency] connects to. *)
Definition tcpPort (u : URL) : Z :=
  if String.eqb (protocol u) "https:" then 443 else 80.

(** [redirects W url n]: the status check of [url] meets [n] redirects,
    each with a [Location] that resolves to a URL, and then a request
    that ends otherwise: an answer with another status, an error or a
    time-out. *)
Inductive redirects (W : World) : string -> nat -> Prop :=
| redirects_end url u :
    parse_url W url = Some u ->
    (forall statusCode loc,
        snd (request_event W (statusOptions u)) = OnResponse statusCode loc ->
        is_redirect statusCode = false) ->
    redirects W url 0
| redirects_step url u statusCode loc next n :
    parse_url W url = Some u ->
    snd (request_event W (statusOptions u)) = OnResponse statusCode loc ->
    is_redirect statusCode = true ->
    resolve_url W (default "undefined" loc) url = Some next ->
    redirects W next n ->
    redirects W url (S n).

End ConnectionSpec.

(** ** The frames between validator and hub *)

Module Handshake.
Import Connection.

(** The frame [{type: "signup", data: {...}}] the validator writes when
    its socket opens. *)
Record SignupFrame : Type := {
  sf_callbackId : string;
  sf_ip : string;
  sf_publicKey : string;
  sf_signedMessage : string;
  sf_location : string
}.

(** [wsConnection.on("open")] of [connectWebsocket]: the frame sent, for
    the [callbackId] drawn by [randomUUID()] and the public key of the
    key pair; [sign] is [signMessage] with that key pair. *)
Definition on_open (sign : string -> string) (publicKeyBase64 callbackId : string)
    (s : Session) : SignupFrame :=
  {| sf_callbackId := callbackId;
     sf_ip := ipAddress s;
     sf_publicKey := publicKeyBase64;
     sf_signedMessage :=
       sign ("Signed message for " +:+ callbackId +:+ ", " +:+ publicKeyBase64);
     sf_location := location s |}.

(** What the hub's [JSON.parse] gives its handler for a signup frame. *)
Definition signup_received (f : SignupFrame) : Hub.Message :=
  Hub.MsgSignup {| Hub.s_publicKey := JStr (sf_publicKey f);
                   Hub.s_location := JStr (sf_location f);
                   Hub.s_ip := JStr (sf_ip f) |}.

(** What the validator's [JSON.parse] gives its handler for the hub's
    acknowledgement [{type: "signup", data: {validatorId}}]: there is no
    [pendingPayouts] in it. *)
Definition ack_received (a : Hub.Ack) : Message :=
  MsgSignup (JStr (Hub.ack_validatorId a)) None.


(** A validator that could not learn its address: the module's initial
    values. *)
Definition unlocated : Session :=
  {| net := Scenario.start;
     validatorId := JNull;
     pendingPayouts := 0;
     location := "Unknown";
     ipAddress := "Unknown";
     lastPingTime := JNull;
     sent := [] |}.

End Handshake.

(** ** cli.js: the [ping] and [debug-ping] commands *)

Module Cli.
Import Scan Network.
Local Open Scope js_scope.

(** [ToNumber] on the values the commands compare: the fields compared
    are numbers or null. ([undefined] and NaN give NaN; no string or
    object reaches a comparison, and they are read as NaN here.) *)
Definition to_number (v : jsval) : option Q :=
  match v with
  | JNum q => Some q
  | JNull => Some 0%Q
  | JBool b => Some (if b then 1%Q else 0%Q)
  | _ => None
  end.

(** [v < n] and [v >= n] for a number literal [n]; a comparison with
    NaN is false. *)
Definition js_lt (v : jsval) (n : Z) : bool :=
  match to_number v with
  | Some q => negb (Qle_bool (inject_Z n) q)
  | None => false
  end.

Definition js_ge (v : jsval) (n : Z) : bool :=
  match to_number v with
  | Some q => Qle_bool (inject_Z n) q
  | None => false
  end.

(** The chalk colour of the status line. *)
Inductive StatusColor : Type := greenBright | yellowBright | redBright.

(** What the [ping] command prints after the banner and the spinner:
    the rows of its table and its log lines. *)
Inductive Line : Type :=
| RowPing (value : option jsval)   (* [None]: the grey 'N/A' *)
| RowDns (value : jsval)
| LogStatus (color : StatusColor) (status : jsval)
| NetExcellent (latency : jsval)
| NetGood (latency : jsval)
| NetHigh (latency : jsval)
| WarnNotMeasured
| ErrFailedToPing (message : string).

Definition statusColor (status0 : jsval) : StatusColor :=
  if js_ge status0 200 && js_lt status0 300 then greenBright
  else if js_ge status0 300 && js_lt status0 400 then yellowBright
  else redBright.

(** The lines printed for the object [measureLatency] returned. *)
Definition report (results : Results) : list Line :=
  [if truthy (networkPing results) then RowPing (Some (networkPing results))
   else RowPing None]
  ++ (if truthy (dnsTime results) then [RowDns (dnsTime results)] else [])
  ++ (if truthy (status results)
      then [LogStatus (statusColor (status results)) (status results)] else [])
  ++ [if truthy (networkPing results) then
        if js_lt (networkPing results) 100 then NetExcellent (networkPing results)
        else if js_lt (networkPing results) 300 then NetGood (networkPing results)
        else NetHigh (networkPing results)
      else WarnNotMeasured].

(** The action of [ping <url>]: [measureLatency(url)] with no options,
    inside [try { ... } catch (error) { logger.error(...) }]. *)
Definition ping (W : World) (url0 : string) : M NetState (list Line) :=
  try_catch
    (results <- measureLatency W url0 no_options ;;
     ret (report results))
    (fun e => ret [ErrFailedToPing e]).

(** The first [try] block of [debug-ping <url>], for the host name of
    the URL: the value of [networkLatency] after it. The command has the
    expressions of [getNetworkLatency] for the platform, but not the
    generic one. *)
Definition debugNetworkLatency (W : World) (hostname0 : string) : M NetState jsval :=
  try_catch
    (let pingCmd :=
       if isWindows W then "ping -n 1 " +:+ hostname0 else "ping -c 1 " +:+ hostname0 in
     pingOutput <- execSync W pingCmd ;;
     if isWindows W then
       match group1 (re_average pingOutput) with
       | Some avg => ret (parseInt avg)
       | None =>
           match group1 (re_time_windows pingOutput) with
           | Some t => ret (parseInt t)
           | None => ret JNull
           end
       end
     else
       match group1 (re_time_unix pingOutput) with
       | Some t => ret (parseFloat t)
       | None => ret JNull
       end)
    (fun _ => ret JNull).

(** The 'Network Ping' row of [debug-ping]: the value, or 'N/A' when
    [networkLatency !== null] fails. *)
Definition debugRow (networkLatency : jsval) : option jsval :=
  if negb (strict_eq networkLatency JNull) then Some networkLatency else None.

End Cli.

(** ** connection.js: connecting, reconnecting and stopping *)

Module Lifecycle.

(** The module variables [isValidating] and [wsConnection], with what
    the module has asked of the runtime: the sockets created so far
    (each is named by its number), the sockets on which [close()] was
    called, the due times of the reconnect timers that are still
    pending, and the calls of [connectWebsocket] that have started and
    are waiting for the look-up of the address. *)
Record Life : Type := {
  isValidating : bool;
  wsConnection : option nat;
  created : nat;
  closeCalls : list nat;
  timers : list Z;
  connecting : nat
}.

(** The module as it is loaded. *)
Definition loaded : Life :=
  {| isValidating := true; wsConnection := None; created := 0;
     closeCalls := []; timers := []; connecting := 0 |}.

(** [connectWebsocket(privateKeyBase64, hubServer)] from
    [wsConnection = new WebSocket(hubServer)] on, with a key and a hub
    address that [decodeBase64] and [new WebSocket] accept: the new
    socket is stored in [wsConnection]. No variable is tested before. *)
Definition connectWebsocket (l : Life) : Life :=
  {| isValidating := isValidating l;
     wsConnection := Some (created l);
     created := S (created l);
     closeCalls := closeCalls l;
     timers := timers l;
     connecting := connecting l |}.

(** [wsConnection.close()] on the socket the variable holds now. *)
Definition closeCurrent (l : Life) : Life :=
  match wsConnection l with
  | Some ws =>
      {| isValidating := isValidating l; wsConnection := wsConnection l;
         created := created l; closeCalls := closeCalls l ++ [ws];
         timers := timers l; connecting := connecting l |}
  | None => l
  end.

(** The [close] handler of a socket, run at the time [now]. *)
Definition on_close (now : Z) (l : Life) : Life :=
  if isValidating l then
    {| isValidating := isValidating l; wsConnection := wsConnection l;
       created := created l; closeCalls := closeCalls l;
       timers := timers l ++ [now + 5000]; connecting := connecting l |}
  else l.

(** The [error] handler of a socket: it closes the socket of the
    variable, not the socket it is registered on. *)
Definition on_error (l : Life) : Life := closeCurrent l.

(** The callback of the oldest pending reconnect timer: it calls
    [connectWebsocket], which runs up to its [await axios.get(...)] and
    waits there for the look-up of the address. *)
Definition on_timer (l : Life) : Life :=
  match timers l with
  | [] => l
  | _ :: rest =>
      {| isValidating := isValidating l; wsConnection := wsConnection l;
         created := created l; closeCalls := closeCalls l; timers := rest;
         connecting := S (connecting l) |}
  end.

(** The look-up of the address has answered or failed: a waiting
    [connectWebsocket] goes on and creates its socket. *)
Definition on_located (l : Life) : Life :=
  match connecting l with
  | O => l
  | S n =>
      connectWebsocket
        {| isValidating := isValidating l; wsConnection := wsConnection l;
           created := created l; closeCalls := closeCalls l; timers := timers l;
           connecting := n |}
  end.

(** [stopValidator()]. *)
Definition stopValidator (l : Life) : Life :=
  closeCurrent
    {| isValidating := false; wsConnection := wsConnection l;
       created := created l; closeCalls := closeCalls l; timers := timers l;
       connecting := connecting l |}.

(** What happens to the module after its first [connectWebsocket]: a
    socket it created closes or fails, a timer fires, a look-up of the
    address returns, or the validator is stopped. *)
Inductive Event : Type :=
| EvClose (ws : nat) (now : Z)
| EvError (ws : nat)
| EvTimer
| EvLocated
| EvStop.

Definition step (l : Life) (e : Event) : Life :=
  match e with
  | EvClose _ now => on_close now l
  | EvError _ => on_error l
  | EvTimer => on_timer l
  | EvLocated => on_located l
  | EvStop => stopValidator l
  end.

Definition run (es : list Event) (l : Life) : Life := fold_left step es l.

(** The sockets the module names are sockets it has created. *)
Definition known (l : Life) : Prop :=
  (forall ws, wsConnection l = Some ws -> (ws < created l)%nat)
  /\ (forall ws, In ws (closeCalls l) -> (ws < created l)%nat).

End Lifecycle.

(** * Properties *)

(** ** Double-precision arithmetic *)

Module DoubleFacts.
Import Double.

Lemma pow2_pos (e : Z) : (0 < pow2 e)%Q.
Proof. apply Qpower_0_lt. reflexivity. Qed.

Lemma pow2_le (a b : Z) : a <= b -> (pow2 a <= pow2 b)%Q.
Proof. intros H. apply Qpower_le_compat_l; [exact H | discriminate]. Qed.

Lemma pow2_Z (n : Z) : 0 <= n -> (pow2 n == inject_Z (2 ^ n))%Q.
Proof. intros H. unfold pow2. symmetry. apply (Zpower_Qpower 2 n H). Qed.

Lemma pow2_opp (n : Z) : 0 <= n -> (pow2 (- n) == / inject_Z (2 ^ n))%Q.
Proof.
  intros H. unfold pow2. rewrite Qpower_opp.
  apply Qinv_comp. apply (pow2_Z n H).
Qed.

Lemma inject_Z_pos (z : Z) : 0 < z -> (0 < inject_Z z)%Q.
Proof. intros H. change 0%Q with (inject_Z 0). rewrite <- Zlt_Qlt. exact H. Qed.

Lemma inject_Z_nonzero (z : Z) : 0 < z -> ~ (inject_Z z == 0)%Q.
Proof.
  intros H C. apply inject_Z_pos in H. rewrite C in H.
  exact (Qlt_irrefl 0 H).
Qed.

Lemma inject_Z_pred (z : Z) : (inject_Z (z - 1) == inject_Z z - 1)%Q.
Proof.
  unfold Z.sub. rewrite inject_Z_plus, inject_Z_opp. reflexivity.
Qed.

Definition frac (a b : Z) : Q := (inject_Z a / inject_Z b)%Q.

Lemma frac_make (a b : Z) : 0 < b -> (frac a b == a # Z.to_pos b)%Q.
Proof.
  intros H. unfold frac. rewrite (Qmake_Qdiv a (Z.to_pos b)).
  rewrite Z2Pos.id by exact H. reflexivity.
Qed.

Lemma frac_le (a b c d : Z) :
  0 < b -> 0 < d -> (a * d <= c * b <-> (frac a b <= frac c d)%Q).
Proof.
  intros Hb Hd. rewrite (frac_make a b Hb), (frac_make c d Hd).
  unfold Qle. simpl. rewrite !Z2Pos.id by assumption. reflexivity.
Qed.

Lemma frac_lt (a b c d : Z) :
  0 < b -> 0 < d -> (a * d < c * b <-> (frac a b < frac c d)%Q).
Proof.
  intros Hb Hd. rewrite (frac_make a b Hb), (frac_make c d Hd).
  unfold Qlt. simpl. rewrite !Z2Pos.id by assumption. reflexivity.
Qed.

Lemma frac_1 (a : Z) : (inject_Z a == frac a 1)%Q.
Proof. unfold frac. change (inject_Z 1) with 1%Q. field. Qed.

Lemma frac_Q (q : Q) : (q == frac (Qnum q) (Zpos (Qden q)))%Q.
Proof. destruct q as [n d]. unfold frac. simpl. apply Qmake_Qdiv. Qed.

Lemma pow2_frac (n : Z) : 0 <= n -> (pow2 (- n) == frac 1 (2 ^ n))%Q.
Proof.
  intros H. rewrite (pow2_opp n H). unfold frac. change (inject_Z 1) with 1%Q.
  unfold Qdiv. rewrite Qmult_1_l. reflexivity.
Qed.

Lemma two_pow_pos (n : Z) : 0 <= n -> 0 < 2 ^ n.
Proof. intros H. apply Z.pow_pos_nonneg; lia. Qed.

(** [mag q] is an exponent whose power of two does not exceed [q] ... *)
Lemma mag_le (q : Q) : (0 < q)%Q -> (pow2 (mag q) <= q)%Q.
Proof.
  intros Hq. unfold mag.
  set (a := Z.log2 (Qnum q)). set (b := Z.log2 (Zpos (Qden q))).
  destruct (Qle_bool (pow2 (a - b)) q) eqn:E.
  - apply Qle_bool_iff. exact E.
  - assert (Hn : 0 < Qnum q).
    { destruct q as [n d]. unfold Qlt in Hq. simpl in *. lia. }
    assert (Ha : 0 <= a) by apply Z.log2_nonneg.
    assert (Hb : 0 <= b) by apply Z.log2_nonneg.
    destruct (Z.log2_spec (Qnum q) Hn) as [A1 _]. fold a in A1.
    destruct (Z.log2_spec (Zpos (Qden q)) eq_refl) as [_ B2]. fold b in B2.
    replace (a - b - 1) with (a + - (b + 1)) by lia.
    unfold pow2 at 1. rewrite Qpower_plus by discriminate.
    fold (pow2 a). fold (pow2 (- (b + 1))).
    rewrite (pow2_Z a Ha), (pow2_frac (b + 1)) by lia.
    assert (P1 : 0 < 2 ^ (b + 1)) by (apply two_pow_pos; lia).
    assert (P2 : 0 < 2 ^ a) by (apply two_pow_pos; lia).
    assert (R : (inject_Z (2 ^ a) * frac 1 (2 ^ (b + 1))
                 == frac (2 ^ a) (2 ^ (b + 1)))%Q).
    { unfold frac. change (inject_Z 1) with 1%Q. field.
      apply inject_Z_nonzero. exact P1. }
    rewrite R.
    apply Qle_trans with (frac (Qnum q) (Zpos (Qden q))).
    + apply (proj1 (frac_le (2 ^ a) (2 ^ (b + 1)) (Qnum q) (Zpos (Qden q))
                              P1 eq_refl)).
      rewrite <- Z.add_1_r in B2. nia.
    + rewrite <- (frac_Q q). apply Qle_refl.
Qed.

(** ... and whose next power of two exceeds it: [mag q] is the floor of
    the binary logarithm. *)
Lemma mag_gt (q : Q) : (0 < q)%Q -> (q < pow2 (mag q + 1))%Q.
Proof.
  intros Hq. unfold mag.
  set (a := Z.log2 (Qnum q)). set (b := Z.log2 (Zpos (Qden q))).
  destruct (Qle_bool (pow2 (a - b)) q) eqn:E.
  - assert (Hn : 0 < Qnum q).
    { destruct q as [n d]. unfold Qlt in Hq. simpl in *. lia. }
    assert (Ha : 0 <= a) by apply Z.log2_nonneg.
    assert (Hb : 0 <= b) by apply Z.log2_nonneg.
    destruct (Z.log2_spec (Qnum q) Hn) as [_ A2]. fold a in A2.
    destruct (Z.log2_spec (Zpos (Qden q)) eq_refl) as [B1 _]. fold b in B1.
    rewrite <- Z.add_1_r in A2.
    replace (a - b + 1) with ((a + 1) + - b) by lia.
    unfold pow2 at 1. rewrite Qpower_plus by discriminate.
    fold (pow2 (a + 1)). fold (pow2 (- b)).
    rewrite (pow2_Z (a + 1)), (pow2_frac b) by lia.
    assert (P1 : 0 < 2 ^ b) by (apply two_pow_pos; lia).
    assert (P2 : 0 < 2 ^ (a + 1)) by (apply two_pow_pos; lia).
    assert (R : (inject_Z (2 ^ (a + 1)) * frac 1 (2 ^ b)
                 == frac (2 ^ (a + 1)) (2 ^ b))%Q).
    { unfold frac. change (inject_Z 1) with 1%Q. field.
      apply inject_Z_nonzero. exact P1. }
    rewrite R.
    apply Qle_lt_trans with (frac (Qnum q) (Zpos (Qden q))).
    + rewrite <- (frac_Q q). apply Qle_refl.
    + apply (proj1 (frac_lt (Qnum q) (Zpos (Qden q)) (2 ^ (a + 1)) (2 ^ b)
                              eq_refl P1)).
      nia.
  - replace (a - b - 1 + 1) with (a - b) by lia.
    apply Qnot_le_lt. intros C. apply Qle_bool_iff in C. congruence.
Qed.

(** [rne x] is an integer nearest to [x]. *)
Lemma rne_nearest (x : Q) :
  (inject_Z (rne x) - (1 # 2) <= x)%Q /\ (x <= inject_Z (rne x) + (1 # 2))%Q.
Proof.
  pose proof (Qfloor_le x) as F. pose proof (Qlt_floor x) as G.
  rewrite inject_Z_plus in G. change (inject_Z 1) with 1%Q in G.
  unfold rne.
  destruct (Qcompare (x - inject_Z (Qfloor x)) (1 # 2)) eqn:QC.
  - apply Qeq_alt in QC.
    destruct (Z.even (Qfloor x)); [|rewrite inject_Z_plus; change (inject_Z 1) with 1%Q];
      split; lra.
  - apply Qlt_alt in QC. split; lra.
  - apply Qgt_alt in QC. rewrite inject_Z_plus. change (inject_Z 1) with 1%Q.
    split; lra.
Qed.

Lemma mag_lt (q : Q) (k : Z) : (0 < q)%Q -> (q < pow2 k)%Q -> mag q < k.
Proof.
  intros Hq Hk. destruct (Z_lt_le_dec (mag q) k) as [L | L]; [exact L | exfalso].
  apply (Qlt_irrefl q). eapply Qlt_le_trans; [exact Hk |].
  eapply Qle_trans; [apply (pow2_le _ _ L) | apply (mag_le q Hq)].
Qed.

Lemma rne_lower (x : Q) : (0 <= x)%Q -> 0 <= rne x.
Proof.
  intros H. assert (K : 0 <= Qfloor x).
  { change 0 with (Qfloor 0). apply Qfloor_resp_le. exact H. }
  unfold rne. destruct (Qcompare _ _); [destruct (Z.even _) | |]; lia.
Qed.

Lemma rne_upper (x : Q) (K : Z) :
  (x < inject_Z K - (1 # 2))%Q -> rne x <= K - 1.
Proof.
  intros H. pose proof (Qfloor_le x) as F.
  assert (L : Qfloor x < K).
  { rewrite Zlt_Qlt. lra. }
  unfold rne.
  destruct (Z.eq_dec (Qfloor x) (K - 1)) as [E | E].
  - assert (C : (x - inject_Z (Qfloor x) < 1 # 2)%Q).
    { rewrite E, inject_Z_pred. lra. }
    destruct (Qcompare (x - inject_Z (Qfloor x)) (1 # 2)) eqn:QC;
      [apply Qeq_alt in QC; lra | lia | apply Qgt_alt in QC; lra].
  - destruct (Qcompare _ _); [destruct (Z.even _) | |]; lia.
Qed.

(** A double in [0, 1) is at most 1 - 2^-53. *)
Lemma double_below_one (r : Q) :
  is_double r -> (0 <= r)%Q -> (r < 1)%Q -> (r <= 1 - pow2 (-53))%Q.
Proof.
  intros (m & e & Hm & He & Hr) H0 H1.
  assert (T : (pow2 (-53) == frac 1 (2 ^ 53))%Q) by (apply (pow2_frac 53); lia).
  pose proof (pow2_pos e) as Pe.
  destruct (Z_le_gt_dec m 0) as [M | M].
  { assert (Q0 : (inject_Z m <= 0)%Q) by (change 0%Q with (inject_Z 0); rewrite <- Zle_Qle; exact M).
    assert (r <= 0)%Q.
    { rewrite Hr. apply Qle_trans with (0 * pow2 e)%Q.
      - apply Qmult_le_compat_r; [exact Q0 | apply Qlt_le_weak; exact Pe].
      - rewrite Qmult_0_l. apply Qle_refl. }
    rewrite T. unfold frac. vm_compute (inject_Z 1 / inject_Z (2 ^ 53))%Q. lra. }
  assert (Q1 : (1 <= inject_Z m)%Q) by (change 1%Q with (inject_Z 1); rewrite <- Zle_Qle; lia).
  destruct (Z_le_gt_dec 0 e) as [E | E].
  { exfalso. pose proof (pow2_le 0 e E) as P. change (pow2 0) with 1%Q in P.
    assert (1 <= r)%Q.
    { rewrite Hr. apply Qle_trans with (inject_Z m * 1)%Q.
      - rewrite Qmult_1_r. exact Q1.
      - apply Qmult_le_l; [lra | exact P]. }
    lra. }
  set (j := - e). assert (J : 0 <= j) by (unfold j; lia).
  assert (Ej : e = - j) by (unfold j; lia).
  pose proof (two_pow_pos j J) as PP. set (P := 2 ^ j) in *.
  assert (R : (r == frac m P)%Q).
  { rewrite Hr, Ej, (pow2_frac j J). fold P. unfold frac.
    change (inject_Z 1) with 1%Q. field.
    apply inject_Z_nonzero. exact PP. }
  assert (mP : m < P).
  { assert (X : (frac m P < frac 1 1)%Q).
    { rewrite <- R. unfold frac. change (inject_Z 1) with 1%Q.
      change (1 / 1)%Q with 1%Q. exact H1. }
    apply (proj2 (frac_lt m P 1 1 PP eq_refl)) in X. lia. }
  rewrite T, R.
  assert (G : (frac m P <= frac (2 ^ 53 - 1) (2 ^ 53))%Q).
  { apply (proj1 (frac_le m P (2 ^ 53 - 1) (2 ^ 53) PP eq_refl)).
    assert (m < 2 ^ 53) by lia. clear Hm.
    set (TT := 2 ^ 53) in *. assert (0 < TT) by reflexivity. clearbody TT P.
    destruct (Z_le_gt_dec P TT); nia. }
  eapply Qle_trans; [exact G |].
  unfold frac. vm_compute. discriminate.
Qed.

(** Rounding a positive number below 10000 (1 - 2^-53) gives a number
    below 10000. *)
Lemma round_below (x : Q) :
  (0 < x)%Q -> (x <= inject_Z 10000 * (1 - pow2 (-53)))%Q ->
  (0 <= round_double x)%Q /\ (round_double x < inject_Z 10000)%Q.
Proof.
  intros H0 H1.
  assert (T : (pow2 (-53) == frac 1 (2 ^ 53))%Q) by (apply (pow2_frac 53); lia).
  assert (G : (x ?= 0)%Q = Gt) by (apply Qgt_alt; exact H0).
  unfold round_double. rewrite G. unfold round_pos.
  set (e := ulp_exp x).
  assert (E : e <= -39).
  { assert (M : mag x < 14).
    { apply mag_lt; [exact H0 |].
      eapply Qle_lt_trans; [exact H1 |]. rewrite T. vm_compute. reflexivity. }
    unfold e, ulp_exp. lia. }
  set (j := - e). assert (J : 39 <= j) by (unfold j; lia).
  assert (Ej : e = - j) by (unfold j; lia).
  assert (PP : 2 ^ 39 <= 2 ^ j) by (apply Z.pow_le_mono_r; lia).
  set (P := 2 ^ j) in *.
  assert (P0 : 0 < P) by (vm_compute (2 ^ 39) in PP; lia).
  assert (QP : (0 < inject_Z P)%Q) by (apply inject_Z_pos; exact P0).
  assert (R : (pow2 e == / inject_Z P)%Q) by (rewrite Ej; apply pow2_opp; lia).
  assert (Y : (x / pow2 e == x * inject_Z P)%Q).
  { rewrite R. field. lra. }
  assert (Y0 : (0 <= x / pow2 e)%Q).
  { rewrite Y. apply Qmult_le_0_compat; lra. }
  assert (Y1 : (x / pow2 e < inject_Z (10000 * P) - (1 # 2))%Q).
  { rewrite Y, inject_Z_mult.
    assert (B : (x * inject_Z P <= inject_Z 10000 * (1 - pow2 (-53)) * inject_Z P)%Q).
    { apply Qmult_le_compat_r; [exact H1 | lra]. }
    eapply Qle_lt_trans; [exact B |].
    rewrite T. unfold frac.
    assert (QQ : (inject_Z (2 ^ 39) <= inject_Z P)%Q) by (rewrite <- Zle_Qle; exact PP).
    vm_compute (inject_Z (2 ^ 39)) in QQ.
    vm_compute (inject_Z 1 / inject_Z (2 ^ 53))%Q.
    vm_compute (inject_Z 10000).
    lra. }
  pose proof (rne_lower _ Y0) as L.
  pose proof (rne_upper _ _ Y1) as U.
  set (m := rne (x / pow2 e)) in *. clearbody m.
  assert (Lq : (0 <= inject_Z m)%Q) by (change 0%Q with (inject_Z 0); rewrite <- Zle_Qle; exact L).
  assert (Uq : (inject_Z m <= inject_Z (10000 * P - 1))%Q) by (rewrite <- Zle_Qle; exact U).
  pose proof (pow2_pos e) as Pe.
  split.
  - apply Qmult_le_0_compat; lra.
  - rewrite R.
    apply Qlt_shift_div_r; [exact QP |].
    eapply Qle_lt_trans; [exact Uq |].
    rewrite inject_Z_pred, inject_Z_mult. lra.
Qed.

End DoubleFacts.


(** ** The hub registry *)

Module HubFacts.
Import Hub Scenario.

Lemma map_get_set_same k v m : map_get k (map_set k v m) = Some v.
Proof.
  induction m as [|[k' v'] m IH]; simpl.
  - now rewrite String.eqb_refl.
  - destruct (String.eqb k' k) eqn:E; simpl.
    + now rewrite String.eqb_refl.
    + now rewrite E.
Qed.

Lemma map_get_set_other k k' v m :
  k <> k' -> map_get k' (map_set k v m) = map_get k' m.
Proof.
  intros Hne. induction m as [|[k0 v0] m IH]; simpl.
  - destruct (String.eqb k k') eqn:E; [apply String.eqb_eq in E; contradiction | reflexivity].
  - destruct (String.eqb k0 k) eqn:E; simpl.
    + apply String.eqb_eq in E. subst k0.
      destruct (String.eqb k k') eqn:E'; [apply String.eqb_eq in E'; contradiction | reflexivity].
    + now rewrite IH.
Qed.

Lemma keys_set_present k v m :
  map_get k m <> None -> keys (map_set k v m) = keys m.
Proof.
  unfold keys. induction m as [|[k0 v0] m IH]; simpl; intros H.
  - contradiction.
  - destruct (String.eqb k0 k) eqn:E; simpl.
    + apply String.eqb_eq in E. now subst.
    + f_equal. now apply IH.
Qed.

Lemma keys_set_absent k v m :
  map_get k m = None -> keys (map_set k v m) = (keys m ++ [k])%list.
Proof.
  unfold keys. induction m as [|[k0 v0] m IH]; simpl; intros H.
  - reflexivity.
  - destruct (String.eqb k0 k) eqn:E; [discriminate|].
    simpl. f_equal. now apply IH.
Qed.

(** C9. A validation report changes nothing but the [lastActive] and
    [ip] of the record stored under the reported validatorId: the keys of
    the registry and their order, the acknowledgements sent, every other
    record, and the [publicKey], [location], [connectionTime] (and
    [clientIp]) of the reported record stay as they were; when no record
    is stored under the reported validatorId the registry is unchanged. *)
Theorem C9_report_touches_only_lastActive_and_ip :
  forall (now : Z) (d : ReportData) (st : State),
    let st' := on_report now d st in
    keys (validators st') = keys (validators st)
    /\ outbox st' = outbox st
    /\ (forall id : string,
          map_get id (validators st') =
          match map_get id (validators st) with
          | Some info =>
              Some (if strict_eq (r_validatorId d) (JStr id)
                    then {| publicKey := publicKey info;
                            location := location info;
                            connectionTime := connectionTime info;
                            lastActive := now;
                            ip := js_or (r_ipAddress d) (ip info);
                            clientIp := clientIp info |}
                    else info)
          | None => None
          end)
    /\ match reported d st with
       | Some _ => True
       | None => validators st' = validators st
       end.
Proof.
  intros now d st. unfold on_report, reported.
  destruct (r_validatorId d) as [| | | | |k|] eqn:Ek; simpl;
    try (repeat split; auto; intros id; destruct (map_get id (validators st)); reflexivity).
  destruct (map_get k (validators st)) as [info|] eqn:Eg; simpl.
  - repeat split; auto.
    + apply keys_set_present. congruence.
    + intros id. destruct (String.eqb k id) eqn:E.
      * apply String.eqb_eq in E. subst id. rewrite map_get_set_same, Eg. reflexivity.
      * assert (k <> id) by (intros ->; rewrite String.eqb_refl in E; discriminate).
        rewrite map_get_set_other by assumption.
        destruct (map_get id (validators st)); reflexivity.
  - repeat split; auto.
    intros id. destruct (map_get id (validators st)) eqn:E'; [|reflexivity].
    destruct (String.eqb k id) eqn:E; [|reflexivity].
    apply String.eqb_eq in E. subst. congruence.
Qed.

(** C8. On [shared_address_run], two validators behind one address, the
    hub acknowledged "validator-1" to the first connection and
    "validator-2" to the second; when the second connection closes, the
    close handler deletes the record of "validator-1", whose connection
    is still open, and keeps the record of "validator-2". *)
Theorem C8_close_deletes_record_of_other_connection :
  let st := run shared_address_run initial in
  acked_to conn1 st = ["validator-1"]
  /\ acked_to conn2 st = ["validator-2"]
  /\ keys (validators st) = ["validator-2"]
  /\ map_get "validator-1" (validators st) = None
  /\ option_map publicKey (map_get "validator-2" (validators st))
     = Some (JStr "cHVibGljLWtleS0y").
Proof. vm_compute. repeat split; reflexivity. Qed.

(** [`validator-${n}`] determines [n]. *)
Lemma fresh_id_inj (r1 r2 : Q) : fresh_id r1 = fresh_id r2 <-> suffix r1 = suffix r2.
Proof.
  unfold fresh_id. split.
  - intros H. apply (inj (String.app "validator-")) in H.
    now apply (inj pretty) in H.
  - intros ->. reflexivity.
Qed.

(** [Math.floor(Math.random() * 10000)] lies between 0 and 9999: the
    largest double below 1 is 1 - 2^-53, and its product with 10000 is
    rounded to a double below 10000. *)
Lemma suffix_range (r : Q) :
  Double.is_double r -> (0 <= r)%Q -> (r < 1)%Q -> 0 <= suffix r <= 9999.
Proof.
  intros D H0 H1. unfold suffix.
  destruct (Qlt_le_dec 0 r) as [P | Z0].
  - pose proof (DoubleFacts.double_below_one r D H0 H1) as B.
    destruct (DoubleFacts.round_below (r * inject_Z 10000)) as [L U].
    + apply Qmult_lt_0_compat; [exact P | reflexivity].
    + rewrite (Qmult_comm r). apply Qmult_le_l; [reflexivity | exact B].
    + split.
      * change 0 with (Qfloor 0). apply Qfloor_resp_le. exact L.
      * assert (Qfloor (Double.round_double (r * inject_Z 10000)) < 10000); [| lia].
        rewrite Zlt_Qlt. eapply Qle_lt_trans; [apply Qfloor_le | exact U].
  - assert (E : (r * inject_Z 10000 == 0)%Q).
    { assert (r == 0)%Q by lra. rewrite H. ring. }
    apply Qeq_alt in E. unfold Double.round_double. rewrite E.
    change (0 <= 0 <= 9999). lia.
Qed.

(** The floor is taken of the rounded product, not of the exact one: the
    doubles 0.0121 and 0.7 lie below the decimals, their exact products
    with 10000 below 121 and 7000, and the rounded products are 121 and
    7000. *)
Lemma suffix_of_rounded_product :
  suffix (Double.round_double (121 # 10000)) = 121
  /\ Qfloor (Double.round_double (121 # 10000) * inject_Z 10000) = 120
  /\ suffix draw_07 = 7000
  /\ Qfloor (draw_07 * inject_Z 10000) = 6999
  /\ suffix draw_070001 = 7000.
Proof. vm_compute. repeat split; reflexivity. Qed.

(** The draws of the scenarios are doubles in [0, 1). *)
Lemma literal_is_double (q : Q) :
  (0 < q)%Q ->
  Z.abs (Double.rne (q / Double.pow2 (Double.ulp_exp q))) < 2 ^ 53 ->
  -1074 <= Double.ulp_exp q <= 971 ->
  Double.is_double (Double.round_double q).
Proof.
  intros H0 Hm He.
  exists (Double.rne (q / Double.pow2 (Double.ulp_exp q))), (Double.ulp_exp q).
  split; [exact Hm|]. split; [exact He|].
  unfold Double.round_double. apply Qgt_alt in H0. rewrite H0. reflexivity.
Qed.

Lemma draw1_double : Double.is_double draw1 /\ (0 <= draw1)%Q /\ (draw1 < 1)%Q.
Proof.
  split; [|split; [vm_compute; discriminate | reflexivity]].
  apply literal_is_double; [reflexivity | reflexivity | vm_compute; split; discriminate].
Defined.

Lemma draw2_double : Double.is_double draw2 /\ (0 <= draw2)%Q /\ (draw2 < 1)%Q.
Proof.
  split; [|split; [vm_compute; discriminate | reflexivity]].
  apply literal_is_double; [reflexivity | reflexivity | vm_compute; split; discriminate].
Defined.

Lemma draw_07_double :
  Double.is_double draw_07 /\ (0 <= draw_07)%Q /\ (draw_07 < 1)%Q.
Proof.
  split; [|split; [vm_compute; discriminate | reflexivity]].
  apply literal_is_double; [reflexivity | reflexivity | vm_compute; split; discriminate].
Defined.

Lemma draw_070001_double :
  Double.is_double draw_070001 /\ (0 <= draw_070001)%Q /\ (draw_070001 < 1)%Q.
Proof.
  split; [|split; [vm_compute; discriminate | reflexivity]].
  apply literal_is_double; [reflexivity | reflexivity | vm_compute; split; discriminate].
Defined.

(** C7, as the code has it. The identifier given to a registration is
    "validator-" followed by n = Math.floor(Math.random() * 10000), the
    floor of the double-precision product; n is a number from 0 to 9999
    for every draw, a double in [0, 1). Two registrations are given
    different identifiers exactly when their draws give different n. The
    registry then holds the new record under that identifier: a
    registration whose n is that of a live record is given the
    identifier of that record, and its record takes the place of the live
    one (the keys of the registry stay as they were). *)
Theorem C7_distinct_ids_iff_distinct_draws :
  forall (r1 r2 : Q) (c1 c2 : Conn) (now1 now2 : Z) (d1 d2 : SignupData) (st : State),
    Double.is_double r1 -> (0 <= r1)%Q -> (r1 < 1)%Q ->
    Double.is_double r2 -> (0 <= r2)%Q -> (r2 < 1)%Q ->
    let st1 := on_signup c1 now1 r1 d1 st in
    let st2 := on_signup c2 now2 r2 d2 st1 in
    0 <= suffix r1 <= 9999 /\ 0 <= suffix r2 <= 9999
    /\ (fresh_id r1 <> fresh_id r2 <-> suffix r1 <> suffix r2)
    /\ map_get (fresh_id r1) (validators st1) = Some (newRecord c1 now1 d1)
    /\ map_get (fresh_id r2) (validators st2) = Some (newRecord c2 now2 d2)
    /\ (suffix r1 = suffix r2 ->
        fresh_id r2 = fresh_id r1
        /\ keys (validators st2) = keys (validators st1))
    /\ (suffix r1 <> suffix r2 ->
        map_get (fresh_id r1) (validators st2) = Some (newRecord c1 now1 d1)).
Proof.
  intros r1 r2 c1 c2 now1 now2 d1 d2 st D1 H1 H1' D2 H2 H2' st1 st2.
  assert (V1 : validators st1
               = map_set (fresh_id r1) (newRecord c1 now1 d1) (validators st)).
  { unfold st1, on_signup. destruct (is_string (s_publicKey d1)); reflexivity. }
  assert (V2 : validators st2
               = map_set (fresh_id r2) (newRecord c2 now2 d2) (validators st1)).
  { unfold st2, on_signup. destruct (is_string (s_publicKey d2)); reflexivity. }
  split; [now apply suffix_range|]. split; [now apply suffix_range|].
  split; [rewrite fresh_id_inj; tauto|].
  split; [rewrite V1; apply map_get_set_same|].
  split; [rewrite V2; apply map_get_set_same|].
  split.
  - intros E. apply fresh_id_inj in E. split; [now symmetry|].
    rewrite V2, <- E.
    apply keys_set_present. rewrite V1, map_get_set_same. discriminate.
  - intros N. rewrite V2, map_get_set_other.
    + rewrite V1; apply map_get_set_same.
    + intros E. apply N. now apply fresh_id_inj in E.
Qed.

(** The conditions of [C7_distinct_ids_iff_distinct_draws] hold for the
    draws 0.0001 and 0.0002 on the empty registry, where it gives two
    different identifiers. *)
Lemma C7_distinct_ids_witness :
  (Double.is_double draw1 /\ (0 <= draw1)%Q /\ (draw1 < 1)%Q)
  /\ (Double.is_double draw2 /\ (0 <= draw2)%Q /\ (draw2 < 1)%Q)
  /\ (fresh_id draw1 <> fresh_id draw2 <-> suffix draw1 <> suffix draw2).
Proof.
  split; [exact draw1_double|]. split; [exact draw2_double|].
  destruct draw1_double as (A & B & C). destruct draw2_double as (D & E & F).
  exact (proj1 (proj2 (proj2
    (C7_distinct_ids_iff_distinct_draws draw1 draw2 conn1 conn2 1000 2000
       signup1 signup2 initial A B C D E F)))).
Defined.

(** C7, as stated, fails: the second of these two registrations
    draws 0.70001 after the first drew 0.7, two different values of
    [Math.random()]. The record of the first is live under
    "validator-7000" when the second is handled; the second is
    acknowledged with "validator-7000" as well, and only its record is
    left in the registry. *)
Lemma C7_same_id_for_two_live_registrations :
  let st1 := on_signup conn1 1000 draw_07 signup1 initial in
  let st2 := on_signup conn2 2000 draw_070001 signup2 st1 in
  (Double.is_double draw_07 /\ (0 <= draw_07)%Q /\ (draw_07 < 1)%Q)
  /\ (Double.is_double draw_070001 /\ (0 <= draw_070001)%Q /\ (draw_070001 < 1)%Q)
  /\ (draw_07 < draw_070001)%Q
  /\ acked_to conn1 st2 = ["validator-7000"]
  /\ acked_to conn2 st2 = ["validator-7000"]
  /\ option_map publicKey (map_get "validator-7000" (validators st1))
     = Some (s_publicKey signup1)
  /\ keys (validators st2) = ["validator-7000"]
  /\ option_map publicKey (map_get "validator-7000" (validators st2))
     = Some (s_publicKey signup2).
Proof.
  split; [exact draw_07_double|]. split; [exact draw_070001_double|].
  vm_compute. repeat split; reflexivity.
Qed.

End HubFacts.

(** ** The scanners *)

Module ScanFacts.
Import Scan.

Lemma leftmost_found {A} (here : string -> option A) (s : string) (a : A) :
  leftmost here s = Some a -> exists t, here t = Some a.
Proof.
  induction s as [|c s IH]; simpl.
  - destruct (here EmptyString) eqn:E; [intros [= <-]; eauto | discriminate].
  - destruct (here (String c s)) eqn:E; [intros [= <-]; eauto | apply IH].
Qed.

Lemma digits1_starts s d r : digits1 s = Some (d, r) -> starts_with_digit d = true.
Proof.
  unfold digits1. destruct s as [|c s]; simpl; [discriminate|].
  destruct (is_digit c) eqn:E.
  - destruct (span is_digit s). simpl. intros [= <- _]. exact E.
  - simpl. discriminate.
Qed.

Lemma starts_app d x : starts_with_digit d = true -> starts_with_digit (d +:+ x) = true.
Proof. destruct d; [discriminate | auto]. Qed.

Lemma starts_digits1 c : starts_with_digit c = true -> exists x, digits1 c = Some x.
Proof.
  destruct c as [|a c]; [discriminate|]. simpl. intros E.
  unfold digits1. simpl. rewrite E. destruct (span is_digit c). simpl. eauto.
Qed.

Lemma decimal_starts s c r : decimal s = Some (c, r) -> starts_with_digit c = true.
Proof.
  unfold decimal. destruct (digits1 s) as [[d r0]|] eqn:E; [|discriminate].
  apply digits1_starts in E.
  destruct (literal "." r0) as [r'|]; [destruct (digits1 r') as [[f r'']|]|];
    intros [= <- _]; auto using starts_app.
Qed.

Lemma parseInt_number c : starts_with_digit c = true -> exists q, parseInt c = JNum q.
Proof.
  intros H. destruct (starts_digits1 c H) as [[d r] E].
  unfold parseInt. rewrite E. unfold num. eauto.
Qed.

Lemma parseFloat_number c : starts_with_digit c = true -> exists q, parseFloat c = JNum q.
Proof.
  intros H. destruct (starts_digits1 c H) as [[d r] E].
  unfold parseFloat. rewrite E. destruct (literal "." r); unfold num; eauto.
Qed.

Lemma group1_inv m c : group1 m = Some c -> m = Some c.
Proof.
  destruct m as [x|]; simpl; [|discriminate].
  destruct (negb (String.eqb x "")); [congruence | discriminate].
Qed.

Ltac scan_step :=
  match goal with
  | H : context [mbind _ ?o] |- _ => destruct o eqn:?; simpl in H; try discriminate
  | H : context [let '(_, _) := ?p in _] |- _ => destruct p eqn:?; simpl in H
  end.

Lemma re_average_digits s c : re_average s = Some c -> starts_with_digit c = true.
Proof.
  unfold re_average. intros H. apply leftmost_found in H as [t H].
  repeat scan_step. injection H as <-. eauto using digits1_starts.
Qed.

Lemma re_time_windows_digits s c : re_time_windows s = Some c -> starts_with_digit c = true.
Proof.
  unfold re_time_windows. intros H. apply leftmost_found in H as [t H].
  repeat scan_step. injection H as <-. eauto using digits1_starts.
Qed.

Lemma re_time_unix_decimal s c : re_time_unix s = Some c -> starts_with_digit c = true.
Proof.
  unfold re_time_unix. intros H. apply leftmost_found in H as [t H].
  repeat scan_step. injection H as <-. eauto using decimal_starts.
Qed.

Lemma re_generic_decimal s c : re_generic s = Some c -> starts_with_digit c = true.
Proof.
  unfold re_generic. intros H. apply leftmost_found in H as [t H].
  repeat scan_step. injection H as <-. eauto using decimal_starts.
Qed.

End ScanFacts.

(** ** The latency probe *)

Module NetworkFacts.
Import Scan ScanFacts Network Scenario.

Ltac run_m :=
  unfold bind, ret, throw, escape, try_catch, call, modify, date_now in *; simpl in *.

Ltac resolved :=
  do 2 eexists; split;
  [reflexivity | first [left; reflexivity | right; eexists; reflexivity]].

Lemma getNetworkLatency_resolves W hostname0 s :
  exists s' v, getNetworkLatency W hostname0 s = (s', Resolved v) /\ number_or_null v.
Proof.
  unfold getNetworkLatency, execSync, number_or_null.
  set (cmd := if isWindows W then _ else _). clearbody cmd.
  run_m. destruct (exec_sync W cmd) as [dt [out|]]; simpl; [|resolved].
  destruct (isWindows W).
  - destruct (group1 (re_average out)) as [c|] eqn:E1.
    { apply group1_inv, re_average_digits, parseInt_number in E1 as [q ->]. resolved. }
    destruct (group1 (re_time_windows out)) as [c|] eqn:E2.
    { apply group1_inv, re_time_windows_digits, parseInt_number in E2 as [q ->]. resolved. }
    destruct (group1 (re_generic out)) as [c|] eqn:E3; [|resolved].
    apply group1_inv, re_generic_decimal, parseFloat_number in E3 as [q ->]. resolved.
  - destruct (group1 (re_time_unix out)) as [c|] eqn:E1.
    { apply group1_inv, re_time_unix_decimal, parseFloat_number in E1 as [q ->]. resolved. }
    destruct (group1 (re_generic out)) as [c|] eqn:E3; [|resolved].
    apply group1_inv, re_generic_decimal, parseFloat_number in E3 as [q ->]. resolved.
Qed.

(** The look-up of a host name that [dns.lookup] accepts: the elapsed
    time, or [null] when the look-up fails. *)
Lemma getDnsResolutionTime_value W hostname0 s :
  has_nul hostname0 = false ->
  getDnsResolutionTime W hostname0 s
  = ({| now := now s + fst (dns_lookup W hostname0);
        calls := (calls s ++ [CallDns hostname0])%list |},
     Resolved (if snd (dns_lookup W hostname0) then JNull
               else num (fst (dns_lookup W hostname0)))).
Proof.
  intros Hn. unfold getDnsResolutionTime, dnsLookup. rewrite Hn.
  destruct (dns_lookup W hostname0) as [dt [|]]; run_m; [reflexivity|].
  now replace (now s + dt - now s) with dt by lia.
Qed.

Lemma getDnsResolutionTime_resolves W hostname0 s :
  has_nul hostname0 = false ->
  exists s' v, getDnsResolutionTime W hostname0 s = (s', Resolved v) /\ number_or_null v.
Proof.
  intros Hn. rewrite (getDnsResolutionTime_value W hostname0 s Hn).
  unfold number_or_null, num. destruct (snd (dns_lookup W hostname0)); resolved.
Qed.

Lemma getDnsResolutionTime_bad_host W hostname0 s :
  has_nul hostname0 = true ->
  getDnsResolutionTime W hostname0 s = (s, Rejected "ERR_INVALID_ARG_VALUE").
Proof.
  intros Hn. unfold getDnsResolutionTime, dnsLookup. rewrite Hn. reflexivity.
Qed.

(** The connection to a port and a host name that [socket.connect]
    accepts: the elapsed time when the socket connects, [null] when it
    times out or fails. *)
Lemma getTcpConnectionTime_value W hostname0 port s :
  has_nul hostname0 = false ->
  valid_port port = true ->
  getTcpConnectionTime W hostname0 port s
  = ({| now := now s + fst (socket_event W port hostname0);
        calls := (calls s ++ [CallSocket port hostname0])%list |},
     Resolved match snd (socket_event W port hostname0) with
              | OnConnect => num (fst (socket_event W port hostname0))
              | OnSocketTimeout | OnSocketError => JNull
              end).
Proof.
  intros Hn Hp. unfold getTcpConnectionTime, socketConnect. rewrite Hp, Hn.
  destruct (socket_event W port hostname0) as [dt [| |]]; run_m; try reflexivity.
  now replace (now s + dt - now s) with dt by lia.
Qed.

Lemma getTcpConnectionTime_resolves W hostname0 port s :
  has_nul hostname0 = false ->
  valid_port port = true ->
  exists s' v, getTcpConnectionTime W hostname0 port s = (s', Resolved v) /\ number_or_null v.
Proof.
  intros Hn Hp. rewrite (getTcpConnectionTime_value W hostname0 port s Hn Hp).
  unfold number_or_null, num. destruct (snd (socket_event W port hostname0)); resolved.
Qed.

Lemma getTcpConnectionTime_bad_host W hostname0 port s :
  has_nul hostname0 = true ->
  valid_port port = true ->
  getTcpConnectionTime W hostname0 port s = (s, Rejected "ERR_INVALID_ARG_VALUE").
Proof.
  intros Hn Hp. unfold getTcpConnectionTime, socketConnect. rewrite Hp, Hn. reflexivity.
Qed.

Lemma getTcpConnectionTime_bad_port W hostname0 port s :
  valid_port port = false ->
  getTcpConnectionTime W hostname0 port s = (s, Rejected "ERR_SOCKET_BAD_PORT").
Proof.
  intros Hp. unfold getTcpConnectionTime, socketConnect. rewrite Hp. reflexivity.
Qed.

(** *** Redirect chains *)

Section Chains.
Variable W : World.
Variables (timeout maxRedirects port startTime : Z).

Local Abbreviation makeRequest := (makeRequest W timeout maxRedirects port startTime).

(** The redirects of a chain are followed up to its last URL. *)
Lemma makeRequest_follows u n uf ev t :
  hops W timeout port u n uf ev t ->
  forall fuel count s,
    (n < fuel)%nat ->
    n = 0%nat \/ count + Z.of_nat n <= maxRedirects ->
    exists s1 U dt,
      parse_url W uf = Some U
      /\ request_event W (headOptions timeout port U) = (dt, ev)
      /\ now s1 + dt = now s + t
      /\ (forall c, In c (calls s1) -> In c (calls s) \/ exists o, c = CallRequest o)
      /\ makeRequest fuel u count s
         = makeRequest (fuel - n) uf (count + Z.of_nat n) s1.
Proof.
  induction 1 as [u U dt ev HU Hev | u U dt code loc u' n uf ev t HU Hev Hred Hloc Hres Hh IH];
    intros fuel count s Hfuel Hcount.
  - exists s, U, dt. repeat split; auto.
    now rewrite Nat.sub_0_r, Z.add_0_r.
  - destruct fuel as [|fuel]; [lia|].
    destruct Hcount as [Hc|Hc]; [discriminate|].
    destruct (IH fuel (count + 1) {| now := now s + dt;
                                    calls := (calls s ++ [CallRequest (headOptions timeout port U)])%list |})
      as (s1 & U1 & dt1 & P1 & P2 & P3 & P4 & P5); [lia | right; lia |].
    exists s1, U1, dt1. repeat split; auto.
    + simpl in P3. lia.
    + intros c Hc'. destruct (P4 c Hc') as [Hin|Hin]; [|auto].
      simpl in Hin. apply in_app_or in Hin as [Hin|[<-|[]]]; eauto.
    + simpl makeRequest at 1. rewrite HU. unfold request. rewrite Hev.
      run_m. rewrite Hred.
      replace (count >=? maxRedirects) with false
        by (symmetry; rewrite Z.geb_leb; apply Z.leb_gt; lia).
      destruct (String.eqb_spec loc ""); [contradiction|].
      rewrite Hres, P5. f_equal. lia.
Qed.

(** A call with enough fuel for the redirects that may still be
    followed does not run out of it. *)
Lemma makeRequest_fuel fuel :
  forall u count s,
    (Z.to_nat (maxRedirects - count) < fuel)%nat ->
    snd (makeRequest fuel u count s) <> OutOfFuel.
Proof.
  induction fuel as [|fuel IH]; intros u count s Hf; [lia|].
  simpl. destruct (parse_url W u) as [U|].
  - unfold request. destruct (request_event W (headOptions timeout port U)) as [dt [code loc|e|]];
      run_m; try discriminate.
    destruct (is_redirect code); [|discriminate].
    destruct (count >=? maxRedirects) eqn:Hc; [discriminate|].
    destruct loc as [loc|]; [|discriminate].
    destruct (String.eqb loc ""); [discriminate|].
    destruct (resolve_url W loc u); [|discriminate].
    apply IH. rewrite Z.geb_leb in Hc. apply Z.leb_gt in Hc. lia.
  - destruct (count =? 0); discriminate.
Qed.
End Chains.

(** [performHeadRequest] on a chain: the redirects are followed and the
    request for the last URL of the chain is what decides. *)
Lemma performHeadRequest_reaches W url0 timeout maxRedirects u n uf ev t s :
  parse_url W url0 = Some u ->
  hops W timeout (headPort u) url0 n uf ev t ->
  n = 0%nat \/ Z.of_nat n <= maxRedirects ->
  exists s1 U dt k,
    parse_url W uf = Some U
    /\ request_event W (headOptions timeout (headPort u) U) = (dt, ev)
    /\ now s1 + dt = now s + t
    /\ (forall c, In c (calls s1) -> In c (calls s) \/ exists o, c = CallRequest o)
    /\ performHeadRequest W url0 timeout maxRedirects s
       = makeRequest W timeout maxRedirects (headPort u) (now s) (S k) uf (Z.of_nat n) s1.
Proof.
  intros HU Hh Hn.
  destruct (makeRequest_follows W timeout maxRedirects (headPort u) (now s)
              url0 n uf ev t Hh (S (Z.to_nat maxRedirects)) 0 s)
    as (s1 & U & dt & P1 & P2 & P3 & P4 & P5); [lia | lia |].
  exists s1, U, dt, (Z.to_nat maxRedirects - n)%nat. repeat split; auto.
  unfold performHeadRequest, bind, date_now. lazy beta iota. rewrite HU.
  lazy beta iota zeta. rewrite P5. f_equal. lia.
Qed.

(** A chain that ends with a response that is no redirect. *)
Lemma performHeadRequest_resolves W url0 timeout maxRedirects u n uf code loc t s :
  parse_url W url0 = Some u ->
  hops W timeout (headPort u) url0 n uf (OnResponse code loc) t ->
  is_redirect code = false ->
  Z.of_nat n <= maxRedirects ->
  exists s',
    (forall c, In c (calls s') -> In c (calls s) \/ exists o, c = CallRequest o)
    /\ performHeadRequest W url0 timeout maxRedirects s
       = (s', Resolved {| h_time := t; h_status := code;
                          h_finalUrl := JStr uf; h_error := JUndefined |}).
Proof.
  intros HU Hh Hred Hn.
  destruct (performHeadRequest_reaches W url0 timeout maxRedirects u n uf _ t s HU Hh)
    as (s1 & U & dt & k & P1 & P2 & P3 & P4 & ->); [auto|].
  simpl. rewrite P1. unfold request. rewrite P2. run_m. rewrite Hred. simpl.
  replace (now s1 + dt - now s) with t by lia.
  eexists; split; [|reflexivity].
  simpl. intros c Hc. apply in_app_or in Hc as [Hc|[<-|[]]]; eauto.
Qed.

(** A chain that ends with one redirect too many, or with a redirect
    that names no location. *)
Lemma performHeadRequest_rejects W url0 timeout maxRedirects u n uf code loc t s :
  parse_url W url0 = Some u ->
  hops W timeout (headPort u) url0 n uf (OnResponse code loc) t ->
  is_redirect code = true ->
  Z.of_nat n = maxRedirects
  \/ (Z.of_nat n <= maxRedirects /\ (loc = None \/ loc = Some "")) ->
  exists s' e, performHeadRequest W url0 timeout maxRedirects s = (s', Rejected e).
Proof.
  intros HU Hh Hred Hn.
  destruct (performHeadRequest_reaches W url0 timeout maxRedirects u n uf _ t s HU Hh)
    as (s1 & U & dt & k & P1 & P2 & P3 & P4 & ->); [lia|].
  simpl. rewrite P1. unfold request. rewrite P2. run_m. rewrite Hred.
  destruct (Z.of_nat n >=? maxRedirects) eqn:E; [eauto|].
  destruct Hn as [Hn|[_ [-> | ->]]]; simpl; eauto.
  rewrite Z.geb_leb in E. apply Z.leb_gt in E. lia.
Qed.

Lemma performHeadRequest_fuel W url0 timeout maxRedirects s :
  snd (performHeadRequest W url0 timeout maxRedirects s) <> OutOfFuel.
Proof.
  unfold performHeadRequest, bind, date_now. lazy beta iota.
  destruct (parse_url W url0); [|discriminate].
  apply makeRequest_fuel. lia.
Qed.

(** *** The GET and the choice between HEAD and GET *)

Lemma getRequest_resolves W config url0 r s :
  exists s',
    In (CallAxiosGet url0 (getConfig config)) (calls s')
    /\ getRequest W config url0 r s
       = (s', Resolved
                match axios_get W url0 (getConfig config) with
                | (dt, Some response) =>
                    set_http (num dt) (num (g_status response)) (g_responseUrl response) r
                | (_, None) => set_status (num 0) r
                end).
Proof.
  unfold getRequest, axiosGet.
  destruct (axios_get W url0 (getConfig config)) as [dt [response|]]; run_m.
  - replace (now s + dt - now s) with dt by lia.
    eexists; split; [|reflexivity]. simpl. apply in_or_app. right. now left.
  - eexists; split; [|reflexivity]. simpl. apply in_or_app. right. now left.
Qed.

Lemma httpProbe_head_resolved W config url0 r s s' h :
  useHeadRequest config = true ->
  performHeadRequest W url0 (c_timeout config) (c_maxRedirects config) s = (s', Resolved h) ->
  httpProbe W config url0 r s
  = (s', Resolved (set_http (num (h_time h)) (num (h_status h)) (h_finalUrl h) r)).
Proof. intros Hu Hp. unfold httpProbe. rewrite Hu. run_m. now rewrite Hp. Qed.

Lemma httpProbe_head_rejected W config url0 r s s' e :
  useHeadRequest config = true ->
  performHeadRequest W url0 (c_timeout config) (c_maxRedirects config) s = (s', Rejected e) ->
  httpProbe W config url0 r s = getRequest W config url0 r s'.
Proof. intros Hu Hp. unfold httpProbe. rewrite Hu. run_m. now rewrite Hp. Qed.

(** What [httpProbe] hands on is an object whose [status] is a number;
    otherwise an exception left a callback. *)
Lemma httpProbe_outcome W config url0 r s :
  (exists s' r' q, httpProbe W config url0 r s = (s', Resolved r') /\ status r' = JNum q
                   /\ networkPing r' = networkPing r)
  \/ (exists s' e, httpProbe W config url0 r s = (s', Uncaught e)).
Proof.
  destruct (getRequest_resolves W config url0 r s) as (sg & _ & Hg).
  destruct (useHeadRequest config) eqn:Hu.
  - destruct (performHeadRequest W url0 (c_timeout config) (c_maxRedirects config) s)
      as [s1 [h|e|e|]] eqn:Hp.
    + left. rewrite (httpProbe_head_resolved _ _ _ _ _ _ _ Hu Hp). unfold num. simpl. eauto 6.
    + left. rewrite (httpProbe_head_rejected _ _ _ _ _ _ _ Hu Hp).
      destruct (getRequest_resolves W config url0 r s1) as (s2 & _ & ->).
      destruct (axios_get W url0 (getConfig config)) as [dt [response|]];
        unfold num; simpl; eauto 6.
    + right. unfold httpProbe. rewrite Hu. run_m. rewrite Hp. eauto.
    + exfalso. apply (performHeadRequest_fuel W url0 (c_timeout config) (c_maxRedirects config) s).
      now rewrite Hp.
  - left. unfold httpProbe. rewrite Hu, Hg.
    destruct (axios_get W url0 (getConfig config)) as [dt [response|]];
      unfold num; simpl; eauto 6.
Qed.

(** The first half of [measureLatency] on a URL that parses: the ping and
    the DNS lookup end, with a number or [null] each, and the HTTP probe
    decides the rest. No GET has been issued when the HTTP probe starts
    unless one had been before the call. *)
Lemma measureLatency_parsed W url0 options s u :
  parse_url W url0 = Some u ->
  exists s2 ping dns,
    number_or_null ping /\ number_or_null dns
    /\ (forall c, In c (calls s2) -> In c (calls s) \/ (exists x, c = CallExec x) \/ (exists x, c = CallDns x))
    /\ measureLatency W url0 options s
       = let config := spread defaults options in
         let results :=
           {| url := url0; error := JUndefined; networkPing := ping;
              httpLatency := JNull; dnsTime := dns; status := JNull;
              finalUrl := JStr url0; bestLatency := JUndefined |} in
         match httpProbe W config url0 results s2 with
         | (s3, Resolved r) => (s3, Resolved (set_bestLatency (chooseBest config r) r))
         | (s3, Rejected e) =>
             (s3, Resolved {| url := url0; error := JStr e; networkPing := JNull;
                              httpLatency := JNull; dnsTime := JUndefined;
                              status := num 0; finalUrl := JUndefined;
                              bestLatency := JUndefined |})
         | (s3, Uncaught e) => (s3, Uncaught e)
         | (s3, OutOfFuel) => (s3, OutOfFuel)
         end.
Proof.
  intros HU.
  destruct (getNetworkLatency_resolves W (hostname u) s) as (s1 & ping & Hping & Np).
  assert (C1 : forall c, In c (calls s1) -> In c (calls s) \/ exists x, c = CallExec x).
  { revert Hping. unfold getNetworkLatency, execSync.
    set (cmd := if isWindows W then _ else _). clearbody cmd. run_m.
    destruct (exec_sync W cmd) as [dt [out|]]; simpl.
    - destruct (isWindows W);
        repeat match goal with |- context [group1 ?x] => destruct (group1 x) end;
        intros [= <- _]; simpl; intros c Hc; apply in_app_or in Hc as [Hc|[<-|[]]]; eauto.
    - intros [= <- _]; simpl; intros c Hc; apply in_app_or in Hc as [Hc|[<-|[]]]; eauto. }
  assert (D : exists s2 dns, number_or_null dns
              /\ (forall c, In c (calls s2) -> In c (calls s1) \/ exists x, c = CallDns x)
              /\ (if measureDns (spread defaults options)
                  then getDnsResolutionTime W (hostname u) else ret JNull) s1
                 = (s2, Resolved dns)).
  { destruct (measureDns (spread defaults options)).
    - destruct (getDnsResolutionTime_resolves W (hostname u) s1 (hostname_ok u))
        as (s2 & dns & Hdns & Nd).
      exists s2, dns. repeat split; auto.
      revert Hdns. rewrite (getDnsResolutionTime_value W (hostname u) s1 (hostname_ok u)).
      intros [= <- _]; simpl; intros c Hc; apply in_app_or in Hc as [Hc|[<-|[]]]; eauto.
    - exists s1, JNull. repeat split; auto. now left. }
  destruct D as (s2 & dns & Nd & C2 & Hdns).
  exists s2, ping, dns. repeat split; auto.
  - intros c Hc. destruct (C2 c Hc) as [Hc'|Hc']; [|auto].
    destruct (C1 c Hc'); auto.
  - unfold measureLatency. rewrite HU. unfold try_catch at 1, bind at 1.
    rewrite Hping. unfold bind at 1. rewrite Hdns. unfold bind at 1.
    unfold set_ping_dns; simpl.
    destruct (httpProbe W (spread defaults options) url0 _ s2) as [s3 [r|e|e|]]; reflexivity.
Qed.

(** [measureLatency] never throws to its caller and never leaves the
    [status] unset: it returns an object whose [status] is a number,
    unless an exception left a [response] callback. *)
Lemma measureLatency_outcome W url0 options s :
  (exists s' r q, measureLatency W url0 options s = (s', Resolved r) /\ status r = JNum q)
  \/ (exists s' e, measureLatency W url0 options s = (s', Uncaught e)).
Proof.
  destruct (parse_url W url0) as [u|] eqn:HU.
  - destruct (measureLatency_parsed W url0 options s u HU)
      as (s2 & ping & dns & _ & _ & _ & ->). cbv zeta.
    match goal with |- context [httpProbe ?W ?c ?u ?r ?s] =>
      destruct (httpProbe_outcome W c u r s) as [(s3 & r' & q & -> & Hq & _)|(s3 & e & ->)]
    end.
    + left. exists s3. eexists. exists q. split; [reflexivity | exact Hq].
    + right. eauto.
  - left. unfold measureLatency. rewrite HU. run_m. unfold num. eauto.
Qed.

(** *** Properties of the probe *)

(** After a HEAD path that failed, [measureLatency] issues the GET and
    returns the object the GET block leaves, with its [bestLatency]. *)
Lemma measureLatency_fallback W url0 options s u :
  parse_url W url0 = Some u ->
  useHeadRequest (spread defaults options) = true ->
  head_fails W url0 (spread defaults options) ->
  exists s' results,
    httpLatency results = JNull
    /\ In (CallAxiosGet url0 (getConfig (spread defaults options))) (calls s')
    /\ measureLatency W url0 options s
       = (s', Resolved
                (let r := match axios_get W url0 (getConfig (spread defaults options)) with
                          | (dt, Some response) =>
                              set_http (num dt) (num (g_status response))
                                (g_responseUrl response) results
                          | (_, None) => set_status (num 0) results
                          end in
                 set_bestLatency (chooseBest (spread defaults options) r) r)).
Proof.
  intros HU Hu Hf.
  destruct (measureLatency_parsed W url0 options s u HU)
    as (s2 & ping & dns & _ & _ & _ & ->). cbv zeta.
  destruct (Hf s2) as (s3 & e & Hp).
  rewrite (httpProbe_head_rejected _ _ _ _ _ _ _ Hu Hp).
  match goal with |- context [getRequest ?W ?c ?u ?r ?s] =>
    destruct (getRequest_resolves W c u r s) as (s4 & Hin & ->)
  end.
  do 2 eexists. split; [|split; [exact Hin | reflexivity]]. reflexivity.
Qed.

(** After a HEAD path that resolved, [measureLatency] returns what the
    HEAD path gave, and has issued no GET. *)
Lemma measureLatency_head W url0 options s u h :
  parse_url W url0 = Some u ->
  useHeadRequest (spread defaults options) = true ->
  (forall s0, exists s1,
     (forall c, In c (calls s1) -> In c (calls s0) \/ exists o, c = CallRequest o)
     /\ performHeadRequest W url0 (c_timeout (spread defaults options))
          (c_maxRedirects (spread defaults options)) s0 = (s1, Resolved h)) ->
  exists s' r,
    measureLatency W url0 options s = (s', Resolved r)
    /\ status r = num (h_status h)
    /\ finalUrl r = h_finalUrl h
    /\ httpLatency r = num (h_time h)
    /\ (forall c, In c (calls s') -> In c (calls s) \/ forall x cfg, c <> CallAxiosGet x cfg).
Proof.
  intros HU Hu Hh.
  destruct (measureLatency_parsed W url0 options s u HU)
    as (s2 & ping & dns & _ & _ & C2 & ->). cbv zeta.
  destruct (Hh s2) as (s3 & C3 & Hp).
  rewrite (httpProbe_head_resolved _ _ _ _ _ _ _ Hu Hp).
  do 2 eexists; repeat split; try reflexivity.
  intros c Hc. destruct (C3 c Hc) as [Hc'|[o ->]]; [|right; discriminate].
  destruct (C2 c Hc') as [Hc''|[[x ->]|[x ->]]]; [now left | right; discriminate ..].
Qed.

(** C1. The probe of [http://a.test/], whose server answers the HEAD
    request with [301] and the header [Location: http://]: the text is
    no URL, [new URL(location, currentUrl)] throws inside the [response]
    callback of [performHeadRequest], and the exception leaves the
    callback. [measureLatency] neither returns an object nor throws to
    its caller: its promise stays pending, and the process gets an
    uncaught exception. *)
Theorem C1_exception_escapes_response_callback :
  snd (measureLatency bad_location "http://a.test/" no_options start) = Uncaught "Invalid URL"
  /\ forall r, snd (measureLatency bad_location "http://a.test/" no_options start) <> Resolved r.
Proof. split; [reflexivity | intros r; vm_compute; discriminate]. Qed.

(** C4, as the code has it. Let the requests of [performHeadRequest]
    from a URL meet [n <= maxRedirects] redirects (responses with status
    301, 302, 303, 307 or 308), each with a [Location] resolved against
    the URL just requested, and let the request for the last of these
    URLs be answered with the status [code]. If [code] is no redirect,
    the measurement has that status, that last URL as [finalUrl], and the
    time of the requests as [httpLatency]. If [code] is one more redirect
    and either [n = maxRedirects] or the response names no location, the
    HEAD path rejects, and [measureLatency] issues the GET and returns
    with the status of the GET (0 when the GET fails). *)
Theorem C4_head_redirect_chain :
  forall (W : World) (url0 : string) (options : Options) (s : NetState)
         (u : URL) (n : nat) (uf : string) (code : Z) (loc : option string) (t : Z),
    parse_url W url0 = Some u ->
    useHeadRequest (spread defaults options) = true ->
    hops W (c_timeout (spread defaults options)) (headPort u) url0 n uf
      (OnResponse code loc) t ->
    Z.of_nat n <= c_maxRedirects (spread defaults options) ->
    (is_redirect code = false ->
     exists s' r,
       measureLatency W url0 options s = (s', Resolved r)
       /\ status r = num code /\ finalUrl r = JStr uf /\ httpLatency r = num t
       /\ (forall c, In c (calls s') -> In c (calls s) \/ forall x cfg, c <> CallAxiosGet x cfg))
    /\ (is_redirect code = true ->
        Z.of_nat n = c_maxRedirects (spread defaults options)
        \/ loc = None \/ loc = Some "" ->
        head_fails W url0 (spread defaults options)
        /\ exists s' r,
             measureLatency W url0 options s = (s', Resolved r)
             /\ In (CallAxiosGet url0 (getConfig (spread defaults options))) (calls s')
             /\ status r = match axios_get W url0 (getConfig (spread defaults options)) with
                           | (_, Some response) => num (g_status response)
                           | (_, None) => num 0
                           end).
Proof.
  intros W url0 options s u n uf code loc t HU Hu Hh Hn. split.
  - intros Hred.
    destruct (measureLatency_head W url0 options s u
                {| h_time := t; h_status := code; h_finalUrl := JStr uf;
                   h_error := JUndefined |} HU Hu) as (s' & r & E & P1 & P2 & P3 & P4).
    + intros s0.
      destruct (performHeadRequest_resolves W url0 _ _ u n uf code loc t s0 HU Hh Hred Hn)
        as (s1 & C & E). eauto.
    + eauto 7.
  - intros Hred Hcase.
    assert (Hf : head_fails W url0 (spread defaults options)).
    { intros s0. apply (performHeadRequest_rejects W url0 _ _ u n uf code loc t s0 HU Hh Hred).
      destruct Hcase as [E|E]; auto. }
    split; [exact Hf|].
    destruct (measureLatency_fallback W url0 options s u HU Hu Hf)
      as (s' & results & _ & Hin & ->).
    do 2 eexists. split; [reflexivity|]. split; [exact Hin|].
    destruct (axios_get W url0 (getConfig (spread defaults options))) as [dt [response|]];
      reflexivity.
Qed.

(** The chain of [two_redirects]: two redirects, then 200 at [/c]. *)
Lemma two_redirects_hops :
  hops two_redirects 3000 80 "http://a.test/" 2 "http://a.test/c"
    (OnResponse 200 None) (20 + (30 + 40)).
Proof.
  eapply hops_next; [reflexivity | reflexivity | reflexivity | discriminate | reflexivity |].
  eapply hops_next; [reflexivity | reflexivity | reflexivity | discriminate | reflexivity |].
  eapply hops_last; reflexivity.
Qed.

(** The conditions of [C4_head_redirect_chain] hold for the chain of
    [two_redirects], which the measurement follows to its end. *)
Lemma C4_two_redirects_witness :
  parse_url two_redirects "http://a.test/" = Some (a_test "/")
  /\ useHeadRequest (spread defaults no_options) = true
  /\ Z.of_nat 2 <= c_maxRedirects (spread defaults no_options)
  /\ is_redirect 200 = false
  /\ exists s' r,
       measureLatency two_redirects "http://a.test/" no_options start = (s', Resolved r)
       /\ status r = num 200 /\ finalUrl r = JStr "http://a.test/c"
       /\ httpLatency r = num (20 + (30 + 40))
       /\ (forall c, In c (calls s') ->
           In c (calls start) \/ forall x cfg, c <> CallAxiosGet x cfg).
Proof.
  assert (A : parse_url two_redirects "http://a.test/" = Some (a_test "/")) by reflexivity.
  assert (B : useHeadRequest (spread defaults no_options) = true) by reflexivity.
  assert (C : Z.of_nat 2 <= c_maxRedirects (spread defaults no_options)) by (simpl; lia).
  assert (D : is_redirect 200 = false) by reflexivity.
  repeat split; try assumption.
  exact (proj1 (C4_head_redirect_chain two_redirects "http://a.test/" no_options start
                  (a_test "/") 2 "http://a.test/c" 200 None (20 + (30 + 40))
                  A B two_redirects_hops C) D).
Defined.

(** The two redirects of [two_redirects] are one too many when
    [maxRedirects] is 1: the GET is issued after the second HEAD, and its
    status is the status of the measurement. *)
Lemma two_redirects_over_the_bound :
  let r := measureLatency two_redirects "http://a.test/" one_redirect_allowed start in
  calls (fst r)
  = [CallExec "ping -c 1 a.test"; CallDns "a.test";
     CallRequest (headOptions 3000 80 (a_test "/"));
     CallRequest (headOptions 3000 80 (a_test "/b"));
     CallAxiosGet "http://a.test/" {| g_timeout := 3000; g_maxRedirects := 1 |}]
  /\ option_map status (match snd r with Resolved x => Some x | _ => None end)
     = Some (num 200).
Proof. split; reflexivity. Qed.

(** A 301 without [Location]: the GET is issued and gives the status. *)
Lemma missing_location_falls_back :
  let r := measureLatency missing_location "http://a.test/" no_options start in
  calls (fst r)
  = [CallExec "ping -c 1 a.test"; CallDns "a.test";
     CallRequest (headOptions 3000 80 (a_test "/"));
     CallAxiosGet "http://a.test/" {| g_timeout := 3000; g_maxRedirects := 5 |}]
  /\ option_map status (match snd r with Resolved x => Some x | _ => None end)
     = Some (num 204).
Proof. split; reflexivity. Qed.

(** C4, as stated, fails: 304 is a 3xx status and the response
    of [not_modified] has no [Location], yet the HEAD path resolves with
    the status 304 and no GET is issued. *)
Lemma C4_304_without_location_resolves :
  request_event not_modified (headOptions 3000 80 (a_test "/")) = (20, OnResponse 304 None)
  /\ 300 <= 304 < 400
  /\ snd (performHeadRequest not_modified "http://a.test/" 3000 5 start)
     = Resolved {| h_time := 20; h_status := 304;
                   h_finalUrl := JStr "http://a.test/"; h_error := JUndefined |}
  /\ ~ head_fails not_modified "http://a.test/" (spread defaults no_options)
  /\ calls (fst (measureLatency not_modified "http://a.test/" no_options start))
     = [CallExec "ping -c 1 a.test"; CallDns "a.test";
        CallRequest (headOptions 3000 80 (a_test "/"))]
  /\ option_map status
       (match snd (measureLatency not_modified "http://a.test/" no_options start) with
        | Resolved r => Some r
        | _ => None
        end) = Some (num 304).
Proof.
  split; [reflexivity|]. split; [lia|]. split; [reflexivity|].
  split; [|split; reflexivity].
  intros H. destruct (H start) as (s1 & e & E). vm_compute in E. discriminate.
Qed.

(** C5. On [windows_lan] the ping measures 0 ms and [preferNetworkPing]
    is set (it is the default), yet [bestLatency] is the [httpLatency] of
    37 ms and not the [networkPing]: the test
    [config.preferNetworkPing && results.networkPing] takes the number 0
    for an absent measurement. *)
Theorem C5_zero_ping_is_not_selected :
  exists s r,
    measureLatency windows_lan "http://a.test/" no_options start = (s, Resolved r)
    /\ preferNetworkPing (spread defaults no_options) = true
    /\ networkPing r = num 0
    /\ networkPing r <> JNull
    /\ httpLatency r = num 37
    /\ bestLatency r = num 37
    /\ bestLatency r <> networkPing r.
Proof.
  do 2 eexists. split; [vm_compute; reflexivity|].
  repeat split; try reflexivity; simpl; discriminate.
Qed.

(** C6, as the code has it. When the HEAD path fails, [measureLatency]
    issues the GET; the [httpLatency] it returns is the time the GET took
    when the GET succeeds, and [null] when the GET fails too; the
    [status] is that of the GET, or 0. *)
Theorem C6_fallback_records_get_time :
  forall (W : World) (url0 : string) (options : Options) (s : NetState) (u : URL),
    parse_url W url0 = Some u ->
    useHeadRequest (spread defaults options) = true ->
    head_fails W url0 (spread defaults options) ->
    exists s' r,
      measureLatency W url0 options s = (s', Resolved r)
      /\ In (CallAxiosGet url0 (getConfig (spread defaults options))) (calls s')
      /\ httpLatency r = match axios_get W url0 (getConfig (spread defaults options)) with
                         | (dt, Some _) => num dt
                         | (_, None) => JNull
                         end
      /\ status r = match axios_get W url0 (getConfig (spread defaults options)) with
                    | (_, Some response) => num (g_status response)
                    | (_, None) => num 0
                    end.
Proof.
  intros W url0 options s u HU Hu Hf.
  destruct (measureLatency_fallback W url0 options s u HU Hu Hf)
    as (s' & results & Hnull & Hin & ->).
  do 2 eexists. split; [reflexivity|]. split; [exact Hin|].
  destruct (axios_get W url0 (getConfig (spread defaults options))) as [dt [response|]];
    simpl; auto.
Qed.

Lemma head_refused_fails :
  head_fails head_refused "http://a.test/" (spread defaults no_options).
Proof.
  intros s0. exists {| now := now s0 + 7;
                       calls := (calls s0 ++ [CallRequest (headOptions 3000 80 (a_test "/"))])%list |},
                    "ECONNRESET".
  reflexivity.
Qed.

(** The conditions of [C6_fallback_records_get_time] hold on
    [head_refused], where the GET takes 120 ms. *)
Lemma C6_head_refused_witness :
  parse_url head_refused "http://a.test/" = Some (a_test "/")
  /\ useHeadRequest (spread defaults no_options) = true
  /\ head_fails head_refused "http://a.test/" (spread defaults no_options)
  /\ exists s' r,
       measureLatency head_refused "http://a.test/" no_options start = (s', Resolved r)
       /\ In (CallAxiosGet "http://a.test/" (getConfig (spread defaults no_options))) (calls s')
       /\ httpLatency r = num 120
       /\ status r = num 200.
Proof.
  assert (A : parse_url head_refused "http://a.test/" = Some (a_test "/")) by reflexivity.
  assert (B : useHeadRequest (spread defaults no_options) = true) by reflexivity.
  repeat split; try assumption; [apply head_refused_fails|].
  exact (C6_fallback_records_get_time head_refused "http://a.test/" no_options start
           (a_test "/") A B head_refused_fails).
Defined.

(** C6, as stated, fails: on [head_refused] the HEAD path fails
    outright and the [httpLatency] returned is the 120 ms of the GET. *)
Lemma C6_get_time_is_recorded :
  head_fails head_refused "http://a.test/" (spread defaults no_options)
  /\ fst (axios_get head_refused "http://a.test/" (getConfig (spread defaults no_options))) = 120
  /\ exists s r,
       measureLatency head_refused "http://a.test/" no_options start = (s, Resolved r)
       /\ httpLatency r = num 120
       /\ httpLatency r <> JNull.
Proof.
  split; [apply head_refused_fails|]. split; [reflexivity|].
  do 2 eexists. split; [vm_compute; reflexivity|]. split; [reflexivity | discriminate].
Qed.

(** How [getNetworkLatency] ends: whatever [execSync] does is caught. *)
Lemma getNetworkLatency_failed W hostname0 s :
  snd (exec_sync W (if isWindows W then "ping -n 1 " +:+ hostname0
                    else "ping -c 1 " +:+ hostname0)) = None ->
  snd (getNetworkLatency W hostname0 s) = Resolved JNull.
Proof.
  unfold getNetworkLatency, execSync.
  set (cmd := if isWindows W then _ else _). clearbody cmd.
  destruct (exec_sync W cmd) as [dt [out|]]; [discriminate|]. reflexivity.
Qed.

(** C10, as the code has it. [getNetworkLatency] resolves for every host
    name, with a number or with [null], and with [null] when the ping
    command fails. For a host name without U+0000,
    [getDnsResolutionTime] resolves with the time the look-up took, or
    with [null] when the look-up failed, and for every port from 0 to
    65535 [getTcpConnectionTime] resolves with the time the socket took
    to connect, or with [null] when it timed out or failed. *)
Theorem C10_probe_helpers_resolve :
  forall (W : World) (hostname0 : string) (s : NetState),
    (exists s' v,
        getNetworkLatency W hostname0 s = (s', Resolved v) /\ number_or_null v
        /\ (snd (exec_sync W (if isWindows W then "ping -n 1 " +:+ hostname0
                              else "ping -c 1 " +:+ hostname0)) = None -> v = JNull))
    /\ (has_nul hostname0 = false ->
        (exists s',
            getDnsResolutionTime W hostname0 s
            = (s', Resolved (if snd (dns_lookup W hostname0) then JNull
                             else num (fst (dns_lookup W hostname0)))))
        /\ forall port : Z,
             valid_port port = true ->
             exists s',
               getTcpConnectionTime W hostname0 port s
               = (s', Resolved match snd (socket_event W port hostname0) with
                               | OnConnect => num (fst (socket_event W port hostname0))
                               | OnSocketTimeout | OnSocketError => JNull
                               end)).
Proof.
  intros W hostname0 s. split.
  - destruct (getNetworkLatency_resolves W hostname0 s) as (s' & v & E & N).
    exists s', v. split; [exact E|]. split; [exact N|].
    intros F. pose proof (getNetworkLatency_failed W hostname0 s F) as G.
    rewrite E in G. simpl in G. congruence.
  - intros Hn. split.
    + eexists. apply getDnsResolutionTime_value. exact Hn.
    + intros port Hp. eexists. apply getTcpConnectionTime_value; assumption.
Qed.

(** The conditions of [C10_probe_helpers_resolve] hold for the host
    name [a.test] and the port 443. *)
Lemma C10_port_443_witness :
  has_nul "a.test" = false /\ valid_port 443 = true
  /\ exists s', getTcpConnectionTime offline "a.test" 443 start = (s', Resolved JNull).
Proof.
  assert (A : has_nul "a.test" = false) by reflexivity.
  assert (B : valid_port 443 = true) by reflexivity.
  split; [exact A|]. split; [exact B|].
  exact (proj2 (proj2 (C10_probe_helpers_resolve offline "a.test" start) A) 443 B).
Defined.

(** C10, as stated, fails: for the port 70000 the promise of
    [getTcpConnectionTime] is rejected, and for a host name with U+0000
    in it the promises of [getDnsResolutionTime] and of
    [getTcpConnectionTime] are rejected. *)
Lemma C10_bad_port_or_host_name_rejects :
  getTcpConnectionTime offline "a.test" 70000 start = (start, Rejected "ERR_SOCKET_BAD_PORT")
  /\ has_nul nul_host = true
  /\ (exists e, getDnsResolutionTime offline nul_host start = (start, Rejected e))
  /\ (exists e, getTcpConnectionTime offline nul_host 443 start = (start, Rejected e)).
Proof.
  split; [reflexivity|]. split; [reflexivity|]. split; eexists; reflexivity.
Qed.

End NetworkFacts.

(** ** The validator session *)

Module ConnectionFacts.
Import Network Connection Scenario.
Local Open Scope js_scope.

Ltac run_m :=
  unfold bind, ret, throw, escape, try_catch, get, modify, out_of_fuel in *; simpl in *.

(** Neither the probe nor the look-up touches the session variables or
    the socket. *)
Lemma lift_frame {A} (m : M NetState A) s :
  let s' := fst (lift m s) in
  validatorId s' = validatorId s /\ pendingPayouts s' = pendingPayouts s
  /\ location s' = location s /\ ipAddress s' = ipAddress s
  /\ lastPingTime s' = lastPingTime s /\ sent s' = sent s.
Proof. unfold lift. destruct (m (net s)). simpl. auto 10. Qed.

Lemma statusAfterFetch_frame W url p s :
  let s' := fst (statusAfterFetch W url p s) in
  validatorId s' = validatorId s /\ pendingPayouts s' = pendingPayouts s
  /\ location s' = location s /\ ipAddress s' = ipAddress s
  /\ lastPingTime s' = lastPingTime s /\ sent s' = sent s.
Proof.
  unfold statusAfterFetch. destruct (p_status p =? 0); [|simpl; auto 10].
  unfold try_catch. pose proof (lift_frame (fetchStatus W url) s) as H.
  destruct (lift (fetchStatus W url) s) as [s1 [a|e|e|]]; simpl in *; auto.
Qed.

Lemma obtainStatus_frame W fuel url s :
  let s' := fst (obtainStatus W fuel url s) in
  validatorId s' = validatorId s /\ pendingPayouts s' = pendingPayouts s
  /\ location s' = location s /\ ipAddress s' = ipAddress s
  /\ lastPingTime s' = lastPingTime s /\ sent s' = sent s.
Proof.
  unfold obtainStatus, bind.
  pose proof (lift_frame (measureAccurateLatency W fuel url) s) as H.
  destruct (lift (measureAccurateLatency W fuel url) s) as [s1 [p|e|e|]]; simpl in *; auto.
  pose proof (statusAfterFetch_frame W url p s1) as H'.
  destruct (statusAfterFetch W url p s1) as [s2 [rs|e|e|]]; simpl in *;
    intuition congruence.
Qed.

(** What the handler does once the probe and the look-up have given a
    status. It sets [lastPingTime], credits, and writes its reply; when
    that [send] throws, the [catch] block credits again, looks the
    location up once more and writes a "Bad" reply, and when this
    [send] throws too the handler ends with that exception. *)
Lemma on_validate_result W sign fuel url callbackId s s1 p rs :
  obtainStatus W fuel url s = (s1, Resolved (p, rs)) ->
  on_validate W sign fuel url callbackId s
  = match ws_send W (replyTime W s1 rs) with
    | Sent =>
        (replied s s1 (replyNet W s1 rs) COST_PER_VALIDATION
           [tryFrame W sign callbackId s p rs], Resolved tt)
    | Discarded =>
        (replied s s1 (replyNet W s1 rs) COST_PER_VALIDATION [], Resolved tt)
    | SendThrows =>
        match ws_send W (retryTime W s1 rs) with
        | Sent =>
            (replied s s1 (located W (replyNet W s1 rs)) (2 * COST_PER_VALIDATION)
               [catchFrame W sign callbackId s], Resolved tt)
        | Discarded =>
            (replied s s1 (located W (replyNet W s1 rs)) (2 * COST_PER_VALIDATION) [],
             Resolved tt)
        | SendThrows =>
            (replied s s1 (located W (replyNet W s1 rs)) (2 * COST_PER_VALIDATION) [],
             Rejected "WebSocket is not open")
        end
    end.
Proof.
  intros H. pose proof (obtainStatus_frame W fuel url s) as F. rewrite H in F.
  simpl in F. destruct F as (F1 & F2 & F3 & F4 & F5 & F6).
  unfold on_validate. unfold obtainStatus in H. unfold try_catch at 1.
  unfold bind at 1. unfold bind at 1 in H.
  destruct (lift (measureAccurateLatency W fuel url) s) as [s0 [p0|e|e|]]; try discriminate.
  unfold bind at 1. unfold bind at 1 in H.
  destruct (statusAfterFetch W url p0 s0) as [s2 [rs0|e|e|]]; try discriminate.
  injection H as -> -> ->.
  destruct s1 as [n v pp loc ip lpt snt]. simpl in F1, F2, F3, F4, F5, F6. subst.
  destruct (ws_send W (replyTime W _ rs)) eqn:E1;
    [| |destruct (ws_send W (retryTime W _ rs)) eqn:E2];
    unfold retryTime, replyTime in *;
    unfold credit, reply, send, set_lastPingTime, set_pendingPayouts, freshLocation, lift,
      ipinfoGet, date_now, call, replyNet, located, replied,
      tryFrame, catchFrame, locationText, COST_PER_VALIDATION;
    destruct (bad_status rs) eqn:B;
    destruct (ipinfo W) as [dt [data|]]; run_m;
    repeat (first [rewrite E1 | rewrite E2]; run_m);
    rewrite ?app_nil_r; repeat (f_equal; try lia).
Qed.



(** *** Properties of the session *)




(** A [send] that throws: on [socket_replaced] the status obtained is
    200, the reply of the [try] block is written at 1137 to a socket
    that is still connecting, and the [catch] block credits a second
    time and sends a "Bad" frame with latency 0 at 1146. *)
Lemma on_validate_socket_replaced :
  let r := on_validate socket_replaced sign0 3 "http://a.test/" "cb-1" session0 in
  snd (obtainStatus socket_replaced 3 "http://a.test/" session0)
  = Resolved ({| p_time := num 10; p_status := 0 |}, 200)
  /\ snd r = Resolved tt
  /\ map f_status (sent (fst r)) = ["Bad"]
  /\ map f_latency (sent (fst r)) = [num 0]
  /\ pendingPayouts (fst r) = pendingPayouts session0 + 2 * COST_PER_VALIDATION.
Proof. repeat split; reflexivity. Qed.

(** A redirect whose [Location] is no URL: the exception leaves the
    [response] callback of [getStatusCode] and no frame is sent. *)
Lemma on_validate_bad_location :
  let r := on_validate bad_location sign0 3 "http://a.test/" "cb-1" session0 in
  snd r = Uncaught "Invalid URL" /\ sent (fst r) = [].
Proof. split; reflexivity. Qed.

(** On [redirect_loop] the status check is still following redirects
    after any number of requests. *)
Lemma getStatusCode_loops fuel :
  forall s, snd (getStatusCode redirect_loop fuel "http://a.test/" s) = OutOfFuel.
Proof.
  induction fuel as [|fuel IH]; intros s; [reflexivity|].
  simpl. unfold Network.request. simpl. unfold bind at 1. simpl.
  unfold bind at 1. simpl. unfold bind at 1. simpl. apply IH.
Qed.

(** C3. A request to validate [http://a.test/] on [redirect_loop], in
    any session: [getStatusCode] follows the redirect of [/] to itself
    without a bound, so that after any number of requests ([fuel]) the
    handler is still waiting for the probe, has sent no frame and has
    credited nothing. The same holds of the message handler as a
    whole. *)
Theorem C3_redirect_loop_is_never_answered :
  forall (fuel : nat) (sign : string -> string) (callbackId : string) (s : Session),
    let r := on_validate redirect_loop sign fuel "http://a.test/" callbackId s in
    let r' := on_message redirect_loop sign fuel (MsgValidate "http://a.test/" callbackId) s in
    snd r = OutOfFuel /\ sent (fst r) = sent s /\ pendingPayouts (fst r) = pendingPayouts s
    /\ snd r' = OutOfFuel /\ sent (fst r') = sent s.
Proof.
  intros fuel sign callbackId s.
  assert (H : snd (lift (measureAccurateLatency redirect_loop fuel "http://a.test/") s)
              = OutOfFuel).
  { unfold lift, measureAccurateLatency, try_catch. simpl.
    unfold bind at 1. simpl.
    pose proof (getStatusCode_loops fuel
                  {| now := now (net s) + 10;
                     calls := (calls (net s) ++ [CallSocket 80 "a.test"])%list |}) as L.
    unfold bind at 1.
    destruct (getStatusCode redirect_loop fuel "http://a.test/" _) as [n o].
    simpl in L. subst o. reflexivity. }
  assert (E : on_validate redirect_loop sign fuel "http://a.test/" callbackId s
              = (fst (lift (measureAccurateLatency redirect_loop fuel "http://a.test/") s),
                 OutOfFuel)).
  { unfold on_validate, try_catch. unfold bind at 1.
    destruct (lift (measureAccurateLatency redirect_loop fuel "http://a.test/") s)
      as [s1 o].
    simpl in H. subst o. reflexivity. }
  pose proof (lift_frame (measureAccurateLatency redirect_loop fuel "http://a.test/") s) as F.
  cbv zeta in F. destruct F as (_ & F2 & _ & _ & _ & F6).
  cbv zeta. unfold on_message, try_catch. rewrite E. simpl. auto.
Qed.

End ConnectionFacts.

(** ** The hub registry: invariants and the close handler *)

Module HubMore.
Import Hub HubSpec Scenario HubFacts.

Lemma map_get_None_keys k m : map_get k m = None <-> k ∉ keys m.
Proof.
  unfold keys. induction m as [|[k0 v0] m IH]; simpl.
  - split; [intros _; apply not_elem_of_nil | reflexivity].
  - rewrite elem_of_cons. destruct (String.eqb_spec k0 k).
    + split; [discriminate | intros H; exfalso; apply H; now left].
    + rewrite IH. split; [intros H [E|E]; [congruence | tauto] | tauto].
Qed.

Lemma keys_delete_incl k m x : x ∈ keys (map_delete k m) -> x ∈ keys m.
Proof.
  unfold keys. induction m as [|[k0 v0] m IH]; simpl; [tauto|].
  destruct (String.eqb k0 k); simpl; rewrite !elem_of_cons; tauto.
Qed.

Lemma keys_delete_NoDup k m : NoDup (keys m) -> NoDup (keys (map_delete k m)).
Proof.
  unfold keys. induction m as [|[k0 v0] m IH]; simpl; intros H; [constructor|].
  apply NoDup_cons in H as [Hn Hd].
  destruct (String.eqb k0 k); simpl; [assumption|].
  apply NoDup_cons. split; [|auto]. intros Hin. apply Hn.
  now apply (keys_delete_incl k m).
Qed.

Lemma keys_set k v m :
  keys (map_set k v m)
  = match map_get k m with Some _ => keys m | None => (keys m ++ [k])%list end.
Proof.
  destruct (map_get k m) eqn:E.
  - apply keys_set_present. congruence.
  - now apply keys_set_absent.
Qed.

Lemma keys_set_NoDup k v m : NoDup (keys m) -> NoDup (keys (map_set k v m)).
Proof.
  intros H. rewrite keys_set. destruct (map_get k m) eqn:E; [assumption|].
  apply map_get_None_keys in E.
  apply NoDup_app. repeat split; auto.
  - intros x Hx Hk. apply list_elem_of_singleton in Hk. now subst.
  - apply NoDup_singleton.
Qed.

Lemma fresh_id_valid r :
  Double.is_double r -> (0 <= r)%Q -> (r < 1)%Q -> valid_id (fresh_id r).
Proof.
  intros D H0 H1. exists (suffix r).
  split; [now apply suffix_range | reflexivity].
Qed.

Lemma well_keyed_set k v m : valid_id k -> well_keyed m -> well_keyed (map_set k v m).
Proof.
  intros Hk [Hn Hf]. split; [now apply keys_set_NoDup|].
  rewrite keys_set. destruct (map_get k m); [assumption|].
  apply Forall_app. split; [assumption | now constructor].
Qed.

Lemma well_keyed_delete k m : well_keyed m -> well_keyed (map_delete k m).
Proof.
  intros [Hn Hf]. split; [now apply keys_delete_NoDup|].
  rewrite Forall_forall in *. intros x Hx. apply Hf. now apply (keys_delete_incl k m).
Qed.

Lemma well_keyed_step st e :
  valid_draw e -> well_keyed (validators st) -> well_keyed (validators (step st e)).
Proof.
  intros Hd Hw. destruct e as [c now r msg|c]; simpl.
  - destruct Hd as (D & H0 & H1). destruct msg as [|d|d|]; simpl; auto.
    + unfold on_signup. destruct (is_string (s_publicKey d)); simpl;
        apply well_keyed_set; auto using fresh_id_valid.
    + unfold on_report. destruct (r_validatorId d) as [| | | | |k|]; auto.
      destruct (map_get k (validators st)) as [info|] eqn:E; auto. simpl.
      destruct Hw as [Hn Hf]. split.
      * rewrite keys_set_present by congruence. assumption.
      * rewrite keys_set_present by congruence. assumption.
  - unfold on_close. destruct (first_with_ip (remoteAddress c) (validators st)); simpl; auto.
    now apply well_keyed_delete.
Qed.

Lemma well_keyed_run es :
  forall st, Forall valid_draw es -> well_keyed (validators st) ->
             well_keyed (validators (run es st)).
Proof.
  unfold run. induction es as [|e es IH]; intros st Hd Hw; simpl; [assumption|].
  apply Forall_cons in Hd as [He Hes]. apply IH; [assumption|].
  now apply well_keyed_step.
Qed.

Lemma idOf_inj : Inj (=) (=) idOf.
Proof.
  intros a b H. unfold idOf in H. apply (inj (String.app "validator-")) in H.
  now apply (inj pretty) in H.
Qed.

Lemma well_keyed_size m : well_keyed m -> Z.of_nat (length m) <= 10000.
Proof.
  intros [Hn Hf].
  assert (exists ns, keys m = idOf <$> ns /\ Forall (fun n => 0 <= n <= 9999) ns)
    as (ns & E & R).
  { clear Hn. induction (keys m) as [|k l IH].
    - exists []. split; [reflexivity | constructor].
    - apply Forall_cons in Hf as [(n & Hr & ->) Hl].
      destruct (IH Hl) as (ns & -> & R). exists (n :: ns). split; [reflexivity|].
      now constructor. }
  rewrite E in Hn. apply (NoDup_fmap_1 idOf) in Hn.
  assert (L : (length ns <= length (seqZ 0 10000))%nat).
  { apply submseteq_length, NoDup_submseteq; [assumption|].
    intros x Hx. apply elem_of_seqZ. rewrite Forall_forall in R. specialize (R x Hx). lia. }
  rewrite length_seqZ in L.
  replace (length m) with (length (keys m)) by (unfold keys; apply length_map).
  rewrite E, length_fmap. lia.
Qed.

(** X1. In every run of the hub from the empty registry in which each
    draw of [Math.random()] is a double in [0, 1), the keys of the
    registry are pairwise different, each is "validator-n" for some n
    from 0 to 9999 (n the floor of the double-precision product of the
    draw and 10000), and so the registry never holds more than 10000
    records. *)
Theorem registry_keys_invariant :
  forall es : list Event,
    Forall valid_draw es ->
    let m := validators (run es initial) in
    NoDup (keys m) /\ Forall valid_id (keys m) /\ Z.of_nat (length m) <= 10000.
Proof.
  intros es Hd m.
  assert (W : well_keyed m).
  { apply well_keyed_run; [assumption|]. split; constructor. }
  destruct W as [Hn Hf]. repeat split; auto.
  apply well_keyed_size. now split.
Qed.

(** The conditions of [registry_keys_invariant] hold for
    [shared_address_run]. *)
Lemma registry_keys_invariant_witness :
  Forall valid_draw shared_address_run
  /\ NoDup (keys (validators (run shared_address_run initial))).
Proof.
  assert (A : Forall valid_draw shared_address_run).
  { constructor; [exact draw1_double|]. constructor; [exact draw2_double|].
    constructor; [exact I | constructor]. }
  split; [exact A|].
  exact (proj1 (registry_keys_invariant shared_address_run A)).
Defined.

Lemma map_set_absent k v m : map_get k m = None -> map_set k v m = (m ++ [(k, v)])%list.
Proof.
  induction m as [|[k0 v0] m IH]; simpl; [reflexivity|].
  destruct (String.eqb k0 k); [discriminate|]. intros H. now rewrite IH.
Qed.

Lemma map_delete_split pre id info post :
  id ∉ keys pre -> map_delete id (pre ++ (id, info) :: post)%list = (pre ++ post)%list.
Proof.
  unfold keys. induction pre as [|[k0 v0] pre IH]; simpl; intros H.
  - now rewrite String.eqb_refl.
  - rewrite elem_of_cons in H. destruct (String.eqb_spec k0 id); [exfalso; auto|].
    rewrite IH; [reflexivity | tauto].
Qed.

Lemma first_with_ip_None addr m :
  first_with_ip addr m = None <-> forallb (fun e => negb (same_ip addr e)) m = true.
Proof.
  unfold same_ip. induction m as [|[k0 v0] m IH]; simpl; [tauto|].
  destruct (strict_eq (ip v0) addr); simpl; [split; discriminate | exact IH].
Qed.

Lemma first_with_ip_Some addr m id :
  first_with_ip addr m = Some id ->
  exists pre info post,
    m = (pre ++ (id, info) :: post)%list
    /\ forallb (fun e => negb (same_ip addr e)) pre = true
    /\ strict_eq (ip info) addr = true.
Proof.
  unfold same_ip. induction m as [|[k0 v0] m IH]; simpl; [discriminate|].
  destruct (strict_eq (ip v0) addr) eqn:E.
  - intros [= ->]. exists [], v0, m. auto.
  - intros H. destruct (IH H) as (pre & info & post & -> & P & Q).
    exists ((k0, v0) :: pre), info, post. simpl. rewrite E. auto.
Qed.

(** X2. The close handler, on a registry with pairwise different keys:
    when no record has the closing connection's address as its [ip] the
    registry is unchanged; otherwise exactly one entry is removed, the
    first in insertion order whose [ip] is that address, and the entries
    before and after it stay in place. The acknowledgements sent are
    untouched. *)
Theorem close_removes_first_record_with_address :
  forall (c : Conn) (st : State),
    NoDup (keys (validators st)) ->
    outbox (on_close c st) = outbox st
    /\ ((forallb (fun e => negb (same_ip (remoteAddress c) e)) (validators st) = true
         /\ validators (on_close c st) = validators st)
        \/ exists pre id info post,
             validators st = (pre ++ (id, info) :: post)%list
             /\ forallb (fun e => negb (same_ip (remoteAddress c) e)) pre = true
             /\ strict_eq (ip info) (remoteAddress c) = true
             /\ validators (on_close c st) = (pre ++ post)%list).
Proof.
  intros c st Hn. unfold on_close.
  destruct (first_with_ip (remoteAddress c) (validators st)) as [id|] eqn:E.
  - split; [reflexivity|]. right.
    destruct (first_with_ip_Some _ _ _ E) as (pre & info & post & Em & P & Q).
    exists pre, id, info, post. repeat split; auto. simpl. rewrite Em.
    apply map_delete_split. rewrite Em in Hn. unfold keys in *.
    rewrite map_app in Hn. simpl in Hn. apply NoDup_app in Hn as (_ & Hx & _).
    intros Hin. apply (Hx id Hin). now left.
  - split; [reflexivity|]. left. split; [now apply first_with_ip_None | reflexivity].
Qed.

(** The condition of [close_removes_first_record_with_address] holds
    after the two signups of [shared_address_run]. *)
Lemma close_removes_first_record_witness :
  let st := run (firstn 2 shared_address_run) initial in
  NoDup (keys (validators st)) /\ outbox (on_close conn2 st) = outbox st.
Proof.
  intros st.
  assert (A : NoDup (keys (validators st))).
  { vm_compute. apply NoDup_cons. split.
    - intros H. apply list_elem_of_singleton in H. discriminate.
    - apply NoDup_singleton. }
  split; [exact A|].
  exact (proj1 (close_removes_first_record_with_address conn2 st A)).
Defined.

Lemma on_report_keys now d st :
  keys (validators (on_report now d st)) = keys (validators st).
Proof.
  unfold on_report. destruct (r_validatorId d) as [| | | | |k|]; auto.
  destruct (map_get k (validators st)) eqn:E; auto. simpl.
  apply keys_set_present. congruence.
Qed.

(** The keys after one message. *)
Lemma on_message_keys c now r msg st :
  keys (validators (on_message c now r msg st))
  = (keys (validators st)
       ++ match msg with
          | MsgSignup _ =>
              match map_get (fresh_id r) (validators st) with
              | None => [fresh_id r]
              | Some _ => []
              end
          | _ => []
          end)%list.
Proof.
  destruct msg as [|d|d|]; simpl; rewrite ?app_nil_r; auto.
  - assert (E : validators (on_signup c now r d st)
                = map_set (fresh_id r) (newRecord c now d) (validators st)).
    { unfold on_signup. destruct (is_string (s_publicKey d)); reflexivity. }
    rewrite E, keys_set.
    destruct (map_get (fresh_id r) (validators st)); [now rewrite app_nil_r | reflexivity].
  - apply on_report_keys.
Qed.

(** X3. A message never removes a key from the registry and adds at most
    one: the keys after a message are the keys before it, in the same
    order, followed by at most one new key. (A signup that draws the
    suffix of a live record adds none: it replaces that record.) *)
Theorem message_keeps_keys :
  forall (c : Conn) (now : Z) (r : Q) (msg : Message) (st : State),
    exists added : list string,
      keys (validators (on_message c now r msg st)) = (keys (validators st) ++ added)%list
      /\ (length added <= 1)%nat
      /\ (added <> [] -> exists d, msg = MsgSignup d /\ added = [fresh_id r]
                                  /\ map_get (fresh_id r) (validators st) = None).
Proof.
  intros c now r msg st. rewrite on_message_keys.
  destruct msg as [|d|d|];
    try (exists []; split; [reflexivity|]; split; [simpl; lia | congruence]).
  destruct (map_get (fresh_id r) (validators st)) eqn:G.
  - exists []. split; [reflexivity|]. split; [simpl; lia | congruence].
  - exists [fresh_id r]. split; [reflexivity|]. split; [simpl; lia|].
    intros _. exists d. auto.
Qed.




(** X5. A signup followed by a report for the identifier it was given:
    the record then has the public key, location and connection time of
    the signup, the time of the report as [lastActive], and as [ip] the
    address the report carries or, when it carries none, the [ip] of the
    signup. *)
Theorem report_after_signup :
  forall (c c' : Conn) (t1 t2 : Z) (r r' : Q) (d : SignupData) (a : jsval) (st : State),
    let st1 := on_message c t1 r (MsgSignup d) st in
    let st2 := on_message c' t2 r'
                 (MsgValidate {| r_validatorId := JStr (fresh_id r); r_ipAddress := a |}) st1 in
    map_get (fresh_id r) (validators st2)
    = Some {| publicKey := s_publicKey d;
              location := js_or (s_location d) (JStr "Unknown");
              connectionTime := t1;
              lastActive := t2;
              ip := js_or a (js_or (s_ip d) (remoteAddress c));
              clientIp := remoteAddress c |}
    /\ keys (validators st2) = keys (validators st1)
    /\ outbox st2 = outbox st1.
Proof.
  intros c c' t1 t2 r r' d a st st1 st2.
  assert (G : map_get (fresh_id r) (validators st1) = Some (newRecord c t1 d)).
  { unfold st1. simpl. unfold on_signup.
    destruct (is_string (s_publicKey d)); simpl; apply map_get_set_same. }
  unfold st2. simpl. unfold on_report. simpl. rewrite G. simpl.
  repeat split; [apply map_get_set_same|].
  apply keys_set_present. congruence.
Qed.

(** X6. Signing up and closing, on an address no live record has: when
    the drawn identifier is new, no record of the registry has the
    connection's address as its [ip], and the signup carries no [ip] or
    that same address, then the close of the connection removes exactly
    the record the signup stored, and the registry is what it was before
    the signup. *)
Theorem close_undoes_signup_on_unshared_address :
  forall (c : Conn) (now : Z) (r : Q) (d : SignupData) (st : State),
    map_get (fresh_id r) (validators st) = None ->
    first_with_ip (remoteAddress c) (validators st) = None ->
    strict_eq (js_or (s_ip d) (remoteAddress c)) (remoteAddress c) = true ->
    validators (on_close c (on_message c now r (MsgSignup d) st)) = validators st.
Proof.
  intros c now r d st Hk Hn Hip.
  assert (E : validators (on_message c now r (MsgSignup d) st)
              = (validators st ++ [(fresh_id r, newRecord c now d)])%list).
  { simpl. unfold on_signup.
    destruct (is_string (s_publicKey d)); simpl; now apply map_set_absent. }
  assert (F : first_with_ip (remoteAddress c)
                (validators st ++ [(fresh_id r, newRecord c now d)])%list
              = Some (fresh_id r)).
  { revert Hn. generalize (validators st). intros m.
    induction m as [|[k0 v0] m IH]; simpl.
    - intros _. now rewrite Hip.
    - destruct (strict_eq (ip v0) (remoteAddress c)); [discriminate | exact IH]. }
  unfold on_close. rewrite E, F. simpl.
  rewrite map_delete_split; [apply app_nil_r|].
  now apply map_get_None_keys.
Qed.

(** The conditions of [close_undoes_signup_on_unshared_address] hold for
    the first signup of [shared_address_run] on the empty registry. *)
Lemma close_undoes_signup_witness :
  map_get (fresh_id draw1) (validators initial) = None
  /\ first_with_ip (remoteAddress conn1) (validators initial) = None
  /\ strict_eq (js_or (s_ip signup1) (remoteAddress conn1)) (remoteAddress conn1) = true
  /\ validators (on_close conn1 (on_message conn1 1000 draw1 (MsgSignup signup1) initial))
     = validators initial.
Proof.
  assert (A : map_get (fresh_id draw1) (validators initial) = None) by reflexivity.
  assert (B : first_with_ip (remoteAddress conn1) (validators initial) = None) by reflexivity.
  assert (C : strict_eq (js_or (s_ip signup1) (remoteAddress conn1)) (remoteAddress conn1)
              = true) by reflexivity.
  split; [exact A|]. split; [exact B|]. split; [exact C|].
  exact (close_undoes_signup_on_unshared_address conn1 1000 draw1 signup1 initial A B C).
Defined.

Lemma Forall_map_set (P : string * ValidatorInfo -> Prop) k v m :
  Forall P m -> P (k, v) -> Forall P (map_set k v m).
Proof.
  intros Hm Hv. induction m as [|[k0 v0] m IH]; simpl; [now constructor|].
  apply Forall_cons in Hm as [H0 Hm].
  destruct (String.eqb k0 k); constructor; auto.
Qed.

Lemma Forall_map_delete (P : string * ValidatorInfo -> Prop) k m :
  Forall P m -> Forall P (map_delete k m).
Proof.
  intros Hm. induction m as [|[k0 v0] m IH]; simpl; [constructor|].
  apply Forall_cons in Hm as [H0 Hm].
  destruct (String.eqb k0 k); [assumption | constructor; auto].
Qed.

Lemma map_get_Forall (P : string * ValidatorInfo -> Prop) k v m :
  Forall P m -> map_get k m = Some v -> P (k, v).
Proof.
  intros Hm. induction m as [|[k0 v0] m IH]; simpl; [discriminate|].
  apply Forall_cons in Hm as [H0 Hm].
  destruct (String.eqb_spec k0 k) as [->|]; [now intros [= <-] | auto].
Qed.

Lemma timely_weaken t t' m : t <= t' -> timely t m -> timely t' m.
Proof.
  intros Ht H. unfold timely in *. eapply Forall_impl; [exact H|].
  intros e He. simpl in *. lia.
Qed.

Lemma timely_run es :
  forall t st, chronological t es -> timely t (validators st) ->
               timely (last_time t es) (validators (run es st)).
Proof.
  unfold run. induction es as [|e es IH]; intros t st Hc Hm; simpl; [assumption|].
  destruct e as [c now r msg|c]; simpl in Hc.
  - destruct Hc as [Ht Hc]. apply IH; [assumption|].
    apply (timely_weaken t now _ Ht) in Hm.
    destruct msg as [|d|d|]; simpl; auto.
    + unfold on_signup.
      destruct (is_string (s_publicKey d)); simpl;
        apply Forall_map_set; auto; simpl; lia.
    + unfold on_report. destruct (r_validatorId d) as [| | | | |k|]; auto.
      destruct (map_get k (validators st)) as [info|] eqn:G; auto. simpl.
      apply Forall_map_set; auto. simpl.
      pose proof (map_get_Forall _ k info _ Hm G) as H. simpl in H. lia.
  - apply IH; [assumption|]. cbn [step]. unfold on_close.
    destruct (first_with_ip (remoteAddress c) (validators st)); [|assumption].
    cbn [validators]. now apply Forall_map_delete.
Qed.

(** X24. The statistics of the hub. After any run whose message times
    do not go back, at any later time, the periodic statistics print
    nothing when the registry is empty, and otherwise the number of
    records and one line per record, in the order of the registry, whose
    "last active" age in seconds is never negative; and every record
    was last active at or after its connection time. *)
Theorem statistics_ages_are_not_negative :
  forall (es : list Event) (t0 now : Z),
    chronological t0 es ->
    last_time t0 es <= now ->
    let st := run es initial in
    timely now (validators st)
    /\ match stats now st with
       | None => validators st = []
       | Some (n, lines) =>
           n = length (validators st) /\ n <> O
           /\ map st_id lines = keys (validators st)
           /\ Forall (fun l => 0 <= st_lastActiveTime l) lines
       end.
Proof.
  intros es t0 now Hc Hn st.
  assert (T : timely now (validators st)).
  { apply (timely_weaken (last_time t0 es)); [assumption|].
    apply timely_run; [assumption | constructor]. }
  split; [exact T|]. unfold stats.
  destruct (validators st) as [|e m] eqn:E; [reflexivity|].
  split; [reflexivity|]. split; [discriminate|]. split.
  - unfold keys. rewrite map_map. reflexivity.
  - apply Forall_map. eapply Forall_impl; [exact T|].
    intros x Hx. cbv beta in Hx. cbn [st_lastActiveTime]. unfold round_seconds.
    apply Z.div_pos; lia.
Qed.

Lemma statistics_witness :
  chronological 0 shared_address_run
  /\ last_time 0 shared_address_run <= 60000
  /\ timely 60000 (validators (run shared_address_run initial)).
Proof.
  assert (A : chronological 0 shared_address_run) by (simpl; lia).
  assert (B : last_time 0 shared_address_run <= 60000) by (simpl; lia).
  split; [exact A|]. split; [exact B|].
  pose proof (statistics_ages_are_not_negative shared_address_run 0 60000 A B) as H.
  cbv zeta in H. destruct H as [H _]. exact H.
Defined.

Lemma first_with_ip_app addr m k v :
  first_with_ip addr (m ++ [(k, v)])%list
  = match first_with_ip addr m with
    | Some id => Some id
    | None => if strict_eq (ip v) addr then Some k else None
    end.
Proof.
  induction m as [|[k0 v0] m IH]; simpl; [reflexivity|].
  destruct (strict_eq (ip v0) addr); [reflexivity | exact IH].
Qed.

Lemma map_get_app k m k' v :
  map_get k (m ++ [(k', v)])%list
  = match map_get k m with
    | Some x => Some x
    | None => if String.eqb k' k then Some v else None
    end.
Proof.
  induction m as [|[k0 v0] m IH]; simpl; [reflexivity|].
  destruct (String.eqb k0 k); [reflexivity | exact IH].
Qed.

(** X27. Records pile up over reconnects. Take a validator whose
    signup frame gives an [ip] other than the remote address of its
    connection, and a registry in which no record has that remote
    address as [ip]. If it signs up and loses its connection any number
    of times, each time under an id that is new, none of its records is
    ever removed: the registry ends up with one more record per
    connection, in the order of the connections. *)
Theorem reconnects_accumulate_records :
  forall (c : Conn) (d : SignupData) (trs : list (Z * Q)) (st : State),
    strict_eq (js_or (s_ip d) (remoteAddress c)) (remoteAddress c) = false ->
    first_with_ip (remoteAddress c) (validators st) = None ->
    NoDup (map (fun tr => fresh_id (snd tr)) trs) ->
    Forall (fun tr => map_get (fresh_id (snd tr)) (validators st) = None) trs ->
    validators (run (reconnects c d trs) st)
    = (validators st
         ++ map (fun tr => (fresh_id (snd tr), newRecord c (fst tr) d)) trs)%list.
Proof.
  intros c d trs st Hip. revert st.
  induction trs as [|[t r] trs IH]; intros st Hf Hn Hg.
  - simpl. now rewrite app_nil_r.
  - rewrite map_cons in Hn. apply NoDup_cons in Hn as [Hr Hn].
    apply Forall_cons in Hg as [Hg0 Hg]. cbn [fst snd] in Hg0, Hr.
    assert (V : validators (on_signup c t r d st)
                = (validators st ++ [(fresh_id r, newRecord c t d)])%list).
    { unfold on_signup. destruct (is_string (s_publicKey d)); simpl;
        now apply map_set_absent. }
    assert (F : first_with_ip (remoteAddress c) (validators (on_signup c t r d st)) = None).
    { rewrite V, first_with_ip_app, Hf. cbn [newRecord ip]. now rewrite Hip. }
    assert (E : run (reconnects c d ((t, r) :: trs)) st
                = run (reconnects c d trs) (on_signup c t r d st)).
    { unfold run. simpl. unfold on_close. now rewrite F. }
    rewrite E, IH; [|exact F|exact Hn|].
    + rewrite V, <- app_assoc. reflexivity.
    + rewrite Forall_forall in *. intros [t' r'] Hin. rewrite V, map_get_app.
      rewrite (Hg _ Hin). cbn [fst snd].
      destruct (String.eqb_spec (fresh_id r) (fresh_id r')) as [Eq|]; [|reflexivity].
      exfalso. apply Hr. rewrite Eq.
      apply list_elem_of_In.
      apply (in_map (fun tr : Z * Q => fresh_id (snd tr)) trs (t', r')).
      now apply list_elem_of_In.
Qed.

Lemma reconnects_accumulate_witness :
  strict_eq (js_or (s_ip unlocated_signup) (remoteAddress conn1)) (remoteAddress conn1) = false
  /\ first_with_ip (remoteAddress conn1) (validators initial) = None
  /\ length (validators
               (run (reconnects conn1 unlocated_signup [(1000, draw1); (7000, draw2)])
                  initial)) = 2%nat.
Proof.
  assert (A : strict_eq (js_or (s_ip unlocated_signup) (remoteAddress conn1))
                (remoteAddress conn1) = false) by reflexivity.
  assert (B : first_with_ip (remoteAddress conn1) (validators initial) = None) by reflexivity.
  assert (C : NoDup (map (fun tr : Z * Q => fresh_id (snd tr))
                       [(1000, draw1); (7000, draw2)])).
  { apply NoDup_cons. split; [|apply NoDup_singleton].
    rewrite list_elem_of_singleton. vm_compute. discriminate. }
  assert (D : Forall (fun tr : Z * Q => map_get (fresh_id (snd tr)) (validators initial) = None)
                [(1000, draw1); (7000, draw2)]) by (repeat constructor).
  split; [exact A|]. split; [exact B|].
  rewrite (reconnects_accumulate_records conn1 unlocated_signup
             [(1000, draw1); (7000, draw2)] initial A B C D).
  reflexivity.
Defined.

End HubMore.
(** ** The latency probe: calls, bounds and edge cases *)

Module NetworkMore.
Import Scan ScanFacts Network NetworkSpec Scenario NetworkFacts.

Ltac run_m :=
  unfold bind, ret, throw, escape, try_catch, call, modify, date_now, out_of_fuel in *;
  simpl in *.

(** The state each helper leaves: one call, and the clock moved by the
    time the call took. *)
Lemma getNetworkLatency_state W hostname0 s :
  fst (getNetworkLatency W hostname0 s)
  = {| now := now s + fst (exec_sync W (pingCommand W hostname0));
       calls := (calls s ++ [CallExec (pingCommand W hostname0)])%list |}.
Proof.
  unfold getNetworkLatency, execSync, pingCommand.
  set (cmd := if isWindows W then _ else _). clearbody cmd. run_m.
  destruct (exec_sync W cmd) as [dt [out|]]; simpl; [|reflexivity].
  destruct (isWindows W);
    repeat match goal with |- context [group1 ?x] => destruct (group1 x) end;
    reflexivity.
Qed.

Lemma getDnsResolutionTime_state W hostname0 s :
  has_nul hostname0 = false ->
  fst (getDnsResolutionTime W hostname0 s)
  = {| now := now s + fst (dns_lookup W hostname0);
       calls := (calls s ++ [CallDns hostname0])%list |}.
Proof.
  intros Hn. now rewrite (getDnsResolutionTime_value W hostname0 s Hn).
Qed.

Lemma getRequest_state W config url0 r s :
  fst (getRequest W config url0 r s)
  = {| now := now s + fst (axios_get W url0 (getConfig config));
       calls := (calls s ++ [CallAxiosGet url0 (getConfig config)])%list |}.
Proof.
  unfold getRequest, axiosGet.
  destruct (axios_get W url0 (getConfig config)) as [dt [response|]]; run_m; reflexivity.
Qed.

Section Requests.
Variable W : World.
Variables (timeout maxRedirects port startTime : Z).

Lemma makeRequest_calls fuel :
  forall url0 count s,
    exists l,
      calls (fst (makeRequest W timeout maxRedirects port startTime fuel url0 count s))
      = (calls s ++ l)%list
      /\ (length l <= fuel)%nat
      /\ Forall (is_head_request timeout port) l
      /\ (forall u, parse_url W url0 = Some u -> (0 < fuel)%nat -> (1 <= length l)%nat).
Proof.
  induction fuel as [|fuel IH]; intros url0 count s.
  - exists []. simpl. rewrite app_nil_r. repeat split; auto; intros; lia.
  - simpl. destruct (parse_url W url0) as [u|] eqn:HU.
    + unfold request.
      destruct (request_event W (headOptions timeout port u)) as [dt [code loc|e|]] eqn:Hev;
        run_m.
      2,3: exists [CallRequest (headOptions timeout port u)];
        repeat split; simpl; auto; try lia; repeat constructor; now exists u.
      set (s1 := {| now := now s + dt;
                    calls := (calls s ++ [CallRequest (headOptions timeout port u)])%list |}).
      assert (Base : exists l,
                 calls s1 = (calls s ++ l)%list /\ (length l <= S fuel)%nat
                 /\ Forall (is_head_request timeout port) l
                 /\ (forall u0 : URL, Some u = Some u0 -> (0 < S fuel)%nat -> (1 <= length l)%nat)).
      { exists [CallRequest (headOptions timeout port u)].
        repeat split; simpl; auto; try lia. repeat constructor. now exists u. }
      destruct (is_redirect code); [|exact Base].
      destruct (count >=? maxRedirects); [exact Base|].
      destruct loc as [loc|]; [|exact Base].
      destruct (String.eqb loc ""); [exact Base|].
      destruct (resolve_url W loc url0) as [u'|]; [|exact Base].
      destruct (IH u' (count + 1) s1) as (l & E & L & F & _).
      exists (CallRequest (headOptions timeout port u) :: l). rewrite E. subst s1. simpl.
      rewrite <- app_assoc. repeat split; simpl; auto; try lia.
      constructor; [now exists u | assumption].
    + exists []. rewrite app_nil_r.
      destruct (count =? 0); simpl; repeat split; auto; try lia; discriminate.
Qed.
End Requests.

Lemma performHeadRequest_calls W url0 timeout maxRedirects s u :
  parse_url W url0 = Some u ->
  exists l,
    calls (fst (performHeadRequest W url0 timeout maxRedirects s)) = (calls s ++ l)%list
    /\ (1 <= length l <= S (Z.to_nat maxRedirects))%nat
    /\ Forall (is_head_request timeout (headPort u)) l.
Proof.
  intros HU.
  unfold performHeadRequest, bind, date_now. lazy beta iota. rewrite HU. lazy beta iota zeta.
  destruct (makeRequest_calls W timeout maxRedirects (headPort u) (now s)
              (S (Z.to_nat maxRedirects)) url0 0 s) as (l & E & L & F & G).
  exists l. split; [exact E|]. split; [split; [apply (G u HU); lia | exact L]|exact F].
Qed.

(** X8. The requests of the HEAD path. For a URL that parses,
    [performHeadRequest] issues at least one request and at most
    [maxRedirects + 1] of them (one when [maxRedirects] is negative),
    and calls nothing else; every one of them is a HEAD request with the
    given time-out, sent to the port of the scheme of the URL the probe
    started from (443 for https, 80 otherwise), whatever the scheme or
    port of the URL a redirect led to. *)
Theorem head_requests_bounded_and_on_one_port :
  forall (W : World) (url0 : string) (timeout maxRedirects : Z) (s : NetState) (u : URL),
    parse_url W url0 = Some u ->
    exists l,
      calls (fst (performHeadRequest W url0 timeout maxRedirects s)) = (calls s ++ l)%list
      /\ (1 <= length l <= S (Z.to_nat maxRedirects))%nat
      /\ Forall (fun c => exists o,
                   c = CallRequest o
                   /\ o_method o = "HEAD" /\ o_timeout o = timeout
                   /\ o_port o = Some (if String.eqb (protocol u) "https:" then 443 else 80)) l.
Proof.
  intros W url0 timeout maxRedirects s u HU.
  destruct (performHeadRequest_calls W url0 timeout maxRedirects s u HU) as (l & E & L & F).
  exists l. split; [exact E|]. split; [exact L|].
  eapply Forall_impl; [exact F|]. intros c [U ->]. eexists. split; [reflexivity|]. auto.
Qed.

Lemma head_requests_witness :
  parse_url two_redirects "http://a.test/" = Some (a_test "/")
  /\ exists l,
       calls (fst (performHeadRequest two_redirects "http://a.test/" 3000 5 start))
       = (calls start ++ l)%list
       /\ (1 <= length l <= S (Z.to_nat 5))%nat.
Proof.
  assert (A : parse_url two_redirects "http://a.test/" = Some (a_test "/")) by reflexivity.
  split; [exact A|].
  destruct (head_requests_bounded_and_on_one_port two_redirects "http://a.test/" 3000 5 start
              (a_test "/") A) as (l & E & L & _).
  exists l. split; [exact E | exact L].
Defined.

(** The calls of the HTTP phase of [measureLatency]. *)
Lemma httpProbe_calls W config url0 r s u :
  parse_url W url0 = Some u ->
  exists heads gets,
    calls (fst (httpProbe W config url0 r s)) = (calls s ++ heads ++ gets)%list
    /\ Forall (is_head_request (c_timeout config) (headPort u)) heads
    /\ (length heads <= S (Z.to_nat (c_maxRedirects config)))%nat
    /\ (gets = [] \/ gets = [CallAxiosGet url0 (getConfig config)])
    /\ (if useHeadRequest config then (1 <= length heads)%nat
        else heads = [] /\ gets = [CallAxiosGet url0 (getConfig config)]).
Proof.
  intros HU. unfold httpProbe. destruct (useHeadRequest config) eqn:Hu.
  - destruct (performHeadRequest_calls W url0 (c_timeout config) (c_maxRedirects config) s u HU)
      as (l & E & L & F).
    unfold try_catch, bind.
    destruct (performHeadRequest W url0 (c_timeout config) (c_maxRedirects config) s)
      as [s1 [h|e|e|]] eqn:Hp; simpl in E.
    2: { exists l, [CallAxiosGet url0 (getConfig config)].
         rewrite getRequest_state. simpl. rewrite E, <- app_assoc.
         repeat split; auto; lia. }
    all: exists l, []; simpl; rewrite E, app_nil_r; repeat split; auto; lia.
  - exists [], [CallAxiosGet url0 (getConfig config)].
    rewrite getRequest_state. simpl. repeat split; auto; lia.
Qed.

Lemma measureLatency_steps W url0 options s u :
  parse_url W url0 = Some u ->
  let config := spread defaults options in
  exists ping dns,
    number_or_null ping /\ number_or_null dns
    /\ (measureDns config = false -> dns = JNull)
    /\ snd (getNetworkLatency W (hostname u) s) = Resolved ping
    /\ measureLatency W url0 options s
       = let results :=
           {| url := url0; error := JUndefined; networkPing := ping;
              httpLatency := JNull; dnsTime := dns; status := JNull;
              finalUrl := JStr url0; bestLatency := JUndefined |} in
         match httpProbe W config url0 results (afterPing W config u s) with
         | (s3, Resolved r) => (s3, Resolved (set_bestLatency (chooseBest config r) r))
         | (s3, Rejected e) => (s3, Resolved (errorResult url0 e))
         | (s3, Uncaught e) => (s3, Uncaught e)
         | (s3, OutOfFuel) => (s3, OutOfFuel)
         end.
Proof.
  intros HU config.
  destruct (getNetworkLatency_resolves W (hostname u) s) as (s1 & ping & Hping & Np).
  assert (D : exists dns, number_or_null dns
              /\ (measureDns config = false -> dns = JNull)
              /\ (if measureDns config
                  then getDnsResolutionTime W (hostname u) else ret JNull) s1
                 = (afterPing W config u s, Resolved dns)).
  { unfold afterPing. rewrite Hping. cbn [fst]. destruct (measureDns config).
    - destruct (getDnsResolutionTime_resolves W (hostname u) s1 (hostname_ok u))
        as (s2 & dns & Hdns & Nd).
      exists dns. rewrite Hdns. cbn [fst]. split; [exact Nd|]. split; [discriminate|reflexivity].
    - exists JNull. split; [now left|]. split; reflexivity. }
  destruct D as (dns & Nd & Nnull & Hdns).
  exists ping, dns. split; [exact Np|]. split; [exact Nd|]. split; [exact Nnull|].
  split; [now rewrite Hping|].
  unfold measureLatency. fold config. rewrite HU.
  unfold try_catch at 1. unfold bind at 1. rewrite Hping.
  unfold bind at 1. rewrite Hdns. unfold bind at 1. cbv zeta.
  unfold set_ping_dns. simpl url. simpl error. simpl httpLatency. simpl status.
  simpl finalUrl. simpl bestLatency.
  destruct (httpProbe W config url0 _ (afterPing W config u s)) as [s3 [r|e|e|]];
    reflexivity.
Qed.

(** What the HTTP phase hands on: the object it was given with the
    fields of a response set, or with status 0; it never rejects, and an
    exception can only escape from the HEAD path. *)
Lemma httpProbe_cases W config url0 r s :
  (exists s' r', httpProbe W config url0 r s = (s', Resolved r')
     /\ ((exists t st fu, r' = set_http (num t) (num st) fu r)
         \/ r' = set_status (num 0) r))
  \/ (exists s' e, httpProbe W config url0 r s = (s', Uncaught e)
        /\ useHeadRequest config = true).
Proof.
  destruct (useHeadRequest config) eqn:Hu.
  - destruct (performHeadRequest W url0 (c_timeout config) (c_maxRedirects config) s)
      as [s1 [h|e|e|]] eqn:Hp.
    + left. rewrite (httpProbe_head_resolved _ _ _ _ _ _ _ Hu Hp). eauto 8.
    + left. rewrite (httpProbe_head_rejected _ _ _ _ _ _ _ Hu Hp).
      destruct (getRequest_resolves W config url0 r s1) as (s2 & _ & ->).
      destruct (axios_get W url0 (getConfig config)) as [dt [response|]]; eauto 8.
    + right. unfold httpProbe. rewrite Hu. run_m. rewrite Hp. eauto.
    + exfalso. apply (performHeadRequest_fuel W url0 (c_timeout config) (c_maxRedirects config) s).
      now rewrite Hp.
  - left. unfold httpProbe. rewrite Hu.
    destruct (getRequest_resolves W config url0 r s) as (s2 & _ & ->).
    destruct (axios_get W url0 (getConfig config)) as [dt [response|]]; eauto 8.
Qed.

(** X7. The outer [catch] of [measureLatency] is reached by an invalid
    URL and by nothing else. An object that [measureLatency] returns has
    an [error] field exactly when [new URL(url)] failed; it is then
    [{url, error, networkPing: null, httpLatency: null, status: 0}], and
    nothing was called: no ping, no look-up, no request, and the clock
    has not moved. *)
Theorem error_object_only_for_invalid_url :
  forall (W : World) (url0 : string) (options : Options) (s s' : NetState) (r : Results),
    measureLatency W url0 options s = (s', Resolved r) ->
    (error r <> JUndefined <-> parse_url W url0 = None)
    /\ (parse_url W url0 = None -> s' = s /\ r = errorResult url0 "Invalid URL").
Proof.
  intros W url0 options s s' r H.
  destruct (parse_url W url0) as [u|] eqn:HU.
  - split; [|discriminate].
    destruct (measureLatency_steps W url0 options s u HU) as (ping & dns & _ & _ & _ & _ & E).
    rewrite E in H. cbv zeta in H.
    match type of H with context [httpProbe ?W ?c ?u ?r ?s] =>
      destruct (httpProbe_cases W c u r s) as [(s3 & r' & Hp & Hr)|(s3 & e & Hp & _)];
        rewrite Hp in H
    end; [|discriminate].
    injection H as _ <-.
    split; [|discriminate]. intros Herr. exfalso. apply Herr.
    destruct Hr as [(t & st & fu & ->)| ->]; reflexivity.
  - unfold measureLatency in H. rewrite HU in H. injection H as <- <-.
    split; [split; [reflexivity | discriminate]|]. intros _. split; reflexivity.
Qed.

Lemma error_object_witness :
  measureLatency offline "not a url" no_options start
  = (start, Resolved (errorResult "not a url" "Invalid URL"))
  /\ (error (errorResult "not a url" "Invalid URL") <> JUndefined
      <-> parse_url offline "not a url" = None).
Proof.
  assert (A : measureLatency offline "not a url" no_options start
              = (start, Resolved (errorResult "not a url" "Invalid URL"))) by reflexivity.
  split; [exact A|].
  exact (proj1 (error_object_only_for_invalid_url offline "not a url" no_options start start
                  (errorResult "not a url" "Invalid URL") A)).
Defined.

(** X9. The calls of one measurement, in order. For a URL that parses,
    [measureLatency] runs the ping command of the platform for the host
    name, then looks the host name up (only when [measureDns] is on),
    then issues its HTTP requests: with [useHeadRequest] on, between one
    and [maxRedirects + 1] HEAD requests, followed by at most one GET of
    the original URL; with [useHeadRequest] off, that GET alone. It calls
    nothing else, whatever the outcome. *)
Theorem measureLatency_call_order :
  forall (W : World) (url0 : string) (options : Options) (s : NetState) (u : URL),
    parse_url W url0 = Some u ->
    let config := spread defaults options in
    exists heads gets,
      calls (fst (measureLatency W url0 options s))
      = (calls s ++ [CallExec (pingCommand W (hostname u))]
           ++ (if measureDns config then [CallDns (hostname u)] else [])
           ++ heads ++ gets)%list
      /\ Forall (is_head_request (c_timeout config) (headPort u)) heads
      /\ (length heads <= S (Z.to_nat (c_maxRedirects config)))%nat
      /\ (gets = [] \/ gets = [CallAxiosGet url0 (getConfig config)])
      /\ (if useHeadRequest config then (1 <= length heads)%nat
          else heads = [] /\ gets = [CallAxiosGet url0 (getConfig config)]).
Proof.
  intros W url0 options s u HU config.
  destruct (measureLatency_steps W url0 options s u HU) as (ping & dns & _ & _ & _ & _ & E).
  fold config in E. cbv zeta in E.
  match type of E with context [httpProbe ?W ?c ?u0 ?r ?s0] =>
    destruct (httpProbe_calls W c u0 r s0 u HU) as (heads & gets & C & F & L & G & K);
    assert (S3 : fst (measureLatency W url0 options s) = fst (httpProbe W c u0 r s0))
      by (rewrite E; destruct (httpProbe W c u0 r s0) as [s3 [r'|e|e|]]; reflexivity)
  end.
  exists heads, gets. rewrite S3, C. split; [|auto].
  unfold afterPing. rewrite getNetworkLatency_state.
  destruct (measureDns config).
  - rewrite (getDnsResolutionTime_state _ _ _ (hostname_ok u)). simpl.
    now rewrite <- !app_assoc.
  - simpl. now rewrite <- !app_assoc.
Qed.

Lemma measureLatency_call_order_witness :
  parse_url head_refused "http://a.test/" = Some (a_test "/")
  /\ exists heads gets,
       calls (fst (measureLatency head_refused "http://a.test/" no_options start))
       = (calls start ++ [CallExec (pingCommand head_refused "a.test")]
            ++ [CallDns "a.test"] ++ heads ++ gets)%list
       /\ (length heads <= 6)%nat.
Proof.
  assert (A : parse_url head_refused "http://a.test/" = Some (a_test "/")) by reflexivity.
  split; [exact A|].
  destruct (measureLatency_call_order head_refused "http://a.test/" no_options start
              (a_test "/") A) as (heads & gets & C & _ & L & _).
  exists heads, gets. split; [exact C | exact L].
Defined.

(** X10. How [bestLatency] is chosen, for every world and every option.
    In an object returned for a URL that parses, [networkPing],
    [httpLatency] and [dnsTime] are numbers or null ([dnsTime] is null
    when [measureDns] is off), and [bestLatency] is [networkPing] when
    [preferNetworkPing] is on and [networkPing] is truthy (a number other
    than 0), and [httpLatency] otherwise. So [bestLatency] is null only
    when no request was answered: then [httpLatency] is null and
    [status] is 0. *)
Theorem bestLatency_rule :
  forall (W : World) (url0 : string) (options : Options) (s s' : NetState) (r : Results)
         (u : URL),
    parse_url W url0 = Some u ->
    measureLatency W url0 options s = (s', Resolved r) ->
    let config := spread defaults options in
    number_or_null (networkPing r) /\ number_or_null (httpLatency r)
    /\ number_or_null (dnsTime r)
    /\ (measureDns config = false -> dnsTime r = JNull)
    /\ bestLatency r = (if preferNetworkPing config && truthy (networkPing r)
                        then networkPing r else httpLatency r)
    /\ (httpLatency r = JNull -> status r = num 0)
    /\ (bestLatency r = JNull -> httpLatency r = JNull).
Proof.
  intros W url0 options s s' r u HU H config.
  destruct (measureLatency_steps W url0 options s u HU) as (ping & dns & Np & Nd & Nn & _ & E).
  fold config in E. rewrite E in H. cbv zeta in H.
  match type of H with context [httpProbe ?W ?c ?u ?r ?s] =>
    destruct (httpProbe_cases W c u r s) as [(s3 & r' & Hp & Hr)|(s3 & e & Hp & _)];
      rewrite Hp in H
  end; [|discriminate].
  injection H as _ <-.
  assert (F : networkPing r' = ping /\ dnsTime r' = dns
              /\ ((exists q, httpLatency r' = JNum q)
                  \/ (httpLatency r' = JNull /\ status r' = num 0))).
  { destruct Hr as [(t & st & fu & ->)| ->]; simpl; repeat split; eauto. }
  destruct F as (F1 & F2 & F3).
  unfold chooseBest.
  cbn [set_bestLatency networkPing httpLatency dnsTime status bestLatency].
  rewrite F1, F2.
  split; [exact Np|]. split.
  { destruct F3 as [[q ->]|[-> _]]; [right; eauto | now left]. }
  split; [exact Nd|]. split; [exact Nn|]. split; [reflexivity|]. split.
  { destruct F3 as [[q ->]|[_ ->]]; [discriminate | reflexivity]. }
  destruct (preferNetworkPing config); simpl; [|auto].
  destruct (truthy ping) eqn:T; [|auto].
  intros ->. discriminate.
Qed.

Lemma bestLatency_rule_witness :
  parse_url windows_lan "http://a.test/" = Some (a_test "/")
  /\ exists s' r,
       measureLatency windows_lan "http://a.test/" no_options start = (s', Resolved r)
       /\ bestLatency r = (if preferNetworkPing (spread defaults no_options)
                              && truthy (networkPing r)
                           then networkPing r else httpLatency r).
Proof.
  assert (A : parse_url windows_lan "http://a.test/" = Some (a_test "/")) by reflexivity.
  split; [exact A|].
  eexists. eexists.
  assert (B : measureLatency windows_lan "http://a.test/" no_options start
              = (fst (measureLatency windows_lan "http://a.test/" no_options start),
                 Resolved
                   match snd (measureLatency windows_lan "http://a.test/" no_options start) with
                   | Resolved r => r
                   | _ => errorResult "" ""
                   end)) by (vm_compute; reflexivity).
  split; [exact B|].
  exact (proj1 (proj2 (proj2 (proj2 (proj2
           (bestLatency_rule windows_lan "http://a.test/" no_options start _ _ (a_test "/")
              A B)))))).
Defined.

(** X11. Without the HEAD path nothing escapes. With
    [useHeadRequest: false], [measureLatency] returns an object for every
    URL, in every world: the only request is the GET, whose status, time
    and final URL the object carries when the GET is answered; when the
    GET fails, [status] is 0, [httpLatency] null and [finalUrl] the URL
    that was asked for. *)
Theorem measureLatency_without_head_returns :
  forall (W : World) (url0 : string) (options : Options) (s : NetState),
    useHeadRequest (spread defaults options) = false ->
    let config := spread defaults options in
    exists s' r,
      measureLatency W url0 options s = (s', Resolved r)
      /\ (parse_url W url0 <> None ->
          match axios_get W url0 (getConfig config) with
          | (dt, Some response) =>
              httpLatency r = num dt /\ status r = num (g_status response)
              /\ finalUrl r = g_responseUrl response
          | (_, None) =>
              httpLatency r = JNull /\ status r = num 0 /\ finalUrl r = JStr url0
          end).
Proof.
  intros W url0 options s Hu config.
  change (useHeadRequest config = false) in Hu.
  destruct (parse_url W url0) as [u|] eqn:HU.
  - destruct (measureLatency_steps W url0 options s u HU) as (ping & dns & _ & _ & _ & _ & E).
    fold config in E. rewrite E. cbv zeta. unfold httpProbe. rewrite Hu.
    match goal with |- context [getRequest ?W ?c ?u ?r ?s] =>
      destruct (getRequest_resolves W c u r s) as (s2 & _ & ->)
    end.
    eexists. eexists. split; [reflexivity|]. intros _.
    destruct (axios_get W url0 (getConfig config)) as [dt [response|]]; simpl; auto.
  - exists s. eexists. unfold measureLatency. rewrite HU.
    split; [reflexivity|]. intros N. now elim N.
Qed.

Lemma measureLatency_without_head_witness :
  useHeadRequest (spread defaults get_only) = false
  /\ exists s' r, measureLatency bad_location "http://a.test/" get_only start = (s', Resolved r).
Proof.
  assert (A : useHeadRequest (spread defaults get_only) = false) by reflexivity.
  split; [exact A|].
  destruct (measureLatency_without_head_returns bad_location "http://a.test/" get_only start A)
    as (s' & r & E & _).
  exists s', r. exact E.
Defined.

(** The value of a run of digits is not negative. *)
Lemma digit_value_nonneg c : is_digit c = true -> 0 <= Z.of_nat (nat_of_ascii c) - 48.
Proof.
  unfold is_digit. intros H. apply andb_true_iff in H as [H _].
  apply Nat.leb_le in H. lia.
Qed.

Lemma digits_value_span s :
  forall acc, 0 <= acc -> 0 <= digits_value acc (fst (span is_digit s)).
Proof.
  induction s as [|c s IH]; intros acc Ha; simpl; [exact Ha|].
  destruct (is_digit c) eqn:E; simpl; [|exact Ha].
  destruct (span is_digit s) as [a b] eqn:Es. simpl in *.
  apply IH. pose proof (digit_value_nonneg c E). lia.
Qed.

Lemma digits_value_app a :
  forall acc b, digits_value acc (a +:+ b) = digits_value (digits_value acc a) b.
Proof.
  induction a as [|c a IH]; intros acc b; [reflexivity|].
  change (String c a +:+ b) with (String c (a +:+ b)). simpl. apply IH.
Qed.

Lemma digits1_span s d r : digits1 s = Some (d, r) -> d = fst (span is_digit s).
Proof.
  unfold digits1. destruct (span is_digit s) as [a b]. simpl.
  destruct (String.eqb a ""); [discriminate | now intros [= <- _]].
Qed.

Lemma parseInt_nonnegative c : starts_with_digit c = true -> nonnegative (parseInt c).
Proof.
  intros H. destruct (starts_digits1 c H) as [[d r] E].
  unfold parseInt. rewrite E. apply digits1_span in E. subst d.
  eexists. split; [reflexivity|].
  pose proof (digits_value_span c 0 (Z.le_refl 0)).
  unfold Qle. simpl. lia.
Qed.

Lemma parseFloat_nonnegative c : starts_with_digit c = true -> nonnegative (parseFloat c).
Proof.
  intros H. destruct (starts_digits1 c H) as [[d r] E].
  unfold parseFloat. rewrite E. apply digits1_span in E. subst d.
  pose proof (digits_value_span c 0 (Z.le_refl 0)) as P.
  destruct (literal "." r) as [r'|].
  - eexists. split; [reflexivity|]. rewrite digits_value_app.
    pose proof (digits_value_span r' _ P). unfold Qle. simpl. lia.
  - eexists. split; [reflexivity|]. unfold Qle. simpl. lia.
Qed.

(** X12. The ping latency is never negative and never NaN. For every
    host name, every platform and every output of the ping command,
    [getNetworkLatency] returns null or a number that is at least 0:
    what the four expressions capture starts with a run of digits, and
    [parseInt] and [parseFloat] read it as a non-negative number. *)
Theorem ping_latency_null_or_nonnegative :
  forall (W : World) (hostname0 : string) (s : NetState),
    exists s' v,
      getNetworkLatency W hostname0 s = (s', Resolved v)
      /\ (v = JNull \/ exists q, v = JNum q /\ (0 <= q)%Q).
Proof.
  intros W hostname0 s.
  unfold getNetworkLatency, execSync.
  set (cmd := if isWindows W then _ else _). clearbody cmd.
  run_m. destruct (exec_sync W cmd) as [dt [out|]]; simpl; [|eauto].
  destruct (isWindows W).
  - destruct (group1 (re_average out)) as [c|] eqn:E1.
    { apply group1_inv, re_average_digits, parseInt_nonnegative in E1. eauto. }
    destruct (group1 (re_time_windows out)) as [c|] eqn:E2.
    { apply group1_inv, re_time_windows_digits, parseInt_nonnegative in E2. eauto. }
    destruct (group1 (re_generic out)) as [c|] eqn:E3; [|eauto].
    apply group1_inv, re_generic_decimal, parseFloat_nonnegative in E3. eauto.
  - destruct (group1 (re_time_unix out)) as [c|] eqn:E1.
    { apply group1_inv, re_time_unix_decimal, parseFloat_nonnegative in E1. eauto. }
    destruct (group1 (re_generic out)) as [c|] eqn:E3; [|eauto].
    apply group1_inv, re_generic_decimal, parseFloat_nonnegative in E3. eauto.
Qed.

End NetworkMore.

(** ** The validator session: probe, replies and credit *)

Module ConnectionMore.
Import Network Connection ConnectionSpec Scenario ConnectionFacts.
Local Open Scope js_scope.

Ltac run_m :=
  unfold bind, ret, throw, escape, try_catch, get, modify, out_of_fuel in *; simpl in *.

Lemma is_status_request_options u :
  is_status_request
    (CallRequest {| o_https := String.eqb (protocol u) "https:";
                    o_method := "HEAD";
                    o_hostname := hostname u;
                    o_path := pathname u +:+ search u;
                    o_port := None;
                    o_timeout := 3000 |}).
Proof. now exists u. Qed.

Lemma getStatusCode_last W fuel :
  forall url s s' sc,
    getStatusCode W fuel url s = (s', Resolved sc) ->
    exists pre u,
      calls s' = (calls s ++ pre ++ [CallRequest (statusOptions u)])%list
      /\ Forall is_status_request pre
      /\ sc = statusOfEvent (fst (request_event W (statusOptions u)))
                (snd (request_event W (statusOptions u)))
      /\ is_redirect (sc_status sc) = false.
Proof.
  induction fuel as [|fuel IH]; intros url s s' sc; [discriminate|].
  simpl. destruct (parse_url W url) as [u|] eqn:HU; [|discriminate].
  fold (statusOptions u). unfold request.
  destruct (request_event W (statusOptions u)) as [dt ev] eqn:Hev.
  unfold bind at 1. unfold date_now at 1. unfold bind at 1.
  unfold bind at 1. unfold call, modify. cbn [fst snd].
  set (s1 := {| now := now s + dt;
                calls := (calls s ++ [CallRequest (statusOptions u)])%list |}).
  destruct ev as [code loc|e|].
  - unfold ret at 1. unfold bind at 1. unfold date_now at 1.
    destruct (is_redirect code) eqn:R.
    + destruct (resolve_url W (default "undefined" loc) url) as [u'|]; [|discriminate].
      intros H. apply IH in H as (pre & u2 & C & F & E & N).
      exists (CallRequest (statusOptions u) :: pre), u2.
      split; [rewrite C; subst s1; simpl; now rewrite <- app_assoc|].
      split; [constructor; [now exists u | exact F]|]. split; [exact E | exact N].
    + unfold ret. intros [= <- <-]. exists [], u. rewrite Hev. simpl.
      replace (now s + dt - now s) with dt by lia.
      split; [reflexivity|]. split; [constructor|]. split; [reflexivity | exact R].
  - unfold ret at 1. unfold bind at 1. unfold date_now at 1. unfold ret.
    intros [= <- <-]. exists [], u. rewrite Hev. simpl.
    replace (now s + dt - now s) with dt by lia.
    split; [reflexivity|]. split; [constructor|]. split; reflexivity.
  - unfold ret. intros [= <- <-]. exists [], u. rewrite Hev. simpl.
    split; [reflexivity|]. split; [constructor|]. split; reflexivity.
Qed.

(** X13. What the status check reports. When [getStatusCode] resolves,
    it has issued one or more HEAD requests and nothing else, each with
    time-out 3000 and without a port (the port of the URL is not
    passed on); the status it reports is that of the last request (0
    when that request failed or timed out) and is never one of 301, 302,
    303, 307, 308; the time it reports is the time of the last request
    alone (a flat 3000 on a time-out), however many redirects were
    followed before it. *)
Theorem status_check_reports_last_request :
  forall (W : World) (fuel : nat) (url : string) (s s' : NetState) (sc : StatusCheck),
    getStatusCode W fuel url s = (s', Resolved sc) ->
    is_redirect (sc_status sc) = false
    /\ exists pre o,
         calls s' = (calls s ++ pre ++ [CallRequest o])%list
         /\ Forall (fun c => exists o', c = CallRequest o' /\ o_method o' = "HEAD"
                                        /\ o_port o' = None /\ o_timeout o' = 3000)
              (pre ++ [CallRequest o])
         /\ match request_event W o with
            | (dt, OnResponse statusCode _) => sc_status sc = statusCode /\ sc_time sc = dt
            | (dt, OnError _) => sc_status sc = 0 /\ sc_time sc = dt
            | (_, OnTimeout) => sc_status sc = 0 /\ sc_time sc = 3000
            end.
Proof.
  intros W fuel url s s' sc H.
  apply getStatusCode_last in H as (pre & u & C & F & E & N).
  split; [exact N|]. exists pre, (statusOptions u). split; [exact C|]. split.
  - apply Forall_app. split.
    + eapply Forall_impl; [exact F|]. intros c [u' ->]. eexists. split; [reflexivity|]. auto.
    + constructor; [|constructor]. eexists. split; [reflexivity|]. auto.
  - rewrite E. destruct (request_event W (statusOptions u)) as [dt [code loc|e|]]; simpl; auto.
Qed.

Lemma status_check_witness :
  getStatusCode two_redirects 5 "http://a.test/" start
  = ({| now := 1090;
        calls := [CallRequest (statusOptions (a_test "/"));
                  CallRequest (statusOptions (a_test "/b"));
                  CallRequest (statusOptions (a_test "/c"))] |},
     Resolved {| sc_time := 40; sc_status := 200 |})
  /\ is_redirect 200 = false.
Proof.
  assert (A : getStatusCode two_redirects 5 "http://a.test/" start
              = ({| now := 1090;
                    calls := [CallRequest (statusOptions (a_test "/"));
                              CallRequest (statusOptions (a_test "/b"));
                              CallRequest (statusOptions (a_test "/c"))] |},
                 Resolved {| sc_time := 40; sc_status := 200 |})) by reflexivity.
  split; [exact A|].
  exact (proj1 (status_check_reports_last_request two_redirects 5 "http://a.test/" start _ _ A)).
Defined.

Lemma getStatusCode_step W fuel url u s :
  parse_url W url = Some u ->
  getStatusCode W (S fuel) url s
  = let s1 := {| now := now s + fst (request_event W (statusOptions u));
                 calls := (calls s ++ [CallRequest (statusOptions u)])%list |} in
    match snd (request_event W (statusOptions u)) with
    | OnResponse statusCode loc =>
        if is_redirect statusCode then
          match resolve_url W (default "undefined" loc) url with
          | None => (s1, Uncaught "Invalid URL")
          | Some next => getStatusCode W fuel next s1
          end
        else (s1, Resolved (statusOfEvent (fst (request_event W (statusOptions u)))
                              (OnResponse statusCode loc)))
    | ev => (s1, Resolved (statusOfEvent (fst (request_event W (statusOptions u))) ev))
    end.
Proof.
  intros HU. simpl. rewrite HU. fold (statusOptions u). unfold request.
  destruct (request_event W (statusOptions u)) as [dt ev].
  unfold bind at 1. unfold date_now at 1. unfold bind at 1.
  unfold bind at 1. unfold call, modify. cbn [fst snd].
  destruct ev as [code loc|e|]; cbv zeta.
  - unfold ret at 1. unfold bind at 1. unfold date_now at 1.
    destruct (is_redirect code).
    + destruct (resolve_url W (default "undefined" loc) url); reflexivity.
    + unfold ret. simpl. now replace (now s + dt - now s) with dt by lia.
  - unfold ret at 1. unfold bind at 1. unfold date_now at 1. unfold ret. simpl.
    now replace (now s + dt - now s) with dt by lia.
  - reflexivity.
Qed.

(** X14. The status check has no bound on redirects. When the requests
    for a URL meet [n] redirects and then a request that ends otherwise,
    [getStatusCode] resolves after exactly [n + 1] requests, for every
    [n]: the [maxRedirects: 5] of its options stops nothing. (Short of
    [n + 1] requests it is still following redirects.) *)
Theorem status_check_follows_every_redirect :
  forall (W : World) (url : string) (n : nat),
    redirects W url n ->
    forall (fuel : nat) (s : NetState),
      if (fuel <=? n)%nat
      then snd (getStatusCode W fuel url s) = OutOfFuel
      else exists s' sc l,
             getStatusCode W fuel url s = (s', Resolved sc)
             /\ calls s' = (calls s ++ l)%list /\ length l = S n.
Proof.
  intros W url n R. induction R as [url u HU Hend|url u code loc next n HU Hev Hr Hres R IH];
    intros fuel s.
  - destruct fuel as [|fuel]; [reflexivity|].
    change (S fuel <=? 0)%nat with false.
    rewrite (getStatusCode_step W fuel url u s HU). cbv zeta.
    destruct (snd (request_event W (statusOptions u))) as [code loc|e|] eqn:E.
    + rewrite (Hend code loc eq_refl). eexists. eexists. exists [CallRequest (statusOptions u)].
      split; [reflexivity|]. split; reflexivity.
    + eexists. eexists. exists [CallRequest (statusOptions u)].
      split; [reflexivity|]. split; reflexivity.
    + eexists. eexists. exists [CallRequest (statusOptions u)].
      split; [reflexivity|]. split; reflexivity.
  - destruct fuel as [|fuel]; [reflexivity|].
    change (S fuel <=? S n)%nat with (fuel <=? n)%nat.
    rewrite (getStatusCode_step W fuel url u s HU). cbv zeta. rewrite Hev, Hr, Hres.
    match goal with |- context [getStatusCode W fuel next ?s1] => specialize (IH fuel s1) end.
    destruct (fuel <=? n)%nat; [exact IH|].
    destruct IH as (s' & sc & l & E & C & L).
    exists s', sc, (CallRequest (statusOptions u) :: l).
    split; [exact E|]. split; [rewrite C; simpl; now rewrite <- app_assoc | simpl; now rewrite L].
Qed.

Lemma status_check_follows_witness :
  redirects two_redirects "http://a.test/" 2
  /\ exists s' sc l,
       getStatusCode two_redirects 3 "http://a.test/" start = (s', Resolved sc)
       /\ calls s' = (calls start ++ l)%list /\ length l = 3%nat.
Proof.
  assert (A : redirects two_redirects "http://a.test/" 2).
  { eapply redirects_step with (u := a_test "/"); [reflexivity..|].
    eapply redirects_step with (u := a_test "/b"); [reflexivity..|].
    eapply redirects_end with (u := a_test "/c"); [reflexivity|].
    simpl. intros statusCode loc [= <- _]. reflexivity. }
  split; [exact A|].
  exact (status_check_follows_every_redirect two_redirects "http://a.test/" 2 A 3%nat start).
Defined.

(** Whatever its outcome, the status check only issues its HEAD
    requests. *)
Lemma getStatusCode_calls W fuel :
  forall url s,
    exists l,
      calls (fst (getStatusCode W fuel url s)) = (calls s ++ l)%list
      /\ Forall is_status_request l.
Proof.
  induction fuel as [|fuel IH]; intros url s.
  - exists []. simpl. now rewrite app_nil_r.
  - destruct (parse_url W url) as [u|] eqn:HU.
    + rewrite (getStatusCode_step W fuel url u s HU). cbv zeta.
      set (s1 := {| now := _; calls := _ |}).
      assert (B : exists l, calls s1 = (calls s ++ l)%list /\ Forall is_status_request l).
      { exists [CallRequest (statusOptions u)]. split; [reflexivity|].
        constructor; [now exists u | constructor]. }
      destruct (snd (request_event W (statusOptions u))) as [code loc|x|]; try exact B.
      destruct (is_redirect code); [|exact B].
      destruct (resolve_url W (default "undefined" loc) url) as [next|]; [|exact B].
      destruct (IH next s1) as (l & C & F).
      exists (CallRequest (statusOptions u) :: l). rewrite C. subst s1. simpl.
      rewrite <- app_assoc. split; [reflexivity|]. constructor; [now exists u | exact F].
    + simpl. rewrite HU. exists []. simpl. now rewrite app_nil_r.
Qed.

Lemma tcpPort_valid u : valid_port (tcpPort u) = true.
Proof. unfold tcpPort. destruct (String.eqb (protocol u) "https:"); reflexivity. Qed.

(** [measureAccurateLatency] on a URL that parses: the connection, then
    the status check. *)
Lemma measureAccurateLatency_parsed W fuel url u s :
  parse_url W url = Some u ->
  measureAccurateLatency W fuel url s
  = let s1 := {| now := now s + fst (socket_event W (tcpPort u) (hostname u));
                 calls := (calls s ++ [CallSocket (tcpPort u) (hostname u)])%list |} in
    let tcpLatency :=
      match snd (socket_event W (tcpPort u) (hostname u)) with
      | OnConnect => num (fst (socket_event W (tcpPort u) (hostname u)))
      | _ => JNull
      end in
    match getStatusCode W fuel url s1 with
    | (s2, Resolved sc) =>
        (s2, Resolved {| p_time := js_or tcpLatency (num (sc_time sc));
                         p_status := sc_status sc |})
    | (s2, Rejected _) => (s2, Resolved {| p_time := num 0; p_status := 0 |})
    | (s2, Uncaught e) => (s2, Uncaught e)
    | (s2, OutOfFuel) => (s2, OutOfFuel)
    end.
Proof.
  intros HU. unfold measureAccurateLatency. rewrite HU. fold (tcpPort u).
  unfold getTcpLatency, socketConnect. rewrite tcpPort_valid, (hostname_ok u).
  destruct (socket_event W (tcpPort u) (hostname u)) as [dt ev].
  unfold try_catch. unfold bind at 1. unfold bind at 1. unfold date_now at 1.
  unfold bind at 1. unfold bind at 1. unfold call, modify. cbn [fst snd]. cbv zeta.
  destruct ev; unfold bind, ret, date_now; cbn [now];
    try replace (now s + dt - now s) with dt by lia;
    destruct (getStatusCode W fuel url _) as [s2 [sc|e|e|]]; reflexivity.
Qed.


(** X15. What the probe of the validator measures. For a URL that
    parses, [measureAccurateLatency] first connects to the host on 443
    (https) or 80 (any other scheme), never on the port the URL names,
    and then checks the status. The [time] it returns is the time of the
    TCP connection when the socket connected and that time is not 0;
    when the connection failed, timed out or took 0 ms, it is the time
    of the last HEAD request. The [status] is the one of the status
    check, never a redirect status. The only other result is
    [{time: 0, status: 0}]; the function never rejects. *)
Theorem probe_time_and_status :
  forall (W : World) (fuel : nat) (url : string) (u : URL) (s s' : NetState) (p : PingResult),
    parse_url W url = Some u ->
    measureAccurateLatency W fuel url s = (s', Resolved p) ->
    (exists l, calls s' = (calls s ++ CallSocket (tcpPort u) (hostname u) :: l)%list)
    /\ is_redirect (p_status p) = false
    /\ (p = {| p_time := num 0; p_status := 0 |}
        \/ exists sc s1,
             getStatusCode W fuel url s1 = (s', Resolved sc)
             /\ p_status p = sc_status sc
             /\ p_time p
                = match socket_event W (tcpPort u) (hostname u) with
                  | (dt, OnConnect) => if dt =? 0 then num (sc_time sc) else num dt
                  | _ => num (sc_time sc)
                  end).
Proof.
  intros W fuel url u s s' p HU H.
  rewrite (measureAccurateLatency_parsed W fuel url u s HU) in H. cbv zeta in H.
  match type of H with context [getStatusCode W fuel url ?x] => set (s1 := x) in * end.
  destruct (getStatusCode W fuel url s1) as [s2 [sc|e|e|]] eqn:G; try discriminate.
  - injection H as <- <-.
    pose proof (getStatusCode_last W fuel url s1 s2 sc G) as (pre & u2 & C & _ & _ & N).
    split.
    { exists (pre ++ [CallRequest (statusOptions u2)])%list. rewrite C. subst s1. simpl.
      now rewrite <- app_assoc. }
    split; [exact N|]. right. exists sc, s1. split; [exact G|]. split; [reflexivity|].
    simpl. destruct (socket_event W (tcpPort u) (hostname u)) as [dt [| |]]; simpl; auto.
    unfold js_or, num. simpl. destruct (dt =? 0); reflexivity.
  - injection H as <- <-. split.
    { destruct (getStatusCode_calls W fuel url s1) as (l & F & _). rewrite G in F. simpl in F.
      exists l. rewrite F. subst s1. simpl. now rewrite <- app_assoc. }
    split; [reflexivity|]. now left.
Qed.

Lemma probe_time_and_status_witness :
  parse_url two_redirects "http://a.test/" = Some (a_test "/")
  /\ measureAccurateLatency two_redirects 5 "http://a.test/" start
     = ({| now := 1100;
           calls := [CallSocket 80 "a.test";
                     CallRequest (statusOptions (a_test "/"));
                     CallRequest (statusOptions (a_test "/b"));
                     CallRequest (statusOptions (a_test "/c"))] |},
        Resolved {| p_time := num 10; p_status := 200 |})
  /\ is_redirect 200 = false.
Proof.
  assert (A : parse_url two_redirects "http://a.test/" = Some (a_test "/")) by reflexivity.
  assert (B : measureAccurateLatency two_redirects 5 "http://a.test/" start
              = ({| now := 1100;
                    calls := [CallSocket 80 "a.test";
                              CallRequest (statusOptions (a_test "/"));
                              CallRequest (statusOptions (a_test "/b"));
                              CallRequest (statusOptions (a_test "/c"))] |},
                 Resolved {| p_time := num 10; p_status := 200 |})) by reflexivity.
  split; [exact A|]. split; [exact B|].
  exact (proj1 (proj2 (probe_time_and_status two_redirects 5 "http://a.test/" (a_test "/")
                         start _ _ A B))).
Defined.





(** X20. A request for a URL that is no URL is still answered and
    credited. The probe returns [{time: 0, status: 0}] without a call,
    so that the handler asks [fetch] for the status; when the socket
    takes its reply, it has then sent one frame and credited
    [COST_PER_VALIDATION]. The frame is "Bad" when the [fetch] fails or
    gives a status that is 0 or in [400, 599], after one more look-up
    of the location, and "Good" otherwise; its latency is 0 either way.
    No socket is opened and no HEAD request is made. *)
Theorem invalid_url_is_answered :
  forall (W : World) (sign : string -> string) (fuel : nat) (url callbackId : string)
         (s : Session),
    parse_url W url = None ->
    let rs := match snd (fetch_status W url) with Some status => status | None => 0 end in
    ws_send W (if bad_status rs
               then now (net s) + fst (fetch_status W url) + fst (ipinfo W)
               else now (net s) + fst (fetch_status W url)) = Sent ->
    exists s' f,
      on_message W sign fuel (MsgValidate url callbackId) s = (s', Resolved tt)
      /\ sent s' = (sent s ++ [f])%list
      /\ f_callbackId f = callbackId
      /\ f_status f = (if bad_status rs then "Bad" else "Good")
      /\ f_latency f = num 0
      /\ pendingPayouts s' = pendingPayouts s + COST_PER_VALIDATION
      /\ calls (net s')
         = (calls (net s) ++ CallFetch url :: if bad_status rs then [CallIpinfo] else [])%list.
Proof.
  intros W sign fuel url callbackId s HU rs Hs.
  assert (O : exists s1,
             obtainStatus W fuel url s = (s1, Resolved ({| p_time := num 0; p_status := 0 |}, rs))
             /\ calls (net s1) = (calls (net s) ++ [CallFetch url])%list
             /\ now (net s1) = now (net s) + fst (fetch_status W url)).
  { unfold obtainStatus, lift, measureAccurateLatency. rewrite HU.
    unfold statusAfterFetch, lift, fetchStatus. subst rs.
    destruct (fetch_status W url) as [dt [status|]]; run_m;
      eexists; (split; [reflexivity|]); split; reflexivity. }
  destruct O as (s1 & O & C & T).
  assert (Hs1 : ws_send W (replyTime W s1 rs) = Sent).
  { unfold replyTime. rewrite T. exact Hs. }
  unfold on_message, try_catch.
  rewrite (on_validate_result W sign fuel url callbackId s s1 _ rs O), Hs1.
  eexists. eexists. split; [reflexivity|]. split; [reflexivity|].
  cbn [tryFrame f_callbackId f_status f_latency replied pendingPayouts net p_time].
  split; [reflexivity|]. split; [reflexivity|].
  split; [now destruct (bad_status rs)|]. split; [reflexivity|].
  unfold replyNet, located. destruct (bad_status rs); cbn [calls]; rewrite C, <- ?app_assoc;
    reflexivity.
Qed.

Lemma invalid_url_is_answered_witness :
  parse_url offline "not a url" = None
  /\ ws_send offline (now (net session0) + fst (fetch_status offline "not a url")
                      + fst (ipinfo offline)) = Sent
  /\ exists s' f,
       on_message offline sign0 0 (MsgValidate "not a url" "cb-1") session0 = (s', Resolved tt)
       /\ sent s' = (sent session0 ++ [f])%list
       /\ f_status f = "Bad" /\ f_latency f = num 0.
Proof.
  assert (A : parse_url offline "not a url" = None) by reflexivity.
  assert (B : ws_send offline (now (net session0) + fst (fetch_status offline "not a url")
                               + fst (ipinfo offline)) = Sent) by reflexivity.
  split; [exact A|]. split; [exact B|].
  destruct (invalid_url_is_answered offline sign0 0 "not a url" "cb-1" session0 A B)
    as (s' & f & E & S1 & _ & St & L & _).
  exists s', f. split; [exact E|]. split; [exact S1|]. split; [exact St | exact L].
Defined.

(** X21. The messages that are not validation requests. Such a message
    is handled at once: no call is made, no frame is sent, the clock,
    [lastPingTime], [location] and [ipAddress] stay as they are, and the
    handler returns. A signup acknowledgement stores the [validatorId]
    it carries, whatever that value is; it replaces [pendingPayouts]
    only when it carries one and the [validatorId] is a string (for any
    other value [validatorId.padEnd] throws before [pendingPayouts] is
    read). Every other message changes nothing. *)
Theorem other_messages_only_set_the_identity :
  forall (W : World) (sign : string -> string) (fuel : nat) (msg : Message) (s : Session),
    (forall url callbackId, msg <> MsgValidate url callbackId) ->
    let r := on_message W sign fuel msg s in
    snd r = Resolved tt
    /\ net (fst r) = net s /\ sent (fst r) = sent s
    /\ lastPingTime (fst r) = lastPingTime s
    /\ location (fst r) = location s /\ ipAddress (fst r) = ipAddress s
    /\ validatorId (fst r)
       = match msg with MsgSignup v _ => v | _ => validatorId s end
    /\ pendingPayouts (fst r)
       = match msg with
         | MsgSignup (JStr _) (Some p) => p
         | _ => pendingPayouts s
         end.
Proof.
  intros W sign fuel msg s N r. subst r.
  destruct msg as [|v p|url callbackId|].
  - destruct s; repeat split; reflexivity.
  - destruct v as [| | | | |x|], p as [p|]; destruct s; repeat split; reflexivity.
  - now elim (N url callbackId).
  - destruct s; repeat split; reflexivity.
Qed.

Lemma other_messages_witness :
  (forall url callbackId, MsgSignup JNull (Some 700) <> MsgValidate url callbackId)
  /\ validatorId (fst (on_message offline sign0 0 (MsgSignup JNull (Some 700)) session0)) = JNull
  /\ pendingPayouts (fst (on_message offline sign0 0 (MsgSignup JNull (Some 700)) session0))
     = pendingPayouts session0.
Proof.
  assert (A : forall url callbackId, MsgSignup JNull (Some 700) <> MsgValidate url callbackId)
    by discriminate.
  split; [exact A|].
  pose proof (other_messages_only_set_the_identity offline sign0 0
                (MsgSignup JNull (Some 700)) session0 A) as H.
  cbv zeta in H. destruct H as (_ & _ & _ & _ & _ & _ & V & P).
  split; [exact V | exact P].
Defined.

End ConnectionMore.

(** ** Validator and hub together *)

Module HandshakeFacts.
Import Connection Handshake Scenario HubFacts HubMore ConnectionMore.
Local Open Scope js_scope.

Lemma map_get_delete_other k id m :
  id <> k -> Hub.map_get k (Hub.map_delete id m) = Hub.map_get k m.
Proof.
  intros N. induction m as [|[k0 v0] m IH]; simpl; [reflexivity|].
  destruct (String.eqb_spec k0 id) as [->|Hid].
  - destruct (String.eqb_spec id k); [contradiction | reflexivity].
  - simpl. now rewrite IH.
Qed.

Lemma first_with_ip_lookup addr m id :
  NoDup (Hub.keys m) ->
  Hub.first_with_ip addr m = Some id ->
  exists info, Hub.map_get id m = Some info /\ strict_eq (Hub.ip info) addr = true.
Proof.
  unfold Hub.keys. induction m as [|[k0 v0] m IH]; simpl; [discriminate|].
  intros Hn. apply NoDup_cons in Hn as [Hk Hn].
  destruct (strict_eq (Hub.ip v0) addr) eqn:E.
  - intros [= ->]. rewrite String.eqb_refl. eauto.
  - intros H. destruct (String.eqb_spec k0 id) as [->|Hid].
    + exfalso. apply Hk. destruct (IH Hn H) as (info & G & _).
      apply dec_stable. intros Hnot. apply HubMore.map_get_None_keys in Hnot. congruence.
    + now apply IH.
Qed.

(** A close leaves alone every record whose [ip] is not the address of
    the closing connection. *)
Lemma on_close_keeps c st k info :
  NoDup (Hub.keys (Hub.validators st)) ->
  Hub.map_get k (Hub.validators st) = Some info ->
  strict_eq (Hub.ip info) (Hub.remoteAddress c) = false ->
  Hub.map_get k (Hub.validators (Hub.on_close c st)) = Some info.
Proof.
  intros Hn G E. unfold Hub.on_close.
  destruct (Hub.first_with_ip (Hub.remoteAddress c) (Hub.validators st)) as [id|] eqn:F;
    [|exact G].
  simpl. rewrite map_get_delete_other; [exact G|].
  intros ->. destruct (first_with_ip_lookup _ _ _ Hn F) as (info' & G' & E').
  congruence.
Qed.

(** The record the hub stores for the signup frame of a session. *)
Lemma signup_record sign pk cb0 s c t1 r st :
  let st1 := Hub.on_message c t1 r (signup_received (on_open sign pk cb0 s)) st in
  Hub.validators st1
  = Hub.map_set (Hub.fresh_id r)
      {| Hub.publicKey := JStr pk;
         Hub.location := JStr (if String.eqb (location s) "" then "Unknown" else location s);
         Hub.connectionTime := t1;
         Hub.lastActive := t1;
         Hub.ip := if String.eqb (ipAddress s) "" then Hub.remoteAddress c
                   else JStr (ipAddress s);
         Hub.clientIp := Hub.remoteAddress c |}
      (Hub.validators st)
  /\ Hub.outbox st1
     = (Hub.outbox st
          ++ [{| Hub.ack_conn := Hub.handle c; Hub.ack_validatorId := Hub.fresh_id r |}])%list.
Proof.
  simpl. unfold Hub.on_signup, Hub.newRecord, js_or. simpl.
  destruct (String.eqb (location s) ""), (String.eqb (ipAddress s) ""); simpl; auto.
Qed.

(** X17. The handshake. When a validator's socket opens, its signup
    frame reaches the hub and the hub's acknowledgement reaches the
    validator, then: the hub has stored, under the id it drew, the
    validator's public key, its location ("Unknown" for an empty one)
    and as [ip] the address the validator reported (the address of the
    connection only when the reported one is empty); it has sent one
    acknowledgement, to that connection; and the validator's
    [validatorId] is the id the hub drew, while its [pendingPayouts],
    which this hub never sends, its clock, its calls and its frames are
    as before. *)
Theorem handshake_registers_the_validator :
  forall (W : World) (sign : string -> string) (fuel : nat) (pk cb0 : string) (s : Session)
         (c : Hub.Conn) (t1 : Z) (r : Q) (st : Hub.State),
    let st1 := Hub.on_message c t1 r (signup_received (on_open sign pk cb0 s)) st in
    exists a,
      Hub.outbox st1 = (Hub.outbox st ++ [a])%list
      /\ Hub.ack_conn a = Hub.handle c
      /\ Hub.map_get (Hub.fresh_id r) (Hub.validators st1)
         = Some {| Hub.publicKey := JStr pk;
                   Hub.location :=
                     JStr (if String.eqb (location s) "" then "Unknown" else location s);
                   Hub.connectionTime := t1;
                   Hub.lastActive := t1;
                   Hub.ip := if String.eqb (ipAddress s) "" then Hub.remoteAddress c
                             else JStr (ipAddress s);
                   Hub.clientIp := Hub.remoteAddress c |}
      /\ on_message W sign fuel (ack_received a) s
         = ({| net := net s; validatorId := JStr (Hub.fresh_id r);
               pendingPayouts := pendingPayouts s; location := location s;
               ipAddress := ipAddress s; lastPingTime := lastPingTime s;
               sent := sent s |}, Resolved tt).
Proof.
  intros W sign fuel pk cb0 s c t1 r st st1.
  destruct (signup_record sign pk cb0 s c t1 r st) as [V O]. fold st1 in V, O.
  eexists. split; [exact O|]. split; [reflexivity|]. split.
  - rewrite V. apply map_get_set_same.
  - reflexivity.
Qed.

(** X18. A validator that reports another address than the one it
    connects from is not removed when it disconnects. If the
    [ipAddress] of the session is not empty and is not the remote
    address of its connection (as when the look-up of the address failed
    and it is still "Unknown"), then after the signup the close of that
    connection leaves the validator's record in the registry. *)
Theorem disconnect_leaves_record_when_address_differs :
  forall (sign : string -> string) (pk cb0 : string) (s : Session)
         (c : Hub.Conn) (t1 : Z) (r : Q) (st : Hub.State),
    NoDup (Hub.keys (Hub.validators st)) ->
    ipAddress s <> "" ->
    Hub.remoteAddress c <> JStr (ipAddress s) ->
    let st1 := Hub.on_message c t1 r (signup_received (on_open sign pk cb0 s)) st in
    exists info,
      Hub.map_get (Hub.fresh_id r) (Hub.validators (Hub.on_close c st1)) = Some info
      /\ Hub.publicKey info = JStr pk /\ Hub.ip info = JStr (ipAddress s).
Proof.
  intros sign pk cb0 s c t1 r st Hn He Ha st1.
  destruct (signup_record sign pk cb0 s c t1 r st) as [V _]. fold st1 in V.
  apply String.eqb_neq in He. rewrite He in V.
  eexists. split.
  { apply on_close_keeps.
    - rewrite V. now apply keys_set_NoDup.
    - rewrite V. apply map_get_set_same.
    - simpl. destruct (Hub.remoteAddress c) as [| | | | |x|]; try reflexivity.
      apply String.eqb_neq. intros E. apply Ha. now rewrite E. }
  split; reflexivity.
Qed.

Lemma disconnect_leaves_record_witness :
  NoDup (Hub.keys (Hub.validators Hub.initial))
  /\ ipAddress unlocated <> ""
  /\ Hub.remoteAddress conn1 <> JStr (ipAddress unlocated)
  /\ exists info,
       Hub.map_get (Hub.fresh_id draw1)
         (Hub.validators
            (Hub.on_close conn1
               (Hub.on_message conn1 1000 draw1
                  (signup_received (on_open sign0 "cHVibGljLWtleS0x" "cb-0" unlocated))
                  Hub.initial))) = Some info
       /\ Hub.publicKey info = JStr "cHVibGljLWtleS0x" /\ Hub.ip info = JStr "Unknown".
Proof.
  assert (A : NoDup (Hub.keys (Hub.validators Hub.initial))) by constructor.
  assert (B : ipAddress unlocated <> "") by discriminate.
  assert (C : Hub.remoteAddress conn1 <> JStr (ipAddress unlocated)) by discriminate.
  split; [exact A|]. split; [exact B|]. split; [exact C|].
  exact (disconnect_leaves_record_when_address_differs sign0 "cHVibGljLWtleS0x" "cb-0"
           unlocated conn1 1000 draw1 Hub.initial A B C).
Defined.



End HandshakeFacts.

(** ** The commands of the CLI *)

Module CliFacts.
Import Scan ScanFacts Network NetworkSpec Cli Scenario NetworkFacts NetworkMore.
Local Open Scope js_scope.

(** The first and the last line of a report go by the truth value of
    [networkPing]; no line of a report is the failure message. *)
Lemma report_lines r :
  (In (RowPing None) (report r) <-> truthy (networkPing r) = false)
  /\ (In WarnNotMeasured (report r) <-> truthy (networkPing r) = false)
  /\ (forall e, ~ In (ErrFailedToPing e) (report r)).
Proof.
  unfold report.
  destruct (truthy (networkPing r)), (truthy (dnsTime r)), (truthy (status r));
    try destruct (js_lt (networkPing r) 100); try destruct (js_lt (networkPing r) 300);
    simpl; (split; [|split]); try intros e; intuition (discriminate || congruence).
Qed.

(** X22. What the [ping] command prints. The command never prints
    "Failed to ping": [measureLatency] returns an object or leaves an
    exception uncaught, and its promise is never rejected. For a URL
    that is no URL the command makes no call and prints the 'N/A' row
    and "Network ping could not be measured", without a status line and
    without the error. For a URL that parses, the 'N/A' row and that
    warning appear together, exactly when the system ping gave null or
    0. *)
Theorem ping_command_output :
  forall (W : World) (url0 : string) (s s' : NetState) (lines : list Line),
    ping W url0 s = (s', Resolved lines) ->
    (forall e, ~ In (ErrFailedToPing e) lines)
    /\ (In (RowPing None) lines <-> In WarnNotMeasured lines)
    /\ match parse_url W url0 with
       | None => s' = s /\ lines = [RowPing None; WarnNotMeasured]
       | Some u =>
           exists v, snd (getNetworkLatency W (hostname u) s) = Resolved v
                     /\ (In WarnNotMeasured lines <-> truthy v = false)
       end.
Proof.
  intros W url0 s s' lines H. unfold ping, try_catch in H. unfold bind at 1 in H.
  destruct (parse_url W url0) as [u|] eqn:HU.
  - destruct (measureLatency_steps W url0 no_options s u HU)
      as (pv & dns & _ & _ & _ & Hp & E).
    rewrite E in H. cbv zeta in H.
    match type of H with context [httpProbe ?W ?c ?u ?r ?s] =>
      destruct (httpProbe_cases W c u r s) as [(s3 & r' & Hh & Hr)|(s3 & e & Hh & _)];
        rewrite Hh in H
    end; [|discriminate].
    injection H as <- <-.
    match goal with |- context [report ?r] =>
      destruct (report_lines r) as (R1 & R2 & R3);
      assert (N : networkPing r = pv)
        by (destruct Hr as [(t & st & fu & ->)| ->]; reflexivity)
    end.
    split; [exact R3|]. split; [now rewrite R1, R2|].
    exists pv. split; [exact Hp|]. now rewrite R2, N.
  - unfold measureLatency in H. rewrite HU in H. injection H as <- <-.
    split; [intros e [E|[E|[]]]; discriminate|].
    split; [simpl; tauto|]. split; reflexivity.
Qed.

Lemma ping_command_output_witness :
  ping windows_lan "http://a.test/" start
  = (fst (ping windows_lan "http://a.test/" start),
     Resolved [RowPing None; RowDns (num 2); LogStatus greenBright (num 200); WarnNotMeasured])
  /\ (In (RowPing None)
         [RowPing None; RowDns (num 2); LogStatus greenBright (num 200); WarnNotMeasured]
      <-> In WarnNotMeasured
            [RowPing None; RowDns (num 2); LogStatus greenBright (num 200); WarnNotMeasured]).
Proof.
  assert (A : ping windows_lan "http://a.test/" start
              = (fst (ping windows_lan "http://a.test/" start),
                 Resolved [RowPing None; RowDns (num 2); LogStatus greenBright (num 200);
                           WarnNotMeasured])) by (vm_compute; reflexivity).
  split; [exact A|].
  exact (proj1 (proj2 (ping_command_output windows_lan "http://a.test/" start _ _ A))).
Defined.

(** X23. [debug-ping] against [ping]. For the same host the two
    commands run the same ping command and leave the same state. When
    [debug-ping] has a value for the network latency, [getNetworkLatency]
    has the same one; when [debug-ping] has none, [getNetworkLatency] has
    the first number that "=" or "<" precedes and "ms" follows in the
    output, if there is one, and none otherwise. [debug-ping] prints
    'N/A' only for null, so it shows a measured 0. *)
Theorem debug_ping_agrees_with_ping :
  forall (W : World) (hostname0 : string) (s : NetState),
    fst (debugNetworkLatency W hostname0 s) = fst (getNetworkLatency W hostname0 s)
    /\ exists v v',
         snd (debugNetworkLatency W hostname0 s) = Resolved v
         /\ snd (getNetworkLatency W hostname0 s) = Resolved v'
         /\ (v <> JNull -> v' = v)
         /\ (v = JNull ->
             v' = match exec_sync W (pingCommand W hostname0) with
                  | (_, Some pingOutput) =>
                      match group1 (re_generic pingOutput) with
                      | Some g => parseFloat g
                      | None => JNull
                      end
                  | (_, None) => JNull
                  end)
         /\ (debugRow v = None <-> v = JNull).
Proof.
  intros W hostname0 s.
  assert (R : forall v, debugRow v = None <-> v = JNull).
  { intros v. unfold debugRow. destruct v; simpl; split; congruence. }
  unfold debugNetworkLatency, getNetworkLatency, execSync, pingCommand.
  set (cmd := if isWindows W then _ else _). clearbody cmd.
  unfold try_catch, bind, call, modify, ret, throw. 
  destruct (exec_sync W cmd) as [dt [out|]]; cbn [fst snd].
  2: { split; [reflexivity|]. exists JNull, JNull. repeat split; auto; apply R; auto. }
  destruct (isWindows W).
  - destruct (group1 (re_average out)) as [c|] eqn:E1.
    { apply group1_inv, re_average_digits, parseInt_number in E1 as [q E1]. rewrite E1.
      split; [reflexivity|]. exists (JNum q), (JNum q). cbn [snd].
      repeat split; auto; try discriminate; apply R; auto. }
    destruct (group1 (re_time_windows out)) as [c|] eqn:E2.
    { apply group1_inv, re_time_windows_digits, parseInt_number in E2 as [q E2]. rewrite E2.
      split; [reflexivity|]. exists (JNum q), (JNum q). cbn [snd].
      repeat split; auto; try discriminate; apply R; auto. }
    destruct (group1 (re_generic out)) as [c|] eqn:E3; cbn [fst snd];
      (split; [reflexivity|]); eexists; eexists; (split; [reflexivity|]);
      (split; [reflexivity|]); (split; [congruence|]); split; auto.
  - destruct (group1 (re_time_unix out)) as [c|] eqn:E1.
    { apply group1_inv, re_time_unix_decimal, parseFloat_number in E1 as [q E1]. rewrite E1.
      split; [reflexivity|]. exists (JNum q), (JNum q). cbn [snd].
      repeat split; auto; try discriminate; apply R; auto. }
    destruct (group1 (re_generic out)) as [c|] eqn:E3; cbn [fst snd];
      (split; [reflexivity|]); eexists; eexists; (split; [reflexivity|]);
      (split; [reflexivity|]); (split; [congruence|]); split; auto.
Qed.

End CliFacts.

(** ** Reconnecting and stopping *)

Module LifecycleFacts.
Import Lifecycle.

Lemma closeCurrent_frame l :
  isValidating (closeCurrent l) = isValidating l
  /\ wsConnection (closeCurrent l) = wsConnection l
  /\ created (closeCurrent l) = created l
  /\ timers (closeCurrent l) = timers l
  /\ connecting (closeCurrent l) = connecting l.
Proof. unfold closeCurrent. destruct (wsConnection l) eqn:E; simpl; repeat split; auto. Qed.

(** Once [isValidating] is false it stays false, and what is created
    comes out of the pending timers and the waiting connects. *)
Lemma stopped_step l e :
  isValidating l = false ->
  isValidating (step l e) = false
  /\ (created (step l e) + connecting (step l e) + length (timers (step l e))
      = created l + connecting l + length (timers l))%nat
  /\ (created l <= created (step l e))%nat.
Proof.
  intros H. destruct e as [ws now|ws| | |]; simpl.
  - unfold on_close. rewrite H. auto.
  - unfold on_error. destruct (closeCurrent_frame l) as (-> & _ & -> & -> & ->). auto.
  - unfold on_timer. destruct (timers l) as [|t rest] eqn:T; simpl; rewrite ?T; simpl;
      (split; [assumption|]); split; lia.
  - unfold on_located. destruct (connecting l) as [|n] eqn:C; simpl; rewrite ?C; simpl;
      (split; [assumption|]); split; lia.
  - unfold stopValidator.
    match goal with |- context [closeCurrent ?x] =>
      destruct (closeCurrent_frame x) as (-> & _ & -> & -> & ->) end.
    simpl. auto.
Qed.

(** X25. Stopping does not cancel a reconnect, but ends reconnecting.
    [stopValidator] closes the socket it holds and clears
    [isValidating]; nothing sets the flag again. So in everything that
    happens after a stop no reconnect timer is added, and every socket
    created after the stop comes from a timer that was pending at the
    stop or from a [connectWebsocket] that was then waiting for the
    look-up of the address: the sockets created, the connects waiting
    and the timers pending add up to what they were when the validator
    was stopped. *)
Theorem no_reconnect_is_scheduled_after_stop :
  forall (l : Life) (es : list Event),
    let l0 := stopValidator l in
    let l' := run es l0 in
    isValidating l' = false
    /\ (created l' + connecting l' + length (timers l')
        = created l + connecting l + length (timers l))%nat
    /\ (created l <= created l' <= created l + connecting l + length (timers l))%nat.
Proof.
  intros l es l0 l'.
  assert (S0 : isValidating l0 = false /\ created l0 = created l
               /\ timers l0 = timers l /\ connecting l0 = connecting l).
  { unfold l0, stopValidator.
    match goal with |- context [closeCurrent ?x] =>
      destruct (closeCurrent_frame x) as (-> & _ & -> & -> & ->) end.
    auto. }
  destruct S0 as (V0 & C0 & T0 & N0). rewrite <- C0, <- T0, <- N0. subst l'.
  clearbody l0. clear C0 T0 N0 l. revert l0 V0. unfold run.
  induction es as [|e es IH]; intros l0 V0; simpl.
  - split; [assumption|]. split; lia.
  - destruct (stopped_step l0 e V0) as (V1 & E1 & L1).
    destruct (IH (step l0 e) V1) as (V2 & E2 & L2).
    split; [assumption|]. split; lia.
Qed.

Lemma known_closeCurrent l : known l -> known (closeCurrent l).
Proof.
  intros K. unfold closeCurrent. destruct (wsConnection l) as [ws|] eqn:E; [|exact K].
  destruct K as [H1 H2]. split; simpl; [now rewrite <- E|].
  intros x Hx. apply in_app_or in Hx as [Hx|[<-|[]]]; auto.
Qed.

Lemma known_step l e : known l -> known (step l e).
Proof.
  intros K. destruct e as [ws now|ws| | |]; simpl.
  - unfold on_close. destruct (isValidating l); [|assumption].
    destruct K as [H1 H2]. split; simpl; auto.
  - now apply known_closeCurrent.
  - unfold on_timer. destruct (timers l) as [|t rest]; [assumption|].
    destruct K as [H1 H2]. split; simpl; auto.
  - unfold on_located. destruct (connecting l) as [|n]; [assumption|].
    destruct K as [H1 H2]. split; simpl.
    + intros ws [= <-]. lia.
    + intros ws Hw. apply H2 in Hw. lia.
  - apply known_closeCurrent. destruct K as [H1 H2]. split; simpl; auto.
Qed.

Lemma known_run es : forall l, known l -> known (run es l).
Proof.
  unfold run. induction es as [|e es IH]; intros l K; simpl; [assumption|].
  apply IH. now apply known_step.
Qed.

(** X26. A reconnect that is pending at the stop still connects. At
    any point after the first connection at which a reconnect timer is
    pending, [stopValidator] followed by that timer and by the return
    of its look-up of the address leaves the module holding a socket
    that was created after the stop and on which [close()] has not been
    called, with [isValidating] false: when that socket closes, no
    reconnect follows. *)
Theorem pending_reconnect_survives_stop :
  forall (es : list Event),
    let l := run es (connectWebsocket loaded) in
    timers l <> [] ->
    let l' := on_located (on_timer (stopValidator l)) in
    wsConnection l' = Some (created l)
    /\ ~ In (created l) (closeCalls l')
    /\ isValidating l' = false
    /\ forall now, timers (on_close now l') = timers l'.
Proof.
  intros es l Ht l'.
  assert (K : known l).
  { apply known_run. split; simpl; [intros ws [= <-]; lia | tauto]. }
  destruct K as [K1 K2].
  subst l'. clearbody l. unfold stopValidator, closeCurrent, on_timer, on_located, on_close.
  destruct (timers l) as [|t rest] eqn:T; [contradiction|].
  destruct (wsConnection l) as [ws|] eqn:WS; simpl; rewrite ?T; simpl.
  - split; [reflexivity|]. split; [|split; reflexivity].
    intros H. apply in_app_or in H as [H|[H|[]]].
    + apply K2 in H. lia.
    + specialize (K1 ws eq_refl). lia.
  - split; [reflexivity|]. split; [|split; reflexivity].
    intros H. apply K2 in H. lia.
Qed.

Lemma pending_reconnect_witness :
  timers (run [EvClose 0 1000] (connectWebsocket loaded)) <> []
  /\ wsConnection
       (on_located (on_timer (stopValidator (run [EvClose 0 1000] (connectWebsocket loaded)))))
     = Some 1%nat.
Proof.
  assert (A : timers (run [EvClose 0 1000] (connectWebsocket loaded)) <> []) by discriminate.
  split; [exact A|].
  exact (proj1 (pending_reconnect_survives_stop [EvClose 0 1000] A)).
Defined.

End LifecycleFacts.
